(** * OceanAi: the batch email-processing pipeline and its priority scorer

    A shallow embedding of [core/processing.py], [core/agent.py],
    [core/prompts.py], [core/ingest.py], [core/drafts.py] and
    [core/dashboard.py], and of the handlers in [app.py] that write
    files; the properties of the specification proved or refuted on it,
    and further properties of the code.

    Conventions of the embedding.
    - A Python [str] is a Rocq [string]; a character stands for the code
      point of the same number, so the texts modelled are those of code
      points below 256.
    - A JSON document or Python object is a [value]; the JSON numbers
      modelled are the integers.
    - A [Dict[str, Any]] is an association list with distinct keys, in
      insertion order.
    - A call that may raise returns a [result].  Messages of exceptions
      that the interpreter words are those of CPython 3.11.
    - Code that talks to the completion service runs in the [io] monad,
      which threads the number of requests already sent and logs the
      requests and pauses.
    - A file is absent or holds a text; the parse of that text is part
      of the state of the file.  The files that the code writes, the
      prompts, the results and the drafts, may hold any document; the
      inbox, which it only reads, holds a list of emails when it
      parses.  Failures of the operating system when opening or reading
      a file, and files that are no UTF-8 text, are outside the model.
    - [json.loads] applied to a completion is a parameter.
    - The worker pool is modelled by the order in which the units of
      work complete, which is a parameter; a keyboard interrupt during
      the run is outside the model.
    - [list.sort] returns exactly when every two keys compare by [<];
      the text of the [TypeError] it raises otherwise is a parameter. *)

From Stdlib Require Import ZArith List String Ascii Bool Lia Permutation Sorted.
From Stdlib Require Import DecimalString.
Import ListNotations.

Local Open Scope string_scope.
Local Open Scope Z_scope.

(** ** Python strings *)

Module Str.

Definition chr (n : nat) : string := String (ascii_of_nat n) EmptyString.

(** Characters that cannot be written inside a literal here. *)
Definition DQ : string := chr 34.
Definition NL : string := chr 10.

Definition code (c : ascii) : N := N_of_ascii c.

Definition between (lo hi : N) (c : ascii) : bool :=
  ((lo <=? code c) && (code c <=? hi))%N.

(** [str.lower], one character: A-Z and the upper-case letters of
    Latin-1 move up by 32. *)
Definition lower_char (c : ascii) : ascii :=
  if between 65 90 c || between 192 214 c || between 216 222 c
  then ascii_of_N (code c + 32)
  else c.

Fixpoint lower (s : string) : string :=
  match s with
  | EmptyString => EmptyString
  | String c t => String (lower_char c) (lower t)
  end.

(** [str.isspace] on one character: what [strip()] removes. *)
Definition is_space (c : ascii) : bool :=
  between 9 13 c || between 28 32 c || (code c =? 133)%N || (code c =? 160)%N.

Definition is_empty (s : string) : bool :=
  match s with EmptyString => true | String _ _ => false end.

Fixpoint lstrip (s : string) : string :=
  match s with
  | EmptyString => EmptyString
  | String c t => if is_space c then lstrip t else s
  end.

Fixpoint rstrip (s : string) : string :=
  match s with
  | EmptyString => EmptyString
  | String c t =>
      let t' := rstrip t in
      if is_space c && is_empty t' then EmptyString else String c t'
  end.

Definition strip (s : string) : string := rstrip (lstrip s).

(** Line boundaries of [str.splitlines]. *)
Definition is_linebreak (c : ascii) : bool :=
  between 10 13 c || between 28 30 c || (code c =? 133)%N.

(** [split_lines cur after_cr s]: [cur] is the line being read, and
    [after_cr] says that the last character was a carriage return, so
    that a line feed right after it belongs to the same boundary. *)
Fixpoint split_lines (cur : string) (after_cr : bool) (s : string)
  : list string :=
  match s with
  | EmptyString => if is_empty cur then [] else [cur]
  | String c t =>
      if ((code c =? 10)%N && after_cr)%bool then split_lines cur false t
      else if is_linebreak c
      then cur :: split_lines EmptyString (code c =? 13)%N t
      else split_lines (cur ++ String c EmptyString) false t
  end.

Definition splitlines (s : string) : list string :=
  split_lines EmptyString false s.

Definition startswith (s pre : string) : bool := prefix pre s.

(** [sub in s]. *)
Fixpoint contains (sub s : string) : bool :=
  prefix sub s ||
  match s with
  | EmptyString => false
  | String _ t => contains sub t
  end.

(** [s.replace(old, new)]: left to right, matches do not overlap.
    [skip] counts the characters of a match still to be dropped. *)
Fixpoint replace_from (old new : string) (skip : nat) (s : string) : string :=
  match s with
  | EmptyString => if is_empty old then new else EmptyString
  | String c t =>
      match skip with
      | S k => replace_from old new k t
      | O =>
          if is_empty old then new ++ String c (replace_from old new 0 t)
          else if prefix old s
          then new ++ replace_from old new (String.length old - 1) t
          else String c (replace_from old new 0 t)
      end
  end.

Definition replace (s old new : string) : string := replace_from old new 0 s.

(** [s[:n]]. *)
Definition take (n : nat) (s : string) : string := substring 0 n s.

(** [str(n)] for an integer. *)
Definition of_Z (n : Z) : string := NilEmpty.string_of_int (Z.to_int n).

Definition hex_digit (n : N) : string :=
  String (ascii_of_N (if (n <? 10)%N then 48 + n else 87 + n)) EmptyString.

(** Two lower-case hexadecimal digits. *)
Definition hex2 (c : ascii) : string :=
  hex_digit (code c / 16) ++ hex_digit (code c mod 16).

Fixpoint join (sep : string) (l : list string) : string :=
  match l with
  | [] => EmptyString
  | [x] => x
  | x :: rest => x ++ sep ++ join sep rest
  end.

Fixpoint repeat (s : string) (n : nat) : string :=
  match n with O => EmptyString | S k => s ++ repeat s k end.

(** [s.split()]: the runs of characters that are no spaces.  [cur] is
    the run being read. *)
Fixpoint split_ws (cur : string) (s : string) : list string :=
  match s with
  | EmptyString => if is_empty cur then [] else [cur]
  | String c t =>
      if is_space c
      then if is_empty cur then split_ws EmptyString t
           else cur :: split_ws EmptyString t
      else split_ws (cur ++ String c EmptyString) t
  end.

Definition split (s : string) : list string := split_ws EmptyString s.

(** [c in chars]. *)
Fixpoint member (c : ascii) (chars : string) : bool :=
  match chars with
  | EmptyString => false
  | String x rest => Ascii.eqb c x || member c rest
  end.

Fixpoint lstrip_chars (chars s : string) : string :=
  match s with
  | EmptyString => EmptyString
  | String c t => if member c chars then lstrip_chars chars t else s
  end.

Fixpoint rstrip_chars (chars s : string) : string :=
  match s with
  | EmptyString => EmptyString
  | String c t =>
      let t' := rstrip_chars chars t in
      if member c chars && is_empty t' then EmptyString else String c t'
  end.

(** [s.strip(chars)]. *)
Definition strip_chars (s chars : string) : string :=
  rstrip_chars chars (lstrip_chars chars s).

(** [s[n:]]. *)
Fixpoint drop (n : nat) (s : string) : string :=
  match n, s with
  | O, _ => s
  | S k, EmptyString => EmptyString
  | S k, String _ t => drop k t
  end.

(** [s.split(sep, 1)[1]] for a separator that is not empty: what comes
    after the first [sep] in [s], if there is one. *)
Fixpoint after_first (sep s : string) : option string :=
  if prefix sep s then Some (drop (String.length sep) s)
  else match s with
       | EmptyString => None
       | String _ t => after_first sep t
       end.

(** [s.split(sep)] for a separator of one character; [cur] is the part
    being read. *)
Fixpoint split_on (sep : ascii) (cur s : string) : list string :=
  match s with
  | EmptyString => [cur]
  | String c t =>
      if Ascii.eqb c sep then cur :: split_on sep EmptyString t
      else split_on sep (cur ++ String c EmptyString) t
  end.

End Str.

(** ** Python objects, exceptions and results *)

#[local] Set Warnings "-register-all".

Inductive value : Type :=
| VNone
| VBool (b : bool)
| VInt (n : Z)
| VStr (s : string)
| VList (items : list value)
| VDict (entries : list (string * value)).

Definition dict : Type := list (string * value).

(** The classes of exception the modelled code meets.  [RequestsTimeout]
    is [requests.exceptions.Timeout] and its subclasses, [RequestsError]
    any other exception of [requests]. *)
Inductive exn_class : Type :=
| RuntimeError | KeyError | IndexError | TypeError | AttributeError
| JSONDecodeError | RecursionError | RequestsTimeout | RequestsError.

(** An exception: its class and [str(e)]. *)
Record exn : Type := Exn { exn_cls : exn_class; exn_str : string }.

Inductive result (A : Type) : Type :=
| Ok (a : A)
| Raise (e : exn).
Arguments Ok {A} a.
Arguments Raise {A} e.

Module Py.

Fixpoint get (d : dict) (k : string) : option value :=
  match d with
  | [] => None
  | (k', v) :: rest => if String.eqb k k' then Some v else get rest k
  end.

(** [d.get(k)]: [None] for an absent key. *)
Definition get_or_none (d : dict) (k : string) : value :=
  match get d k with Some v => v | None => VNone end.

(** [d.get(k, default)]. *)
Definition get_or (d : dict) (k : string) (default : value) : value :=
  match get d k with Some v => v | None => default end.

(** [d[k] = v]: replaces the value of a key already there, otherwise
    appends. *)
Fixpoint set (d : dict) (k : string) (v : value) : dict :=
  match d with
  | [] => [(k, v)]
  | (k', v') :: rest =>
      if String.eqb k k' then (k, v) :: rest else (k', v') :: set rest k v
  end.

Definition keys (d : dict) : list string := map fst d.

(** Truth value of an object, as [if x], [not x] and [x or y] take it. *)
Definition truthy (v : value) : bool :=
  match v with
  | VNone => false
  | VBool b => b
  | VInt n => negb (n =? 0)
  | VStr s => negb (Str.is_empty s)
  | VList l => match l with [] => false | _ => true end
  | VDict d => match d with [] => false | _ => true end
  end.

Definition type_name (v : value) : string :=
  match v with
  | VNone => "NoneType"
  | VBool _ => "bool"
  | VInt _ => "int"
  | VStr _ => "str"
  | VList _ => "list"
  | VDict _ => "dict"
  end.

(** [str.isprintable] on one character. *)
Definition printable (c : ascii) : bool :=
  Str.between 32 126 c
  || (Str.between 161 255 c && negb (Str.code c =? 173)%N).

Definition APOS : string := Str.chr 39.
Definition BSL : string := Str.chr 92.

Definition repr_char (quote : string) (c : ascii) : string :=
  let s := String c EmptyString in
  if String.eqb s quote || String.eqb s BSL then BSL ++ s
  else if (Str.code c =? 9)%N then BSL ++ "t"
  else if (Str.code c =? 10)%N then BSL ++ "n"
  else if (Str.code c =? 13)%N then BSL ++ "r"
  else if printable c then s
  else BSL ++ "x" ++ Str.hex2 c.

Fixpoint repr_chars (quote : string) (s : string) : string :=
  match s with
  | EmptyString => EmptyString
  | String c t => repr_char quote c ++ repr_chars quote t
  end.

(** [repr] of a [str]: single quotes, unless the text holds a single
    quote and no double quote. *)
Definition repr_str (s : string) : string :=
  let quote :=
    if Str.contains APOS s && negb (Str.contains Str.DQ s)
    then Str.DQ else APOS in
  quote ++ repr_chars quote s ++ quote.

Fixpoint repr (v : value) : string :=
  match v with
  | VNone => "None"
  | VBool true => "True"
  | VBool false => "False"
  | VInt n => Str.of_Z n
  | VStr s => repr_str s
  | VList l => "[" ++ Str.join ", " (map repr l) ++ "]"
  | VDict d =>
      "{" ++ Str.join ", "
               (map (fun kv => let '(k, x) := kv in
                               repr_str k ++ ": " ++ repr x) d)
          ++ "}"
  end.

(** [str(v)], which is also what an f-string puts for [{v}]. *)
Definition str (v : value) : string :=
  match v with
  | VStr s => s
  | _ => repr v
  end.

(** [v == s] for a [str] literal [s]. *)
Definition eq_str (v : value) (s : string) : bool :=
  match v with
  | VStr t => String.eqb t s
  | _ => false
  end.

(** [x or y]. *)
Definition or_else (x y : value) : value := if truthy x then x else y.

Definition raise {A : Type} (c : exn_class) (msg : string) : result A :=
  Raise (Exn c msg).

Definition not_subscriptable {A : Type} (v : value) : result A :=
  raise TypeError (APOS ++ type_name v ++ APOS ++ " object is not subscriptable").

(** [v[k]] for a [str] key [k]; messages as CPython 3.11 words them. *)
Definition getitem (v : value) (k : string) : result value :=
  match v with
  | VDict d =>
      match get d k with
      | Some x => Ok x
      | None => raise KeyError (repr_str k)
      end
  | VList _ => raise TypeError "list indices must be integers or slices, not str"
  | VStr _ => raise TypeError ("string indices must be integers, not " ++ APOS ++ "str" ++ APOS)
  | _ => not_subscriptable v
  end.

(** [v[0]]. *)
Definition first (v : value) : result value :=
  match v with
  | VList (x :: _) => Ok x
  | VList [] => raise IndexError "list index out of range"
  | VStr (String c _) => Ok (VStr (String c EmptyString))
  | VStr EmptyString => raise IndexError "string index out of range"
  | VDict d =>
      (* the keys of a JSON object are strings, 0 is none of them *)
      raise KeyError "0"
  | _ => not_subscriptable v
  end.

(** [v.strip()]. *)
Definition strip (v : value) : result string :=
  match v with
  | VStr s => Ok (Str.strip s)
  | _ => raise AttributeError
           (APOS ++ type_name v ++ APOS ++ " object has no attribute "
                 ++ APOS ++ "strip" ++ APOS)
  end.

(** What [v.name] raises when the class of [v] has no such attribute. *)
Definition no_attribute {A : Type} (v : value) (name : string) : result A :=
  raise AttributeError
        (APOS ++ type_name v ++ APOS ++ " object has no attribute "
              ++ APOS ++ name ++ APOS).

(** [v.get(k, default)]: a method of dicts. *)
Definition get_method (v : value) (k : string) (default : value)
  : result value :=
  match v with
  | VDict d => Ok (get_or d k default)
  | _ => no_attribute v "get"
  end.

(** The items of an object that is a dict. *)
Definition entries (v : value) : dict :=
  match v with VDict d => d | _ => [] end.

(** [v[:n]]: strings and lists can be sliced. *)
Definition slice_to (n : nat) (v : value) : result value :=
  match v with
  | VStr s => Ok (VStr (Str.take n s))
  | VList l => Ok (VList (firstn n l))
  | VDict _ => raise TypeError "unhashable type: 'slice'"
  | _ => not_subscriptable v
  end.

(** *** [==] and [<] *)

(** The number that an [int] or a [bool] is. *)
Definition number (v : value) : option Z :=
  match v with
  | VInt n => Some n
  | VBool b => Some (if b then 1 else 0)
  | _ => None
  end.

(** [found] applied to the value of key [k] in [d]; [false] without
    such a key. *)
Fixpoint at_key (d : dict) (k : string) (found : value -> bool) : bool :=
  match d with
  | [] => false
  | (k', x) :: rest => if String.eqb k k' then found x else at_key rest k found
  end.

(** [a == b]: numbers by value, lists item by item, dicts key by key
    whatever the order of the keys. *)
Fixpoint eqb (a b : value) {struct a} : bool :=
  match a, b with
  | VNone, VNone => true
  | VStr s, VStr t => String.eqb s t
  | VInt x, VInt y => x =? y
  | VInt x, VBool c => x =? (if c then 1 else 0)
  | VBool c, VInt y => (if c then 1 else 0) =? y
  | VBool c, VBool c' => Bool.eqb c c'
  | VList la, VList lb =>
      (fix items (la lb : list value) {struct la} : bool :=
         match la, lb with
         | [], [] => true
         | x :: la', y :: lb' => eqb x y && items la' lb'
         | _, _ => false
         end) la lb
  | VDict da, VDict db =>
      forallb (fun kx => at_key db (fst kx) (fun y => eqb (snd kx) y)) da
      && forallb (fun ky =>
                    (fix find (da' : dict) : bool :=
                       match da' with
                       | [] => false
                       | (k, x) :: rest =>
                           if String.eqb (fst ky) k then eqb x (snd ky)
                           else find rest
                       end) da) db
  | _, _ => false
  end.

(** [a < b].  Numbers and strings are ordered among themselves; of two
    lists the first items that differ decide, and a list that runs out
    comes first; everything else raises. *)
Fixpoint lt (a b : value) {struct a} : result bool :=
  match a, b with
  | VList la, VList lb =>
      (fix items (la lb : list value) {struct la} : result bool :=
         match la, lb with
         | [], [] => Ok false
         | [], _ :: _ => Ok true
         | _ :: _, [] => Ok false
         | x :: la', y :: lb' => if eqb x y then items la' lb' else lt x y
         end) la lb
  | VStr s, VStr t => Ok (String.ltb s t)
  | _, _ =>
      match number a, number b with
      | Some x, Some y => Ok (x <? y)
      | _, _ =>
          raise TypeError
                ("'<' not supported between instances of " ++ APOS
                 ++ type_name a ++ APOS ++ " and " ++ APOS ++ type_name b
                 ++ APOS)
      end
  end.

(** *** Objects as keys of a dict *)

(** [hash(k)] raises for lists and dicts. *)
Definition check_hashable (k : value) : result unit :=
  match k with
  | VList _ | VDict _ =>
      raise TypeError ("unhashable type: " ++ APOS ++ type_name k ++ APOS)
  | _ => Ok tt
  end.

(** [a == b] on hashable objects: numbers by value, [True] being 1. *)
Definition key_eqb (a b : value) : bool :=
  match a, b with
  | VNone, VNone => true
  | VStr s, VStr t => String.eqb s t
  | VInt x, VInt y => x =? y
  | VInt x, VBool b => x =? (if b then 1 else 0)
  | VBool b, VInt y => (if b then 1 else 0) =? y
  | VBool b, VBool c => Bool.eqb b c
  | _, _ => false
  end.

(** A dict whose keys are any hashable objects. *)
Definition keyed (A : Type) : Type := list (value * A).

Fixpoint keyed_get {A : Type} (d : keyed A) (k : value) : option A :=
  match d with
  | [] => None
  | (k', v) :: rest => if key_eqb k k' then Some v else keyed_get rest k
  end.

(** [d[k] = v]. *)
Fixpoint keyed_set {A : Type} (d : keyed A) (k : value) (v : A) : keyed A :=
  match d with
  | [] => [(k, v)]
  | (k', v') :: rest =>
      if key_eqb k k' then (k', v) :: rest else (k', v') :: keyed_set rest k v
  end.

End Py.

Notation "'let?' x ':=' m 'in' k" :=
  (match m with Ok x => k | Raise e => Raise e end)
  (at level 10, x pattern, m at level 100, k at level 200).

(** ** [json.dump(obj, f, indent=2, ensure_ascii=False)] *)

Module Json.

Definition escape_char (c : ascii) : string :=
  let s := String c EmptyString in
  if String.eqb s Str.DQ || String.eqb s Py.BSL then Py.BSL ++ s
  else if (Str.code c =? 10)%N then Py.BSL ++ "n"
  else if (Str.code c =? 13)%N then Py.BSL ++ "r"
  else if (Str.code c =? 9)%N then Py.BSL ++ "t"
  else if (Str.code c =? 8)%N then Py.BSL ++ "b"
  else if (Str.code c =? 12)%N then Py.BSL ++ "f"
  else if (Str.code c <? 32)%N then Py.BSL ++ "u00" ++ Str.hex2 c
  else s.

Fixpoint escape (s : string) : string :=
  match s with
  | EmptyString => EmptyString
  | String c t => escape_char c ++ escape t
  end.

Definition quoted (s : string) : string := Str.DQ ++ escape s ++ Str.DQ.

Definition indentation (level : nat) : string := Str.repeat "  " level.

Definition block (open close : string) (level : nat) (items : list string)
  : string :=
  match items with
  | [] => open ++ close
  | _ =>
      open ++ Str.NL ++ indentation (S level)
           ++ Str.join ("," ++ Str.NL ++ indentation (S level)) items
           ++ Str.NL ++ indentation level ++ close
  end.

Fixpoint dumps (level : nat) (v : value) : string :=
  match v with
  | VNone => "null"
  | VBool true => "true"
  | VBool false => "false"
  | VInt n => Str.of_Z n
  | VStr s => quoted s
  | VList l => block "[" "]" level (map (dumps (S level)) l)
  | VDict d =>
      block "{" "}" level
            (map (fun kv => let '(k, x) := kv in
                            quoted k ++ ": " ++ dumps (S level) x) d)
  end.

Definition dump_records (l : list dict) : string :=
  dumps 0 (VList (map VDict l)).

End Json.

(** ** Files

    A JSON file as its readers see it: absent, or a text together with
    what [json.load] makes of that text, a document of the annotated
    type or the exception it raises. *)

Inductive file (A : Type) : Type :=
| Missing
| Text (raw : string) (doc : result A).
Arguments Missing {A}.
Arguments Text {A} raw doc.


(** ** The completion service, and code that talks to it *)

(** What [resp.json()] makes of a response body: a document, or a
    [JSONDecodeError] with its message. *)
Inductive decoded : Type :=
| Doc (v : value)
| NotJson (msg : string).

(** What one [requests.post] brings back: a response ([status_code],
    [text] and the outcome of [json()]) or the exception it raises. *)
Inductive reply : Type :=
| Http (status : Z) (text : string) (json : decoded)
| Fails (e : exn).

(** The service as one unit of work meets it: the reply to its first,
    second, ... request. *)
Definition service : Type := nat -> reply.

(** What a unit of work does to the outside: requests (with the
    [max_tokens] of the payload and the [timeout] of the call, when
    given) and pauses, in milliseconds. *)
Inductive event : Type :=
| Post (prompt : string) (max_tokens timeout : option Z)
| Sleep (ms : Z).

(** [io A]: given the service and the number of requests already sent,
    an outcome, the new number of requests, and the events in order. *)
Definition io (A : Type) : Type :=
  service -> nat -> result A * nat * list event.

Module IO.

Definition ret {A : Type} (a : A) : io A := fun _ n => (Ok a, n, []).

Definition lift {A : Type} (r : result A) : io A := fun _ n => (r, n, []).

Definition raise {A : Type} (c : exn_class) (msg : string) : io A :=
  lift (Raise (Exn c msg)).

Definition bind {A B : Type} (m : io A) (k : A -> io B) : io B :=
  fun svc n =>
    match m svc n with
    | (Ok a, n1, l1) => let '(r, n2, l2) := k a svc n1 in (r, n2, (l1 ++ l2)%list)
    | (Raise e, n1, l1) => (Raise e, n1, l1)
    end.

(** [try: m  except Exception as e: handler e]. *)
Definition try_except {A : Type} (m : io A) (handler : exn -> io A) : io A :=
  fun svc n =>
    match m svc n with
    | (Ok a, n1, l1) => (Ok a, n1, l1)
    | (Raise e, n1, l1) =>
        let '(r, n2, l2) := handler e svc n1 in (r, n2, (l1 ++ l2)%list)
    end.

Definition post (prompt : string) (max_tokens timeout : option Z) : io reply :=
  fun svc n => (Ok (svc n), S n, [Post prompt max_tokens timeout]).

Definition sleep (ms : Z) : io unit := fun _ n => (Ok tt, n, [Sleep ms]).

End IO.

Notation "x <- m ;; k" := (IO.bind m (fun x => k))
  (at level 61, m at next level, right associativity).
Notation "m ;;; k" := (IO.bind m (fun _ => k))
  (at level 61, right associativity).

(** [data["choices"][0]["message"]["content"].strip()] on the outcome of
    [resp.json()]. *)
Definition message_content (json : decoded) : result string :=
  let? data := match json with
               | Doc v => Ok v
               | NotJson msg => Py.raise JSONDecodeError msg
               end in
  let? choices := Py.getitem data "choices" in
  let? choice := Py.first choices in
  let? message := Py.getitem choice "message" in
  let? content := Py.getitem message "content" in
  Py.strip content.

Definition requests_sent (log : list event) : nat :=
  List.length
    (filter (fun ev => match ev with Post _ _ _ => true | _ => false end) log).

Definition pauses (log : list event) : list Z :=
  flat_map (fun ev => match ev with Sleep ms => [ms] | _ => [] end) log.

(** ** A stable sort on a key, by insertion *)

Module Sorting.
Section On.
Context {A K : Type} (key : A -> K) (leb : K -> K -> bool).

(** [x] goes before the first element whose key is not below its own,
    so elements with equal keys keep their order. *)
Fixpoint insert (x : A) (l : list A) : list A :=
  match l with
  | [] => [x]
  | y :: t => if leb (key x) (key y) then x :: y :: t else y :: insert x t
  end.

Fixpoint sort (l : list A) : list A :=
  match l with
  | [] => []
  | x :: t => insert x (sort t)
  end.

(** [x] is not above [y] by their keys. *)
Definition key_le (x y : A) : Prop := leb (key x) (key y) = true.
End On.
End Sorting.

(** ** core/prompts.py *)

Module Prompts.

Definition DEFAULT_PROMPTS : dict :=
  [ ("categorization_prompt",
     VStr ("You are an email categorization assistant. "
        ++ "Categorize this email into one of these categories: Important, Newsletter, Spam, To-Do. "
        ++ "To-Do emails must include a direct request requiring user action. "
        ++ "Reply ONLY with the category name."));
    ("action_item_prompt",
     VStr ("Extract all action items and deadlines from this email. Respond in JSON as a list under 'tasks': "
        ++ "[{" ++ Str.DQ ++ "task" ++ Str.DQ ++ ": " ++ Str.DQ ++ "..." ++ Str.DQ
        ++ ", " ++ Str.DQ ++ "deadline" ++ Str.DQ ++ ": " ++ Str.DQ ++ "..." ++ Str.DQ
        ++ "}]. If there is no explicit deadline, set "
        ++ Str.DQ ++ "deadline" ++ Str.DQ ++ ": null."));
    ("auto_reply_prompt",
     VStr ("You write polite, concise professional replies. Draft a reply to this email based on the user's tone: "
        ++ "friendly but professional. If it is a meeting request, ask for an agenda and confirm time. "
        ++ "Respond with Subject and Body in a clearly marked format.")) ].

(** [json.load] is not guarded here: what it raises reaches the caller,
    and so does a document that is no dict. *)
Definition load_prompts (f : file value) : result value :=
  match f with
  | Missing => Ok (VDict DEFAULT_PROMPTS)
  | Text _ doc => doc
  end.

Definition save_prompts (prompts : dict) : file value :=
  Text (Json.dumps 0 (VDict prompts)) (Ok (VDict prompts)).

End Prompts.

(** ** core/ingest.py *)

Module Ingest.

Definition load_mock_inbox (f : file (list dict)) : list dict :=
  match f with
  | Missing => []
  | Text _ (Ok emails) => emails
  | Text _ (Raise _) => []
  end.

End Ingest.

(** ** core/drafts.py *)

Module Drafts.

(** What [json.load] returns is returned, a list or not; whatever it
    raises gives the empty list. *)
Definition load_drafts (f : file value) : result value :=
  match f with
  | Missing => Ok (VList [])
  | Text _ (Ok drafts) => Ok drafts
  | Text _ (Raise _) => Ok (VList [])
  end.

Definition save_drafts (drafts : list value) : file value :=
  Text (Json.dumps 0 (VList drafts)) (Ok (VList drafts)).

End Drafts.

(** The three lines that show an email to the model, shared by every
    prompt. *)
Definition email_lines (email : dict) : string :=
  "Sender: " ++ Py.str (Py.get_or_none email "sender") ++ Str.NL
  ++ "Subject: " ++ Py.str (Py.get_or_none email "subject") ++ Str.NL
  ++ "Body:" ++ Str.NL
  ++ Py.str (Py.get_or_none email "body").

(** ** core/agent.py *)

Module Agent.

(** One request, no [timeout], no retry. *)
Definition call_openrouter (prompt : string) : io string :=
  r <- IO.post prompt None None ;;
  match r with
  | Fails e => IO.lift (Raise e)
  | Http status text json =>
      if negb (status =? 200)
      then IO.raise RuntimeError
             ("OpenRouter Error " ++ Str.of_Z status ++ ": " ++ text)
      else IO.lift (message_content json)
  end.

Definition ask_grok (user_query : value) (email : dict) : io string :=
  call_openrouter
    (Str.NL ++ "You are an email assistant." ++ Str.NL ++ Str.NL
     ++ "Email:" ++ Str.NL ++ email_lines email ++ Str.NL ++ Str.NL
     ++ "User question:" ++ Str.NL ++ Py.str user_query ++ Str.NL ++ Str.NL
     ++ "Give a short, clear answer." ++ Str.NL).

Definition generate_reply_draft (prompts_file : file value) (email : dict)
  : io string :=
  prompts <- IO.lift (Prompts.load_prompts prompts_file) ;;
  auto_reply_prompt <-
    IO.lift (Py.get_method prompts "auto_reply_prompt"
                           (VStr "Write a polite reply to this email.")) ;;
  call_openrouter
    (Py.str auto_reply_prompt ++ Str.NL ++ Str.NL
     ++ "Original Email:" ++ Str.NL ++ email_lines email ++ Str.NL ++ Str.NL
     ++ "Generate the reply now:" ++ Str.NL).

End Agent.

(** ** core/processing.py *)

(** The state of the three files the batch run touches. *)
Record world : Type := World {
  inbox : file (list dict);
  prompts_file : file value;
  processed_file : file value
}.

(** What the batch run prints. *)
Inductive line : Type :=
| Started (emails workers : nat)
| Progress (completed total : nat) (subject : string) (category : option string)
| LoopError (text : string)
| Summary (success errors : nat).

(** A batch run as its caller and the outside see it: what it returns or
    raises, the files afterwards, the events of each submitted unit of
    work (in submission order), and the printed lines. *)
Record outcome : Type := Outcome {
  returned : result (list dict);
  after : world;
  work : list (list event);
  console : list line
}.

Module Processing.

Definition MAX_WORKERS : nat := 5.
Definition REQUEST_TIMEOUT : Z := 20.
Definition RATE_LIMIT_DELAY : Z := 200.

(** The [for attempt in range(2)] loop of [call_openrouter], on the
    attempts still to make. *)
Fixpoint attempts (prompt : string) (todo : list nat) : io string :=
  match todo with
  | [] => IO.raise RuntimeError "Failed after retries"
  | attempt :: rest =>
      r <- IO.post prompt (Some 300) (Some REQUEST_TIMEOUT) ;;
      match r with
      | Http status _ json =>
          if status =? 200 then IO.lift (message_content json)
          else if status =? 429 then IO.sleep 2000 ;;; attempts prompt rest
          else IO.raise RuntimeError ("API Error " ++ Str.of_Z status)
      | Fails e =>
          match exn_cls e with
          | RequestsTimeout =>
              if (attempt =? 0)%nat
              then IO.sleep 1000 ;;; attempts prompt rest
              else IO.raise RuntimeError "Timeout"
          | _ => IO.lift (Raise e)
          end
      end
  end.

Definition call_openrouter (prompt : string) : io string :=
  attempts prompt (seq 0 2).

Definition categorization_request (email : dict) (categorization_prompt : value)
  : string :=
  Py.str categorization_prompt ++ Str.NL ++ Str.NL
  ++ "Email:" ++ Str.NL ++ email_lines email ++ Str.NL ++ Str.NL
  ++ "Respond with ONLY the category name (like: "
  ++ Str.DQ ++ "Work" ++ Str.DQ ++ ", "
  ++ Str.DQ ++ "Personal" ++ Str.DQ ++ ", "
  ++ Str.DQ ++ "Urgent" ++ Str.DQ ++ ", etc.).".

(** [out.splitlines()[0].strip()]. *)
Definition first_line (out : string) : result string :=
  match Str.splitlines out with
  | [] => Py.raise IndexError "list index out of range"
  | l :: _ => Ok (Str.strip l)
  end.

Definition categorize_email (email : dict) (categorization_prompt : value)
  : io string :=
  out <- call_openrouter (categorization_request email categorization_prompt) ;;
  IO.lift (first_line out).

Definition action_request (email : dict) (action_prompt : value) : string :=
  Py.str action_prompt ++ Str.NL ++ Str.NL
  ++ "Email:" ++ Str.NL ++ email_lines email ++ Str.NL ++ Str.NL
  ++ "Respond ONLY with valid JSON." ++ Str.NL
  ++ "Do NOT use backticks or markdown.".

(** The cleaning of [extract_actions]. *)
Definition clean_json (out : string) : string :=
  let raw := Str.strip out in
  if Str.startswith raw "```"
  then Str.strip (Str.replace (Str.replace raw "```json" EmptyString)
                              "```" EmptyString)
  else raw.

Section WithParser.

(** [json.loads]: the document, or [None] when it raises. *)
Variable json_loads : string -> option value.

Definition parse_or_raw (raw : string) : value :=
  match json_loads raw with
  | Some v => v
  | None => VStr raw
  end.

Definition extract_actions (email : dict) (action_prompt : value)
  : io value :=
  out <- call_openrouter (action_request email action_prompt) ;;
  IO.ret (parse_or_raw (clean_json out)).

(** The five fields every returned record copies from the email. *)
Definition copied (email : dict) : dict :=
  [ ("id", Py.get_or_none email "id");
    ("sender", Py.get_or_none email "sender");
    ("subject", Py.get_or_none email "subject");
    ("timestamp", Py.get_or_none email "timestamp");
    ("body", Py.get_or_none email "body") ].

Definition success_record (email : dict) (category : string) (actions : value)
  : dict :=
  (copied email
    ++ [ ("category", VStr category);
         ("actions", actions);
         ("status", VStr "success") ])%list.

Definition error_record (email : dict) (e : exn) : dict :=
  (copied email
    ++ [ ("category", VStr "Error");
         ("actions", VStr ("Processing failed: " ++ exn_str e));
         ("status", VStr "error") ])%list.

(** The body of the [try] in [process_single_email]. *)
Definition enrich (email prompts : dict) : io dict :=
  IO.sleep RATE_LIMIT_DELAY ;;;
  cat_prompt <- IO.lift (Py.getitem (VDict prompts) "categorization_prompt") ;;
  category <- categorize_email email cat_prompt ;;
  act_prompt <- IO.lift (Py.getitem (VDict prompts) "action_item_prompt") ;;
  actions <- extract_actions email act_prompt ;;
  IO.ret (success_record email category actions).

Definition process_single_email (email prompts : dict) : io dict :=
  IO.try_except (enrich email prompts)
                (fun e => IO.ret (error_record email e)).

End WithParser.

Definition save_processed (processed : list dict) : file value :=
  Text (Json.dump_records processed) (Ok (VList (map VDict processed))).

(** Only [json.JSONDecodeError] is caught; a document that parses is
    returned, a list or not. *)
Definition load_processed (f : file value) : result value :=
  match f with
  | Missing => Ok (VList [])
  | Text raw doc =>
      let content := Str.strip raw in
      if Str.is_empty content then Ok (VList [])
      else match doc with
           | Ok processed => Ok processed
           | Raise e =>
               match exn_cls e with
               | JSONDecodeError => Ok (VList [])
               | _ => Raise e
               end
           end
  end.

(** *** Ordering the collected records by [x["id"]]

    [list.sort] compares keys by [<] only, and returns only when every
    comparison it made was answered.  Answered comparisons never tell
    which of two keys that do not compare comes first: what compares
    with both is below both or above both.  So a sort that returns has
    met no such two keys; it returns exactly when every two keys
    compare, and then with the stable ordering by [<].  Which
    comparison fails first otherwise, and with it the text of the
    [TypeError], depends on the steps of CPython's sort: that text is a
    parameter. *)

Definition as_number (v : value) : option Z :=
  match v with
  | VInt n => Some n
  | VBool b => Some (if b then 1 else 0)
  | _ => None
  end.

Definition as_text (v : value) : option string :=
  match v with
  | VStr s => Some s
  | _ => None
  end.

Definition is_number (v : value) : bool :=
  match as_number v with Some _ => true | None => false end.

Definition is_text (v : value) : bool :=
  match as_text v with Some _ => true | None => false end.

Definition number_key (r : dict) : Z :=
  match as_number (Py.get_or_none r "id") with Some n => n | None => 0 end.

Definition text_key (r : dict) : string :=
  match as_text (Py.get_or_none r "id") with Some s => s | None => EmptyString end.

(** The keys [x["id"]], computed for all records before any comparison. *)
Fixpoint id_keys (l : list dict) : result (list value) :=
  match l with
  | [] => Ok []
  | r :: t =>
      let? k := Py.getitem (VDict r) "id" in
      let? ks := id_keys t in
      Ok (k :: ks)
  end.

(** [a < b] and [b < a] are both answered. *)
Definition compares (a b : value) : bool :=
  match Py.lt a b, Py.lt b a with
  | Ok _, Ok _ => true
  | _, _ => false
  end.

(** Every two of the keys compare. *)
Fixpoint all_compare (keys : list value) : bool :=
  match keys with
  | [] => true
  | k :: rest => forallb (compares k) rest && all_compare rest
  end.

(** [a] may stay before [b]: [b < a] is not the case. *)
Definition precedes (a b : value) : bool :=
  match Py.lt b a with
  | Ok true => false
  | _ => true
  end.

(** [processed.sort(key=lambda x: x["id"])]; [sort_error] is the text
    of the [TypeError] for keys that do not all compare. *)
Definition sort_by_id (sort_error : list value -> string)
  (processed : list dict) : result (list dict) :=
  let? keys := id_keys processed in
  if all_compare keys
  then Ok (Sorting.sort (fun r => Py.get_or_none r "id") precedes processed)
  else Py.raise TypeError (sort_error keys).

(** *** The collection loop *)

(** The line printed for one collected record. *)
Definition progress_line (rec : dict) (completed total : nat) : result line :=
  let? status := Py.getitem (VDict rec) "status" in
  if Py.eq_str status "success"
  then
    let? subject := Py.getitem (VDict rec) "subject" in
    let? label := Py.slice_to 40 subject in
    let? category := Py.getitem (VDict rec) "category" in
    Ok (Progress completed total (Py.str label) (Some (Py.str category)))
  else
    let? subject := Py.getitem (VDict rec) "subject" in
    let? label := Py.slice_to 40 subject in
    Ok (Progress completed total (Py.str label) None).

(** [for future in as_completed(...)], on the futures in the order they
    complete.  An exception, from [future.result()] or from building the
    progress line, ends the loop: the enclosing [except Exception] prints
    it and the run goes on with what was collected. *)
Fixpoint collect (total : nat) (arrivals : list (result dict))
  (processed : list dict) (completed : nat) : list dict * list line :=
  match arrivals with
  | [] => (processed, [])
  | Raise e :: _ => (processed, [LoopError (exn_str e)])
  | Ok rec :: rest =>
      let processed := (processed ++ [rec])%list in
      let completed := S completed in
      match progress_line rec completed total with
      | Raise e => (processed, [LoopError (exn_str e)])
      | Ok ln =>
          let '(done, printed) := collect total rest processed completed in
          (done, ln :: printed)
      end
  end.

Definition is_success (p : dict) : bool :=
  Py.eq_str (Py.get_or_none p "status") "success".

Definition indexed {A : Type} (l : list A) : list (nat * A) :=
  combine (seq 0 (List.length l)) l.

Section Pipeline.

Variable json_loads : string -> option value.

(** The service as each unit of work meets it, by position of its
    email in the inbox. *)
Variable svc : nat -> service.

(** When each unit of work completes: [as_completed] yields the
    futures by increasing [finish]. *)
Variable finish : nat -> nat.

(** The text of the [TypeError] of the final sort, by the keys. *)
Variable sort_error : list value -> string.

(** [executor.submit(process_single_email, email, prompts)] for every
    email: each unit of work runs to its end. *)
Definition submit_all (emails : list dict) (prompts : dict)
  : list (nat * (result dict * nat * list event)) :=
  map (fun ie => (fst ie,
                  process_single_email json_loads (snd ie) prompts
                                       (svc (fst ie)) 0%nat))
      (indexed emails).

Definition as_completed {B : Type} (futures : list (nat * B)) : list (nat * B) :=
  Sorting.sort (fun f => finish (fst f)) Nat.leb futures.

Definition future_result (f : nat * (result dict * nat * list event))
  : result dict := fst (fst (snd f)).

Definition future_events (f : nat * (result dict * nat * list event))
  : list event := snd (snd f).

Definition run_ingestion_pipeline (w : world) : outcome :=
  let emails := Ingest.load_mock_inbox (inbox w) in
  if negb (Py.truthy (VList (map VDict emails)))
  then Outcome
         (Py.raise RuntimeError
                   "No emails found. Put data/mock_inbox.json first.")
         w [] []
  else
    match
      (let? prompts := Prompts.load_prompts (prompts_file w) in
       let? cat_prompt := Py.getitem prompts "categorization_prompt" in
       let? act_prompt := Py.getitem prompts "action_item_prompt" in
       Ok prompts)
    with
    | Raise e => Outcome (Raise e) w [] []
    | Ok prompts =>
        let total := List.length emails in
        let futures := submit_all emails (Py.entries prompts) in
        let '(processed, printed) :=
          collect total (map future_result (as_completed futures)) [] 0%nat in
        let events := map future_events futures in
        let shown := Started total MAX_WORKERS :: printed in
        match sort_by_id sort_error processed with
        | Raise e => Outcome (Raise e) w events shown
        | Ok sorted =>
            let success_count := List.length (filter is_success sorted) in
            let error_count := (List.length sorted - success_count)%nat in
            Outcome (Ok sorted)
                    (World (inbox w) (prompts_file w) (save_processed sorted))
                    events
                    (shown ++ [Summary success_count error_count])%list
        end
    end.

End Pipeline.

End Processing.

(** ** core/dashboard.py *)

Module Dashboard.

Definition _count_actions (actions : value) : Z :=
  match actions with
  | VNone => 0
  | VDict d =>
      match Py.get_or_none d "tasks" with
      | VList tasks => Z.of_nat (List.length tasks)
      | _ => 0
      end
  | VList l => Z.of_nat (List.length l)
  | _ => 0
  end.

Definition urgent_keywords : list string :=
  ["urgent"; "asap"; "immediately"; "critical"; "high priority"].
Definition deadline_keywords : list string :=
  ["deadline"; "by "; "before "; "due "; "last date"; "submit"].
Definition meeting_keywords : list string :=
  ["meeting"; "call"; "discussion"; "review"; "planning"].

(** [any(k in text for k in keywords)]. *)
Definition any_in (keywords : list string) (text : string) : bool :=
  existsb (fun k => Str.contains k text) keywords.

(** [isinstance(num_actions, (int, float)) and num_actions > 0], and then
    [int(num_actions)]. *)
Definition positive_int (v : value) : option Z :=
  match v with
  | VInt n => if 0 <? n then Some n else None
  | VBool true => Some 1
  | _ => None
  end.

(** A row is read with [row.get], like a dict. *)
Definition _compute_priority_row (row : dict) : Z * string :=
  let score := 0 in
  let category :=
    Str.lower (Py.str (Py.or_else (Py.get_or_none row "category")
                                  (VStr EmptyString))) in
  let text :=
    Str.lower (Py.str (Py.get_or row "subject" (VStr EmptyString)) ++ " "
               ++ Py.str (Py.get_or row "body" (VStr EmptyString))) in
  let score :=
    if Str.contains "important" category then score + 3 else score in
  let score :=
    if Str.contains "to-do" category || Str.contains "todo" category
    then score + 3 else score in
  let score :=
    if Str.contains "spam" category || Str.contains "newsletter" category
    then score - 1 else score in
  let score := if any_in urgent_keywords text then score + 3 else score in
  let score := if any_in deadline_keywords text then score + 2 else score in
  let score := if any_in meeting_keywords text then score + 1 else score in
  let num_actions := Py.get_or row "num_actions" (VInt 0) in
  let score :=
    match positive_int num_actions with
    | Some n => score + Z.min 3 n
    | None => score
    end in
  let label :=
    if score >=? 7 then "HIGH"
    else if score >=? 4 then "MEDIUM"
    else "LOW" in
  (score, label).

(** The row [prepare_email_dataframe] hands to the scorer for one
    record: the cells of the record and its [num_actions] column. *)
Definition row_of (record : dict) : dict :=
  Py.set record "num_actions"
         (VInt (_count_actions (Py.get_or_none record "actions"))).

Definition priority (record : dict) : Z * string :=
  _compute_priority_row (row_of record).

(** *** Keywords *)

Definition STOPWORDS : list string :=
  [ "the"; "and"; "for"; "with"; "you"; "your"; "this"; "that";
    "are"; "our"; "has"; "have"; "will"; "from"; "all"; "but";
    "can"; "was"; "were"; "they"; "their"; "them"; "about";
    "please"; "kindly"; "hello"; "hi"; "thanks"; "thank";
    "team"; "dear"; "regards"; "best"; "here"; "link"; "click";
    "http"; "https"; "com"; "subject"; "body" ].

(** The characters that [get_keyword_counts] takes off both ends of a
    token. *)
Definition PUNCTUATION : string := ".,!?:;()[]" ++ Str.DQ ++ "'".

(** The frame as [get_keyword_counts] reads it: the [subject] and the
    [body] cell of every row, each a text or missing. *)
Definition frame : Type := list (option string * option string).

(** [fillna("")] on one cell. *)
Definition fillna (cell : option string) : string :=
  match cell with Some s => s | None => EmptyString end.

(** [t in STOPWORDS]. *)
Definition is_stopword (t : string) : bool :=
  existsb (String.eqb t) STOPWORDS.

(** [counter[t] += 1]: a new key goes last. *)
Fixpoint bump (t : string) (counter : list (string * nat))
  : list (string * nat) :=
  match counter with
  | [] => [(t, 1%nat)]
  | (k, n) :: rest =>
      if String.eqb t k then (k, S n) :: rest else (k, n) :: bump t rest
  end.

(** [Counter(tokens)]: every token with its count, in the order of
    first appearance. *)
Definition Counter (tokens : list string) : list (string * nat) :=
  fold_left (fun counter t => bump t counter) tokens [].

(** [counter.most_common(n)]: the [n] largest counts, largest first,
    equal counts in the order of the counter. *)
Definition most_common (n : Z) (counter : list (string * nat))
  : list (string * nat) :=
  firstn (Z.to_nat n)
         (Sorting.sort snd (fun a b => Nat.leb b a) counter).

(** The text of the whole frame, in lower case. *)
Definition frame_text (df : frame) : string :=
  Str.join " "
    (map (fun row => Str.lower (fillna (fst row) ++ " " ++ fillna (snd row)))
         df).

(** The tokens that count as keywords. *)
Definition keyword_tokens (df : frame) : list string :=
  let tokens :=
    map (fun t => Str.strip_chars t PUNCTUATION) (Str.split (frame_text df)) in
  filter (fun t => negb (Str.is_empty t) && negb (is_stopword t)
                   && (2 <? String.length t)%nat)
         tokens.

Definition get_keyword_counts (df : frame) (top_n : Z)
  : list (string * nat) :=
  match df with
  | [] => []
  | _ => most_common top_n (Counter (keyword_tokens df))
  end.

End Dashboard.

(** ** The scoring rules in the words of the specification *)

Module Rules.

(** [kw] occurs in [s] when case is ignored: at some position the
    characters agree one by one up to case. *)
Fixpoint matches_here (kw s : string) : bool :=
  match kw, s with
  | EmptyString, _ => true
  | String _ _, EmptyString => false
  | String a kw', String b s' =>
      Ascii.eqb (Str.lower_char a) (Str.lower_char b) && matches_here kw' s'
  end.

Fixpoint occurs (kw s : string) : bool :=
  matches_here kw s ||
  match s with
  | EmptyString => false
  | String _ t => occurs kw t
  end.

Definition occurs_any (kws : list string) (s : string) : bool :=
  existsb (fun kw => occurs kw s) kws.

(** The text of a field; a field that is missing, or [None], is empty. *)
Definition field_text (record : dict) (k : string) : string :=
  match Py.get record k with
  | None | Some VNone => EmptyString
  | Some v => Py.str v
  end.

(** Entries of a structured [tasks] list, or of a bare list, else 0. *)
Definition action_count (record : dict) : Z :=
  match Py.get record "actions" with
  | Some (VDict d) =>
      match Py.get d "tasks" with
      | Some (VList tasks) => Z.of_nat (List.length tasks)
      | _ => 0
      end
  | Some (VList l) => Z.of_nat (List.length l)
  | _ => 0
  end.

Definition points (n : Z) (b : bool) : Z := if b then n else 0.

Definition score (record : dict) : Z :=
  let category := field_text record "category" in
  let text := field_text record "subject" ++ " " ++ field_text record "body" in
  0
  + points 3 (occurs "important" category)
  + points 3 (occurs "to-do" category || occurs "todo" category)
  - points 1 (occurs "spam" category || occurs "newsletter" category)
  + points 3 (occurs_any ["urgent"; "asap"; "immediately"; "critical";
                          "high priority"] text)
  + points 2 (occurs_any ["deadline"; "by "; "before "; "due "; "last date";
                          "submit"] text)
  + points 1 (occurs_any ["meeting"; "call"; "discussion"; "review";
                          "planning"] text)
  + Z.min 3 (action_count record).

Inductive label_of : Z -> string -> Prop :=
| label_high s : 7 <= s -> label_of s "HIGH"
| label_medium s : 4 <= s < 7 -> label_of s "MEDIUM"
| label_low s : s < 4 -> label_of s "LOW".

End Rules.

(** ** app.py

    The handlers of the buttons that write files, as functions of what
    they read: the files, the widgets and the state of the session. *)

Module App.

(** *** The prompt form *)

(** "Save Prompts": the page loads the prompt set and fills the form
    from it with [prompts.get], which only a dict has; the three texts
    of the form then take their places in the set, and the set is
    saved. *)
Definition save_prompt_form (prompts_file : file value)
  (categorization_prompt action_item_prompt auto_reply_prompt : string)
  : result (file value) :=
  let? loaded := Prompts.load_prompts prompts_file in
  match loaded with
  | VDict prompts =>
      let prompts :=
        Py.set prompts "categorization_prompt" (VStr categorization_prompt) in
      let prompts :=
        Py.set prompts "action_item_prompt" (VStr action_item_prompt) in
      let prompts :=
        Py.set prompts "auto_reply_prompt" (VStr auto_reply_prompt) in
      Ok (Prompts.save_prompts prompts)
  | _ => Py.no_attribute loaded "get"
  end.

(** *** The state of the session *)

Record session : Type := Session {
  processed : list dict;
  processed_by_id : Py.keyed dict;
  processed_data_loaded : bool
}.

(** [{p["id"]: p for p in processed}]. *)
Fixpoint index_by_id (processed : list dict) (index : Py.keyed dict)
  : result (Py.keyed dict) :=
  match processed with
  | [] => Ok index
  | p :: rest =>
      let? k := Py.getitem (VDict p) "id" in
      let? _ := Py.check_hashable k in
      index_by_id rest (Py.keyed_set index k p)
  end.

(** [processed_by_id.get(k, {})]. *)
Definition entry_of (index : Py.keyed dict) (k : value) : result dict :=
  let? _ := Py.check_hashable k in
  Ok (match Py.keyed_get index k with Some p => p | None => [] end).

(** *** Saving a draft *)

(** The lines after "Followups:", without their bullets, those that
    are not empty.  The source also strips a bullet character that is
    outside Latin-1, and so in no text here. *)
Definition followups_of (draft_text : string) : list string :=
  if Str.contains "Followups:" draft_text
  then match Str.after_first "Followups:" draft_text with
       | None => []
       | Some after =>
           filter (fun ln => negb (Str.is_empty ln))
                  (map (fun ln => Str.strip (Str.strip_chars ln "- "))
                       (Str.split_on (ascii_of_nat 10) EmptyString after))
       end
  else [].

Definition metadata_of (s : session) (selected : dict) : result dict :=
  if processed_data_loaded s
  then
    let? processed_entry :=
      entry_of (processed_by_id s) (Py.get_or_none selected "id") in
    Ok [ ("category", Py.get_or_none processed_entry "category");
         ("actions", Py.get_or_none processed_entry "actions") ]
  else Ok [].

Definition new_draft (selected : dict) (draft_text : string)
  (followups : list string) (metadata : dict) : dict :=
  [ ("email_id", Py.get_or_none selected "id");
    ("original_subject", Py.get_or_none selected "subject");
    ("draft_subject",
     VStr ("Re: " ++ Py.str (Py.get_or_none selected "subject")));
    ("draft_body", VStr (Str.strip draft_text));
    ("suggested_followups", VList (map VStr followups));
    ("metadata", VDict metadata) ].

(** "Save Draft": the drafts file afterwards.  A blank draft gets a
    warning and nothing is written; [existing.append] needs what
    [load_drafts] returned to be a list. *)
Definition save_draft (s : session) (drafts_file : file value)
  (selected : dict) (draft_text : string) : result (file value) :=
  if negb (Py.truthy (VStr (Str.strip draft_text)))
  then Ok drafts_file
  else
    let followups := followups_of draft_text in
    let? metadata := metadata_of s selected in
    let? existing := Drafts.load_drafts drafts_file in
    match existing with
    | VList drafts =>
        Ok (Drafts.save_drafts
              (drafts ++ [VDict (new_draft selected draft_text
                                           followups metadata)])%list)
    | _ => Py.no_attribute existing "append"
    end.

(** *** Processing the inbox *)

(** "Run Inbox Processing": the files and the session afterwards, and
    what the page shows, the number of emails processed or the error.
    The three assignments to the session are made in turn, so an error
    in the second leaves the first one done. *)
Definition run_button (json_loads : string -> option value)
  (svc : nat -> service) (finish : nat -> nat)
  (sort_error : list value -> string) (w : world) (s : session)
  : world * session * result nat :=
  let out :=
    Processing.run_ingestion_pipeline json_loads svc finish sort_error w in
  match returned out with
  | Raise e => (after out, s, Raise e)
  | Ok result =>
      let s := Session result (processed_by_id s) (processed_data_loaded s) in
      match index_by_id result [] with
      | Raise e => (after out, s, Raise e)
      | Ok index =>
          (after out, Session result index true, Ok (List.length result))
      end
  end.

End App.

(** * Properties and sample data

    What the theorems below are stated with: the rules and contracts in
    the words of the specification, and the inputs of the examples. *)

(** [s] and what is left of it after each of its characters. *)
Fixpoint suffixes (s : string) : list string :=
  s :: match s with
       | EmptyString => []
       | String _ t => suffixes t
       end.

(** [kw] cannot tell the tails [t1] and [t2] apart. *)
Definition blind_to (t1 t2 kw : string) : bool :=
  forallb (fun k => Bool.eqb (prefix k t1) (prefix k t2)) (suffixes kw)
  && Bool.eqb (Str.contains kw t1) (Str.contains kw t2).

(** [kw] occurs in none of the texts that [str] gives for a category
    that counts as false. *)
Definition silent_when_empty (kw : string) : bool :=
  forallb (fun t => negb (Rules.occurs kw t))
          [EmptyString; "False"; "0"; "[]"; "{}"].

Definition scenario_todo (t1 t2 : value) : dict :=
  [ ("id", VInt 1);
    ("category", VStr "To-Do update");
    ("subject", VStr "Please submit report by Friday");
    ("body", VStr "...");
    ("actions", VDict [("tasks", VList [t1; t2])]) ].

Definition scenario_newsletter : dict :=
  [ ("id", VInt 2);
    ("category", VStr "Newsletter");
    ("subject", VStr "Weekly digest");
    ("body", VStr "Top stories of the week");
    ("actions", VList []) ].

(** The contract of section 4.1 of the specification, as a property of
    a completion call. *)
Module Contract.
Section Of.
Variable call : string -> io string.

Definition log_of (prompt : string) (svc : service) (n : nat) : list event :=
  snd (call prompt svc n).
Definition result_of (prompt : string) (svc : service) (n : nat)
  : result string := fst (fst (call prompt svc n)).

Definition is_post (ev : event) : Prop :=
  match ev with Post _ _ _ => True | Sleep _ => False end.

(** The log starts: a request, a pause of [ms], a second request. *)
Definition retried_after (ms : Z) (log : list event) : Prop :=
  exists first second rest,
    log = first :: Sleep ms :: second :: rest
    /\ is_post first /\ is_post second.

Definition at_most_two_requests : Prop :=
  forall prompt svc n, (requests_sent (log_of prompt svc n) <= 2)%nat.

Definition retries_rate_limit : Prop :=
  forall prompt svc n text json,
    svc n = Http 429 text json ->
    retried_after 2000 (log_of prompt svc n).

Definition retries_timeout : Prop :=
  forall prompt svc n e,
    svc n = Fails e -> exn_cls e = RequestsTimeout ->
    retried_after 1000 (log_of prompt svc n).

(** Any other response fails at once, with the status and the body
    text in the error. *)
Definition fails_with_status_and_body : Prop :=
  forall prompt svc n status text json,
    svc n = Http status text json -> status <> 200 -> status <> 429 ->
    exists e,
      result_of prompt svc n = Raise e
      /\ Str.contains (Str.of_Z status) (exn_str e) = true
      /\ Str.contains text (exn_str e) = true
      /\ requests_sent (log_of prompt svc n) = 1%nat
      /\ pauses (log_of prompt svc n) = [].

Definition holds : Prop :=
  at_most_two_requests /\ retries_rate_limit /\ retries_timeout
  /\ fails_with_status_and_body.
End Of.
End Contract.

(** A first reply after which [Processing.call_openrouter] tries again. *)
Definition retriable (r : reply) : Prop :=
  match r with
  | Http status _ _ => status = 429
  | Fails e => exn_cls e = RequestsTimeout
  end.

Definition rate_limited : service :=
  fun _ => Http 429 "slow down"
                (NotJson "Expecting value: line 1 column 1 (char 0)").

Definition broken : service :=
  fun _ => Http 500 "boom" (NotJson "Expecting value: line 1 column 1 (char 0)").

(** What the second attempt of [Processing.call_openrouter], its last,
    makes of the reply it gets. *)
Definition last_attempt (r : reply) : result string :=
  match r with
  | Http status _ json =>
      if status =? 200 then message_content json
      else if status =? 429 then Raise (Exn RuntimeError "Failed after retries")
      else Raise (Exn RuntimeError ("API Error " ++ Str.of_Z status))
  | Fails e =>
      match exn_cls e with
      | RequestsTimeout => Raise (Exn RuntimeError "Timeout")
      | _ => Raise e
      end
  end.

(** How long [Processing.call_openrouter] waits before its second
    attempt: 2 s after HTTP 429, 1 s after a timeout. *)
Definition first_pause (r : reply) : Z :=
  match r with
  | Http _ _ _ => 2000
  | Fails _ => 1000
  end.

(** What follows the second request in the log: the 2 s pause that a
    second HTTP 429 still gets before the loop runs out. *)
Definition last_pause (r : reply) : list event :=
  match r with
  | Http status _ _ => if status =? 429 then [Sleep 2000] else []
  | Fails _ => []
  end.

Definition outcome_of {A : Type} (run : result A * nat * list event) : result A :=
  fst (fst run).

Definition copied_keys : list string :=
  ["id"; "sender"; "subject"; "timestamp"; "body"].

Definition record_keys : list string :=
  (copied_keys ++ ["category"; "actions"; "status"])%list.

(** A completion with the given text, as the service words it. *)
Definition envelope (content : value) : value :=
  VDict [("choices", VList [VDict [("message", VDict [("content", content)])]])].

Definition answer (content : string) : reply :=
  Http 200 (Json.dumps 0 (envelope (VStr content)))
       (Doc (envelope (VStr content))).

(** The cleaning of the extraction text in the words of the
    specification: the trimmed text without the code-fence markers that
    surround it, an opening fence (with or without the json tag) and a
    closing one, when they are there. *)
Module AsSpecified.

Fixpoint ends_with (suffix s : string) : bool :=
  String.eqb s suffix
  || match s with
     | EmptyString => false
     | String _ t => ends_with suffix t
     end.

Definition without_opening (s : string) : string :=
  if prefix "```json" s then Str.drop 7 s
  else if prefix "```" s then Str.drop 3 s
  else s.

Definition without_closing (s : string) : string :=
  if ends_with "```" s then Str.take (String.length s - 3) s else s.

Definition unfenced (out : string) : string :=
  Str.strip (without_closing (without_opening (Str.strip out))).

End AsSpecified.

(** The enricher makes both completion calls and both return: its log
    is the pause, the events of the categorization call and those of
    the extraction call. *)
Definition both_calls_succeed (json_loads : string -> option value)
  (email prompts : dict) (svc : service) (n : nat) (out1 out2 : string) : Prop :=
  exists p1 p2 n1 l1 n2 l2,
    Py.get prompts "categorization_prompt" = Some p1
    /\ Py.get prompts "action_item_prompt" = Some p2
    /\ Processing.call_openrouter
         (Processing.categorization_request email p1) svc n = (Ok out1, n1, l1)
    /\ Processing.call_openrouter
         (Processing.action_request email p2) svc n1 = (Ok out2, n2, l2)
    /\ snd (Processing.process_single_email json_loads email prompts svc n)
       = (Sleep Processing.RATE_LIMIT_DELAY :: l1 ++ l2)%list.

(** C5 as the specification states it: the category is the trimmed
    first line, the actions are the text without its surrounding fences,
    parsed, or that text itself. *)
Definition success_as_specified (json_loads : string -> option value) : Prop :=
  forall email prompts svc n out1 out2,
    both_calls_succeed json_loads email prompts svc n out1 out2 ->
    exists line rest record,
      Str.splitlines out1 = line :: rest
      /\ outcome_of (Processing.process_single_email json_loads email prompts svc n)
         = Ok record
      /\ Py.get record "status" = Some (VStr "success")
      /\ Py.get record "category" = Some (VStr (Str.strip line))
      /\ Py.get record "actions"
         = Some (Processing.parse_or_raw json_loads (AsSpecified.unfenced out2)).

(** A service whose completions are blank. *)
Definition blank_service : service := fun _ => answer "   ".

Definition sample_email : dict :=
  [ ("id", VInt 1); ("sender", VStr "lead@example.com");
    ("subject", VStr "Please submit report by Friday");
    ("timestamp", VStr "2025-01-06T09:00:00");
    ("body", VStr "Send the report before the review.") ].

Definition TICK : ascii := ascii_of_nat 96.

(** No back-tick in [s]. *)
Fixpoint tick_free (s : string) : bool :=
  match s with
  | EmptyString => true
  | String c t => negb (Ascii.eqb c TICK) && tick_free t
  end.

(** [record] is [email] enriched: the five copied fields, then a
    category, actions and a status. *)
Definition enriched_from (email record : dict) : Prop :=
  exists category actions status,
    record = (Processing.copied email
                ++ [ ("category", VStr category);
                     ("actions", actions);
                     ("status", VStr status) ])%list.

Definition has_text_subject (email : dict) : Prop :=
  exists s, Py.get email "subject" = Some (VStr s).

Definition ids (l : list dict) : list value :=
  map (fun r => Py.get_or_none r "id") l.

Definition numbered (r : dict) : Prop :=
  Processing.is_number (Py.get_or_none r "id") = true.

Definition named (r : dict) : Prop :=
  Processing.is_text (Py.get_or_none r "id") = true.

(** Ids of one kind: all numbers, or all strings. *)
Definition comparable_ids (l : list dict) : Prop :=
  Forall numbered l \/ Forall named l.

(** [a <= b] on ids. *)
Definition id_le (a b : value) : Prop :=
  match Processing.as_number a, Processing.as_number b with
  | Some x, Some y => x <= y
  | _, _ =>
      match Processing.as_text a, Processing.as_text b with
      | Some s, Some t => String.leb s t = true
      | _, _ => False
      end
  end.

Definition unwrap (r : result dict) : dict :=
  match r with Ok d => d | Raise _ => [] end.

(** The records of the enricher for the emails of a batch, in the order
    of submission. *)
Definition enriched_batch (json_loads : string -> option value)
  (svc : nat -> service) (prompts : dict) (emails : list dict) : list dict :=
  map (fun f => unwrap (Processing.future_result f))
      (Processing.submit_all json_loads svc emails prompts).

(** [b < a] is answered, with no: [a] may come before [b]. *)
Definition ordered (a b : value) : Prop := Py.lt b a = Ok false.

(** The text of the [TypeError] when the first comparison of the sort,
    of the second key with the first, is the one that raises. *)
Definition first_comparison_text (keys : list value) : string :=
  match keys with
  | a :: b :: _ =>
      match Py.lt b a with
      | Raise e => exn_str e
      | Ok _ => EmptyString
      end
  | _ => EmptyString
  end.

(** C1 as the specification states it. *)
Definition every_batch_is_sorted : Prop :=
  forall json_loads svc finish sort_error w,
    Ingest.load_mock_inbox (inbox w) <> [] ->
    exists result,
      returned (Processing.run_ingestion_pipeline json_loads svc finish
                  sort_error w)
      = Ok result
      /\ Sorted id_le (ids result)
      /\ Permutation (ids result) (ids (Ingest.load_mock_inbox (inbox w))).

(** A parser that knows the one document of the examples; on the texts
    they use it agrees with [json.loads]. *)
Definition sample_loads (s : string) : option value :=
  if String.eqb s "[]" then Some (VList []) else None.

Definition second_email : dict :=
  [ ("id", VInt 2); ("sender", VStr "news@example.com");
    ("subject", VStr "Weekly digest");
    ("timestamp", VStr "2025-01-06T10:00:00");
    ("body", VStr "Top stories of the week") ].

Definition inbox_of (emails : list dict) : file (list dict) :=
  Text (Json.dump_records emails) (Ok emails).

(** A prompts file saved with the reply prompt only. *)
Definition partial_prompts : file value :=
  Prompts.save_prompts [("auto_reply_prompt", VStr "Be brief.")].

Definition steady : nat -> service := fun _ _ => answer "[]".

(** A world whose prompts file lacks the two prompts of the batch run. *)
Definition world_with_partial_prompts : world :=
  World (inbox_of [second_email; sample_email]) partial_prompts Missing.

(** Two emails without a subject: the progress line of the first record
    collected raises, the loop ends, and one record is returned. *)
Definition bare_emails : list dict := [[("id", VInt 2)]; [("id", VInt 1)]].







(** A store that holds an object where a list is expected. *)
Definition object_store : file value :=
  Text ("{" ++ Str.DQ ++ "drafts" ++ Str.DQ ++ ": []}")
       (Ok (VDict [("drafts", VList [])])).

Definition prompt_keys : list string :=
  ["categorization_prompt"; "action_item_prompt"; "auto_reply_prompt"].

Definition has_all_prompts (prompts : dict) : Prop :=
  Forall (fun k => Py.get prompts k <> None) prompt_keys.

(** C8 as the specification states it. *)
Definition prompts_always_complete : Prop :=
  forall f prompts,
    Prompts.load_prompts f = Ok (VDict prompts) -> has_all_prompts prompts.

Definition tidy_world : world :=
  World (inbox_of [second_email; sample_email]) Missing Missing.

(** A service that names a category, then wraps the tasks in a fence. *)
Definition fenced_service : service :=
  fun n =>
    match n with
    | O => answer ("To-Do" ++ Str.NL ++ "It asks for a report.")
    | S _ => answer "```json[]```"
    end.

(** A reply in a fence that quotes two words in fences of their own. *)
Definition quoting_reply : string :=
  "```" ++ Str.NL ++ "Reply ```yes``` or ```no```" ++ Str.NL ++ "```".

(** A service that names a category, then answers [quoting_reply]. *)
Definition quoting_service : service :=
  fun n =>
    match n with
    | O => answer "To-Do"
    | S _ => answer quoting_reply
    end.


Definition stored : list dict :=
  [ Processing.success_record sample_email "To-Do" (VList []) ].

(** No inbox file, and a batch persisted by an earlier run. *)
Definition world_without_inbox : world :=
  World Missing Missing (Processing.save_processed stored).

(** ** What the further properties speak of *)

(** The records in the order in which their units of work complete. *)
Definition arrived (json_loads : string -> option value) (svc : nat -> service)
  (finish : nat -> nat) (prompts : dict) (emails : list dict) : list dict :=
  map (fun f => unwrap (Processing.future_result f))
      (Processing.as_completed finish
         (Processing.submit_all json_loads svc emails prompts)).

(** Ids that identify: all numbers, or all strings, and no two equal. *)
Definition distinct_ids (l : list dict) : Prop :=
  (Forall numbered l /\ NoDup (map Processing.number_key l))
  \/ (Forall named l /\ NoDup (map Processing.text_key l)).


(** The time a unit of work spends asleep, in milliseconds. *)
Definition asleep (log : list event) : Z := fold_right Z.add 0 (pauses log).

(** No character of [s] passes [test]. *)
Fixpoint free_of (test : ascii -> bool) (s : string) : bool :=
  match s with
  | EmptyString => true
  | String c t => negb (test c) && free_of test t
  end.

(** The fence of a code block. *)
Definition FENCE : string := "```".

(** A character that [str.lower] changes. *)
Definition upper_case (c : ascii) : bool :=
  negb (Ascii.eqb (Str.lower_char c) c).

(** [counter[k]], 0 for a key that is not there. *)
Fixpoint count_of (k : string) (counter : list (string * nat)) : nat :=
  match counter with
  | [] => 0
  | (k', n) :: rest => if String.eqb k k' then n else count_of k rest
  end.

(** The first keyword is at least as frequent as the second. *)
Definition count_ge (a b : string * nat) : Prop := (snd b <= snd a)%nat.

(** How often [kw] occurs among the tokens of the frame. *)
Definition occurrences (df : Dashboard.frame) (kw : string) : nat :=
  count_occ string_dec (Dashboard.keyword_tokens df) kw.

(** The line feed. *)
Definition LF : ascii := ascii_of_nat 10.

(** The last record of a list whose id equals [k]. *)
Definition last_with_id (k : value) (records : list dict) : option dict :=
  find (fun p => Py.key_eqb k (Py.get_or_none p "id")) (rev records).

(** *** Sample data *)

(** A prompt set with the categorization prompt only. *)
Definition categorization_only : dict :=
  [("categorization_prompt", VStr "Sort this email.")].

(** Two rows of a frame, the second without a body. *)
Definition sample_frame : Dashboard.frame :=
  [ (Some "Budget review, please!", Some "The BUDGET is due Friday.");
    (Some "Re: budget (final)", None) ].

Definition sample_draft : string :=
  "Thanks, I will send it." ++ Str.NL
  ++ "Followups:" ++ Str.NL
  ++ "- send the report" ++ Str.NL
  ++ "-  " ++ Str.NL
  ++ "- book a room ".

(** The prompts file after the form was saved over [partial_prompts]. *)
Definition form_saved : file value :=
  match App.save_prompt_form partial_prompts
          "Sort this email." "List the tasks." "Be brief." with
  | Ok saved => saved
  | Raise _ => Missing
  end.

Definition world_after_form : world :=
  World (inbox_of [second_email; sample_email]) form_saved Missing.


(** A session before any run. *)
Definition fresh_session : App.session := App.Session [] [] false.

(** The units of work completing in the reverse of their order. *)
Definition backwards (i : nat) : nat := (1 - i)%nat.

(** * Proofs *)

(** ** The model at work *)

Example lower_mixed : Str.lower "To-Do UPDATE" = "to-do update".
Proof. reflexivity. Qed.

Example strip_both : Str.strip ("  Work " ++ Str.NL) = "Work".
Proof. reflexivity. Qed.

Example splitlines_crlf :
  Str.splitlines ("a" ++ Str.chr 13 ++ Str.NL ++ "b" ++ Str.NL) = ["a"; "b"].
Proof. reflexivity. Qed.

Example splitlines_empty : Str.splitlines EmptyString = [].
Proof. reflexivity. Qed.

Example replace_fence :
  Str.replace "```json[1]```" "```json" EmptyString = "[1]```".
Proof. reflexivity. Qed.

Example of_Z_samples :
  Str.of_Z 500 = "500" /\ Str.of_Z 0 = "0" /\ Str.of_Z (-12) = "-12".
Proof. repeat split. Qed.

Example repr_nested :
  Py.repr (VDict [("tasks", VList [VStr "a'b"; VInt 2; VNone])])
  = "{'tasks': [" ++ Str.DQ ++ "a'b" ++ Str.DQ ++ ", 2, None]}".
Proof. reflexivity. Qed.

Example str_of_none : Py.str VNone = "None" /\ Py.str (VStr "x") = "x".
Proof. split; reflexivity. Qed.

Example dump_sample :
  Json.dump_records [[("id", VInt 1); ("actions", VList [])]]
  = "[" ++ Str.NL ++ "  {" ++ Str.NL
        ++ "    " ++ Str.DQ ++ "id" ++ Str.DQ ++ ": 1," ++ Str.NL
        ++ "    " ++ Str.DQ ++ "actions" ++ Str.DQ ++ ": []" ++ Str.NL
        ++ "  }" ++ Str.NL ++ "]".
Proof. reflexivity. Qed.

(** ** Strings *)

Lemma lower_app (a b : string) :
  Str.lower (a ++ b) = Str.lower a ++ Str.lower b.
Proof.
  induction a as [|c a IH]; simpl; [reflexivity|now rewrite IH].
Qed.


Lemma prefix_lower_matches (kw s : string) :
  Str.lower kw = kw ->
  prefix kw (Str.lower s) = Rules.matches_here kw s.
Proof.
  revert s; induction kw as [|a kw IH]; intros s Hkw.
  - destruct s; reflexivity.
  - simpl in Hkw. injection Hkw as Ha Hkw'.
    destruct s as [|b s]; simpl; [reflexivity|].
    rewrite Ha.
    destruct (ascii_dec a (Str.lower_char b)) as [E|N].
    + rewrite E, Ascii.eqb_refl. simpl. now apply IH.
    + destruct (Ascii.eqb_spec a (Str.lower_char b)); [contradiction|reflexivity].
Qed.

Lemma contains_lower_occurs (kw s : string) :
  Str.lower kw = kw ->
  Str.contains kw (Str.lower s) = Rules.occurs kw s.
Proof.
  intros Hkw. induction s as [|c s IH].
  - simpl. rewrite <- (prefix_lower_matches kw EmptyString Hkw). reflexivity.
  - change (Str.lower (String c s)) with (String (Str.lower_char c) (Str.lower s)).
    simpl Str.contains. simpl Rules.occurs.
    rewrite IH.
    rewrite <- (prefix_lower_matches kw (String c s) Hkw). reflexivity.
Qed.

Lemma prefix_tail_irrelevant (t1 t2 kw : string) :
  (forall k, In k (suffixes kw) -> prefix k t1 = prefix k t2) ->
  forall y, prefix kw (y ++ t1) = prefix kw (y ++ t2).
Proof.
  induction kw as [|a kw IH]; intros H y.
  - destruct y; simpl; [apply (H EmptyString); now left|reflexivity].
  - destruct y as [|c y].
    + apply H. now left.
    + simpl. destruct (ascii_dec a c); [|reflexivity].
      apply IH. intros k Hk. apply H. now right.
Qed.

Lemma contains_tail_irrelevant (t1 t2 kw : string) :
  blind_to t1 t2 kw = true ->
  forall y, Str.contains kw (y ++ t1) = Str.contains kw (y ++ t2).
Proof.
  unfold blind_to. intros H. apply andb_prop in H as [Hs Hc].
  rewrite forallb_forall in Hs.
  assert (Hp : forall k, In k (suffixes kw) -> prefix k t1 = prefix k t2).
  { intros k Hk. apply Bool.eqb_prop. now apply Hs. }
  apply Bool.eqb_prop in Hc.
  induction y as [|c y IH].
  - exact Hc.
  - change (String c y ++ t1) with (String c (y ++ t1)).
    change (String c y ++ t2) with (String c (y ++ t2)).
    simpl Str.contains. rewrite IH. f_equal.
    apply (prefix_tail_irrelevant t1 t2 kw Hp (String c y)).
Qed.

Lemma get_set (d : dict) (k k' : string) (v : value) :
  Py.get (Py.set d k v) k' = if String.eqb k' k then Some v else Py.get d k'.
Proof.
  induction d as [|[k0 v0] d IH]; simpl.
  - reflexivity.
  - destruct (String.eqb_spec k k0) as [->|Hk]; simpl.
    + destruct (String.eqb k' k0); reflexivity.
    + rewrite IH. destruct (String.eqb_spec k' k0) as [->|Hk'].
      * destruct (String.eqb_spec k0 k); [congruence|reflexivity].
      * reflexivity.
Qed.

Lemma category_reading (kw : string) (record : dict) :
  Str.lower kw = kw ->
  silent_when_empty kw = true ->
  Str.contains kw
    (Str.lower (Py.str (Py.or_else (Py.get_or_none record "category")
                                   (VStr EmptyString))))
  = Rules.occurs kw (Rules.field_text record "category").
Proof.
  intros Hkw Hs. rewrite (contains_lower_occurs _ _ Hkw).
  unfold silent_when_empty in Hs. rewrite forallb_forall in Hs.
  assert (Hq : forall t, In t [EmptyString; "False"; "0"; "[]"; "{}"] ->
                         Rules.occurs kw t = false).
  { intros t Ht. apply Hs in Ht. now destruct (Rules.occurs kw t). }
  unfold Py.get_or_none, Rules.field_text.
  pose (quiet_at := fun t H => eq_trans (Hq EmptyString (or_introl eq_refl))
                                        (eq_sym (Hq t H))).
  destruct (Py.get record "category") as [v|]; [|reflexivity].
  destruct v as [|[]|n|s|l|d]; try reflexivity.
  - apply (quiet_at "False"); simpl; auto 6.
  - unfold Py.or_else, Py.truthy. destruct (Z.eqb_spec n 0) as [->|Hn].
    + apply (quiet_at "0"); simpl; auto 6.
    + reflexivity.
  - destruct s; reflexivity.
  - destruct l; [|reflexivity]. apply (quiet_at "[]"); simpl; auto 6.
  - destruct d; [|reflexivity]. apply (quiet_at "{}"); simpl; auto 6.
Qed.

Lemma field_cases (record : dict) (k : string) :
  let shown := Py.str (Py.get_or record k (VStr EmptyString)) in
  shown = Rules.field_text record k
  \/ (shown = "None" /\ Rules.field_text record k = EmptyString).
Proof.
  unfold Py.get_or, Rules.field_text.
  destruct (Py.get record k) as [v|]; [|now left].
  destruct v; try (now left). right. split; reflexivity.
Qed.

Lemma text_reading (kw : string) (record : dict) :
  Str.lower kw = kw ->
  blind_to " none" " " kw = true ->
  (forall x, Str.contains kw ("none " ++ x) = Str.contains kw (" " ++ x)) ->
  Str.contains kw
    (Str.lower (Py.str (Py.get_or record "subject" (VStr EmptyString)) ++ " "
                ++ Py.str (Py.get_or record "body" (VStr EmptyString))))
  = Rules.occurs kw (Rules.field_text record "subject" ++ " "
                     ++ Rules.field_text record "body").
Proof.
  intros Hkw Hblind Hfront.
  rewrite <- (contains_lower_occurs _ _ Hkw).
  rewrite !lower_app.
  destruct (field_cases record "body") as [->|[-> ->]];
    destruct (field_cases record "subject") as [->|[-> ->]].
  - reflexivity.
  - apply (Hfront (Str.lower (Rules.field_text record "body"))).
  - apply (contains_tail_irrelevant " none" " " kw Hblind).
  - etransitivity; [apply (Hfront "none")|].
    apply (contains_tail_irrelevant " none" " " kw Hblind EmptyString).
Qed.

Lemma count_actions_rule (record : dict) :
  Dashboard._count_actions (Py.get_or_none record "actions")
  = Rules.action_count record.
Proof.
  unfold Py.get_or_none, Rules.action_count.
  destruct (Py.get record "actions") as [v|]; [|reflexivity].
  destruct v; try reflexivity.
  unfold Dashboard._count_actions, Py.get_or_none.
  destruct (Py.get entries "tasks") as [[]|]; reflexivity.
Qed.

Lemma action_count_nonneg (record : dict) : 0 <= Rules.action_count record.
Proof.
  unfold Rules.action_count.
  destruct (Py.get record "actions") as [[| | | | |d]|]; try lia.
  destruct (Py.get d "tasks") as [[]|]; lia.
Qed.

Lemma row_category (record : dict) :
  Py.get_or_none (Dashboard.row_of record) "category"
  = Py.get_or_none record "category".
Proof. unfold Py.get_or_none, Dashboard.row_of. now rewrite get_set. Qed.

Lemma row_field (record : dict) (k : string) (d : value) :
  String.eqb k "num_actions" = false ->
  Py.get_or (Dashboard.row_of record) k d = Py.get_or record k d.
Proof.
  intros Hk. unfold Py.get_or, Dashboard.row_of. now rewrite get_set, Hk.
Qed.

Lemma row_num_actions (record : dict) (d : value) :
  Py.get_or (Dashboard.row_of record) "num_actions" d
  = VInt (Rules.action_count record).
Proof.
  unfold Py.get_or, Dashboard.row_of. rewrite get_set. simpl.
  now rewrite count_actions_rule.
Qed.

Lemma label_thresholds (s : Z) :
  Rules.label_of s
    (if s >=? 7 then "HIGH" else if s >=? 4 then "MEDIUM" else "LOW").
Proof.
  destruct (Z.geb_spec s 7); [now constructor|].
  destruct (Z.geb_spec s 4); constructor; lia.
Qed.

Ltac read_category :=
  rewrite category_reading by reflexivity.
Ltac read_text :=
  rewrite text_reading by (reflexivity || (intros; reflexivity)).

(** C2.  The score of an enriched record is the sum the specification
    gives: from 0, +3 for "important" in the category, +3 for "to-do" or
    "todo", -1 for "spam" or "newsletter", +3, +2 and +1 for an urgent, a
    deadline and a meeting keyword in subject and body, plus the smaller
    of 3 and the action count (entries of a structured tasks list, or of
    a bare list, else 0).  Keywords are found whatever their case; a
    field that is missing, or [None], counts as empty.  The label is
    HIGH from 7, MEDIUM from 4, LOW below.  The to-do record with two
    tasks scores 7 and is HIGH; the newsletter without keywords or
    actions scores -1 and is LOW. *)
Theorem priority_follows_rules :
  (forall record,
      exists label,
        Dashboard.priority record = (Rules.score record, label)
        /\ Rules.label_of (Rules.score record) label)
  /\ (forall t1 t2, Dashboard.priority (scenario_todo t1 t2) = (7, "HIGH"))
  /\ Dashboard.priority scenario_newsletter = (-1, "LOW").
Proof.
  split; [|split; [intros; reflexivity | reflexivity]].
  intros record.
  unfold Dashboard.priority, Dashboard._compute_priority_row.
  rewrite row_category.
  rewrite (row_field record "subject"), (row_field record "body") by reflexivity.
  rewrite row_num_actions.
  cbv beta zeta delta [Dashboard.any_in Dashboard.urgent_keywords
                       Dashboard.deadline_keywords Dashboard.meeting_keywords].
  cbn [existsb].
  repeat read_category. repeat read_text.
  unfold Rules.score, Rules.occurs_any. cbn [existsb].
  pose proof (action_count_nonneg record) as Hn.
  set (n := Rules.action_count record) in *.
  set (category := Rules.field_text record "category").
  set (text := (Rules.field_text record "subject" ++ " "
                ++ Rules.field_text record "body")).
  set (b1 := Rules.occurs "important" category).
  set (b2 := Rules.occurs "to-do" category || Rules.occurs "todo" category).
  set (b3 := Rules.occurs "spam" category || Rules.occurs "newsletter" category).
  set (b4 := Rules.occurs "urgent" text || _).
  set (b5 := Rules.occurs "deadline" text || _).
  set (b6 := Rules.occurs "meeting" text || _).
  clearbody n b1 b2 b3 b4 b5 b6.
  match goal with
  | |- exists l, (?E, _) = (?S, l) /\ _ =>
      assert (HE : E = S)
        by (unfold Dashboard.positive_int, Rules.points;
            destruct (Z.ltb_spec 0 n);
            destruct b1, b2, b3, b4, b5, b6; lia);
      rewrite HE
  end.
  eexists. split; [reflexivity | apply label_thresholds].
Qed.

(** ** The completion call *)

(** C3 does not hold as stated, for either call: on HTTP 429 the call of
    the single-item operations stops after one request, and the error
    the pipeline call raises on HTTP 500 does not hold the body text. *)
Lemma completion_contract_fails :
  ~ Contract.holds Agent.call_openrouter
  /\ ~ Contract.holds Processing.call_openrouter.
Proof.
  split; intros (_ & Hrate & _ & Hfail).
  - destruct (Hrate "p" rate_limited 0%nat _ _ eq_refl)
      as (first & second & rest & Hlog & _).
    discriminate Hlog.
  - destruct (Hfail "p" broken 0%nat 500 _ _ eq_refl) as (e & He & _ & Hbody & _);
      [discriminate | discriminate |].
    injection He as <-. discriminate Hbody.
Qed.

Ltac io_step :=
  cbv beta iota zeta
      delta [IO.bind IO.try_except IO.sleep IO.post IO.lift IO.raise IO.ret
             Nat.eqb].

Lemma processing_call_cases (prompt : string) (svc : service) (n : nat) :
  let post := Post prompt (Some 300) (Some Processing.REQUEST_TIMEOUT) in
  let second (pause : Z) : result string * nat * list event :=
    match svc (S n) with
    | Http status _ json =>
        if status =? 200
        then (message_content json, S (S n), [post; Sleep pause; post])
        else if status =? 429
        then (Raise (Exn RuntimeError "Failed after retries"), S (S n),
              [post; Sleep pause; post; Sleep 2000])
        else (Raise (Exn RuntimeError ("API Error " ++ Str.of_Z status)),
              S (S n), [post; Sleep pause; post])
    | Fails e =>
        match exn_cls e with
        | RequestsTimeout =>
            (Raise (Exn RuntimeError "Timeout"), S (S n),
             [post; Sleep pause; post])
        | _ => (Raise e, S (S n), [post; Sleep pause; post])
        end
    end in
  Processing.call_openrouter prompt svc n =
  match svc n with
  | Http status _ json =>
      if status =? 200 then (message_content json, S n, [post])
      else if status =? 429 then second 2000
      else (Raise (Exn RuntimeError ("API Error " ++ Str.of_Z status)),
            S n, [post])
  | Fails e =>
      match exn_cls e with
      | RequestsTimeout => second 1000
      | _ => (Raise e, S n, [post])
      end
  end.
Proof.
  unfold Processing.call_openrouter. cbn [seq Processing.attempts].
  io_step.
  destruct (svc n) as [status text json|e].
  - destruct (status =? 200); [reflexivity|].
    destruct (status =? 429); [|reflexivity].
    io_step.
    destruct (svc (S n)) as [status2 text2 json2|e2].
    + destruct (status2 =? 200); [reflexivity|].
      destruct (status2 =? 429); reflexivity.
    + destruct (exn_cls e2); reflexivity.
  - destruct (exn_cls e); try reflexivity.
    io_step.
    destruct (svc (S n)) as [status2 text2 json2|e2].
    + destruct (status2 =? 200); [reflexivity|].
      destruct (status2 =? 429); reflexivity.
    + destruct (exn_cls e2); reflexivity.
Qed.

Lemma eqb_neq_false (a b : Z) : a <> b -> (a =? b) = false.
Proof. intros H. now apply Z.eqb_neq. Qed.

Lemma bind_lift {A B : Type} (r : result A) (k : A -> io B)
  (svc : service) (n : nat) :
  IO.bind (IO.lift r) k svc n
  = match r with
    | Ok a => k a svc n
    | Raise e => (Raise e, n, [])
    end.
Proof.
  unfold IO.bind, IO.lift. destruct r as [a|e]; [|reflexivity].
  destruct (k a svc n) as [[r n2] l2]. reflexivity.
Qed.

Lemma agent_call_log (prompt : string) (svc : service) (n : nat) :
  snd (Agent.call_openrouter prompt svc n) = [Post prompt None None].
Proof.
  unfold Agent.call_openrouter. io_step.
  destruct (svc n) as [status text json|e]; [|reflexivity].
  destruct (status =? 200); reflexivity.
Qed.

(** C3, amended.  The call of the batch pipeline sends at most two
    requests: after HTTP 429 it pauses 2 s and tries once more, after a
    timeout it pauses 1 s and tries once more; any other status than 200
    raises at once "API Error <status>", which carries the status and
    not the body.  After a first reply that is retried, the whole run
    is fixed: the request, the pause, the second request, and what the
    second reply makes of it, where a second 429 is followed by another
    pause of 2 s and then raises "Failed after retries", and a second
    timeout raises "Timeout" with no further pause.  A first reply with
    status 200, or a failure that is no timeout, ends the call after one
    request and no pause.
    The call of the single-item operations sends exactly one request,
    never pauses, and raises "OpenRouter Error <status>: <body>" on any
    status but 200, 429 included; [ask_grok] and [generate_reply_draft]
    go through it. *)
Theorem completion_calls_behaviour :
  (* the call of the batch pipeline *)
  Contract.at_most_two_requests Processing.call_openrouter
  /\ Contract.retries_rate_limit Processing.call_openrouter
  /\ Contract.retries_timeout Processing.call_openrouter
  /\ (forall prompt svc n status text json,
         svc n = Http status text json -> status <> 200 -> status <> 429 ->
         Processing.call_openrouter prompt svc n
         = (Raise (Exn RuntimeError ("API Error " ++ Str.of_Z status)),
            S n, [Post prompt (Some 300) (Some 20)]))
  /\ (forall prompt svc n,
         retriable (svc n) ->
         Processing.call_openrouter prompt svc n
         = (last_attempt (svc (S n)), S (S n),
            [ Post prompt (Some 300) (Some 20); Sleep (first_pause (svc n));
              Post prompt (Some 300) (Some 20) ] ++ last_pause (svc (S n)))%list)
  /\ (forall prompt svc n text json,
         svc n = Http 200 text json ->
         Processing.call_openrouter prompt svc n
         = (message_content json, S n, [Post prompt (Some 300) (Some 20)]))
  /\ (forall prompt svc n e,
         svc n = Fails e -> exn_cls e <> RequestsTimeout ->
         Processing.call_openrouter prompt svc n
         = (Raise e, S n, [Post prompt (Some 300) (Some 20)]))
  (* the call of the single-item operations *)
  /\ (forall prompt svc n,
         snd (Agent.call_openrouter prompt svc n) = [Post prompt None None])
  /\ (forall prompt svc n status text json,
         svc n = Http status text json -> status <> 200 ->
         fst (fst (Agent.call_openrouter prompt svc n))
         = Raise (Exn RuntimeError
                      ("OpenRouter Error " ++ Str.of_Z status ++ ": " ++ text)))
  /\ (forall query email svc n,
         exists prompt,
           snd (Agent.ask_grok query email svc n) = [Post prompt None None])
  /\ (forall prompts email svc n,
         (requests_sent (snd (Agent.generate_reply_draft prompts email svc n))
          <= 1)%nat
         /\ pauses (snd (Agent.generate_reply_draft prompts email svc n)) = []).
Proof.
  repeat apply conj.
  - intros prompt svc n. unfold Contract.log_of.
    rewrite processing_call_cases.
    destruct (svc n) as [s t j|e].
    + destruct (s =? 200); [cbn; lia|].
      destruct (s =? 429); [|cbn; lia].
      destruct (svc (S n)) as [s2 t2 j2|e2].
      * destruct (s2 =? 200); [cbn; lia|]. destruct (s2 =? 429); cbn; lia.
      * destruct (exn_cls e2); cbn; lia.
    + destruct (exn_cls e); try (cbn; lia).
      destruct (svc (S n)) as [s2 t2 j2|e2].
      * destruct (s2 =? 200); [cbn; lia|]. destruct (s2 =? 429); cbn; lia.
      * destruct (exn_cls e2); cbn; lia.
  - intros prompt svc n text json H. unfold Contract.log_of, Contract.retried_after.
    rewrite processing_call_cases, H. cbn [Z.eqb Pos.eqb].
    destruct (svc (S n)) as [s2 t2 j2|e2].
    + destruct (s2 =? 200); [|destruct (s2 =? 429)];
        do 3 eexists; (split; [reflexivity|split; exact I]).
    + destruct (exn_cls e2); do 3 eexists; (split; [reflexivity|split; exact I]).
  - intros prompt svc n e H He. unfold Contract.log_of, Contract.retried_after.
    rewrite processing_call_cases, H, He.
    destruct (svc (S n)) as [s2 t2 j2|e2].
    + destruct (s2 =? 200); [|destruct (s2 =? 429)];
        do 3 eexists; (split; [reflexivity|split; exact I]).
    + destruct (exn_cls e2); do 3 eexists; (split; [reflexivity|split; exact I]).
  - intros prompt svc n status text json H H200 H429.
    rewrite processing_call_cases, H.
    now rewrite (eqb_neq_false _ _ H200), (eqb_neq_false _ _ H429).
  - intros prompt svc n Hr. rewrite processing_call_cases.
    unfold retriable in Hr. unfold last_attempt, last_pause, first_pause.
    destruct (svc n) as [s t j|e].
    + subst s. cbn [Z.eqb Pos.eqb].
      destruct (svc (S n)) as [s2 t2 j2|e2].
      * destruct (Z.eqb_spec s2 200) as [->|_]; [reflexivity|].
        destruct (s2 =? 429); reflexivity.
      * destruct (exn_cls e2); reflexivity.
    + rewrite Hr.
      destruct (svc (S n)) as [s2 t2 j2|e2].
      * destruct (Z.eqb_spec s2 200) as [->|_]; [reflexivity|].
        destruct (s2 =? 429); reflexivity.
      * destruct (exn_cls e2); reflexivity.
  - intros prompt svc n text json H.
    rewrite processing_call_cases, H. reflexivity.
  - intros prompt svc n e H He.
    rewrite processing_call_cases, H.
    destruct (exn_cls e); try reflexivity. now contradiction He.
  - apply agent_call_log.
  - intros prompt svc n status text json H H200.
    unfold Agent.call_openrouter. io_step. rewrite H.
    now rewrite (eqb_neq_false _ _ H200).
  - intros query email svc n. eexists. apply agent_call_log.
  - intros prompts email svc n. unfold Agent.generate_reply_draft.
    rewrite bind_lift.
    destruct (Prompts.load_prompts prompts) as [p|e];
      [|cbn; split; [lia|reflexivity]].
    rewrite bind_lift.
    destruct (Py.get_method p "auto_reply_prompt" _) as [text|e];
      [|cbn; split; [lia|reflexivity]].
    rewrite agent_call_log. cbn. split; [lia|reflexivity].
Qed.

(** ** The per-item enricher *)

Section Enricher.
Variable json_loads : string -> option value.

(** The outcome of the [try] body, step by step. *)
Lemma enrich_outcome (email prompts : dict) (svc : service) (n : nat) :
  outcome_of (Processing.enrich json_loads email prompts svc n)
  = let? cat_prompt := Py.getitem (VDict prompts) "categorization_prompt" in
    match Processing.call_openrouter
            (Processing.categorization_request email cat_prompt) svc n with
    | (Raise e, _, _) => Raise e
    | (Ok out, n1, _) =>
        let? category := Processing.first_line out in
        let? act_prompt := Py.getitem (VDict prompts) "action_item_prompt" in
        match Processing.call_openrouter
                (Processing.action_request email act_prompt) svc n1 with
        | (Raise e, _, _) => Raise e
        | (Ok out2, _, _) =>
            Ok (Processing.success_record email category
                  (Processing.parse_or_raw json_loads
                     (Processing.clean_json out2)))
        end
    end.
Proof.
  unfold Processing.enrich, Processing.categorize_email,
    Processing.extract_actions, outcome_of.
  io_step.
  destruct (Py.getitem (VDict prompts) "categorization_prompt")
    as [cat_prompt|e]; [|reflexivity].
  destruct (Processing.call_openrouter _ svc n) as [[[out|e] n1] l1];
    [|reflexivity].
  destruct (Processing.first_line out) as [category|e]; [|reflexivity].
  destruct (Py.getitem (VDict prompts) "action_item_prompt")
    as [act_prompt|e]; [|reflexivity].
  destruct (Processing.call_openrouter _ svc n1) as [[[out2|e] n2] l2];
    reflexivity.
Qed.

(** The enricher returns the record of the body, or the error record
    of the exception the body raised. *)
Lemma process_single_email_outcome (email prompts : dict)
  (svc : service) (n : nat) :
  outcome_of (Processing.process_single_email json_loads email prompts svc n)
  = match outcome_of (Processing.enrich json_loads email prompts svc n) with
    | Ok record => Ok record
    | Raise e => Ok (Processing.error_record email e)
    end.
Proof.
  unfold Processing.process_single_email, IO.try_except, outcome_of.
  destruct (Processing.enrich json_loads email prompts svc n)
    as [[[record|e] n1] l1]; reflexivity.
Qed.

(** The whole run of the enricher: what it returns, the replies it
    has consumed and its log, by the step at which the body ends. *)
Lemma process_single_email_run (email prompts : dict)
  (svc : service) (n : nat) :
  Processing.process_single_email json_loads email prompts svc n
  = match Py.getitem (VDict prompts) "categorization_prompt" with
    | Raise e => (Ok (Processing.error_record email e), n, [Sleep 200])
    | Ok cat_prompt =>
        match Processing.call_openrouter
                (Processing.categorization_request email cat_prompt) svc n with
        | (Raise e, n1, l1) =>
            (Ok (Processing.error_record email e), n1, Sleep 200 :: l1)
        | (Ok out, n1, l1) =>
            match Processing.first_line out with
            | Raise e =>
                (Ok (Processing.error_record email e), n1, Sleep 200 :: l1)
            | Ok category =>
                match Py.getitem (VDict prompts) "action_item_prompt" with
                | Raise e =>
                    (Ok (Processing.error_record email e), n1, Sleep 200 :: l1)
                | Ok act_prompt =>
                    match Processing.call_openrouter
                            (Processing.action_request email act_prompt)
                            svc n1 with
                    | (Raise e, n2, l2) =>
                        (Ok (Processing.error_record email e), n2,
                         Sleep 200 :: l1 ++ l2)
                    | (Ok out2, n2, l2) =>
                        (Ok (Processing.success_record email category
                               (Processing.parse_or_raw json_loads
                                  (Processing.clean_json out2))),
                         n2, Sleep 200 :: l1 ++ l2)
                    end
                end
            end
        end
    end%list.
Proof.
  unfold Processing.process_single_email, Processing.enrich,
    Processing.categorize_email, Processing.extract_actions.
  io_step.
  destruct (Py.getitem (VDict prompts) "categorization_prompt")
    as [cat_prompt|e]; [|reflexivity].
  destruct (Processing.call_openrouter _ svc n) as [[[out|e] n1] l1];
    [|cbn; now rewrite app_nil_r].
  destruct (Processing.first_line out) as [category|e];
    [|cbn; now rewrite !app_nil_r].
  destruct (Py.getitem (VDict prompts) "action_item_prompt")
    as [act_prompt|e]; [|cbn; now rewrite !app_nil_r].
  destruct (Processing.call_openrouter _ svc n1) as [[[out2|e] n2] l2];
    cbn; now rewrite !app_nil_r.
Qed.

Lemma enrich_success_shape (email prompts : dict) (svc : service) (n : nat)
  (record : dict) :
  outcome_of (Processing.enrich json_loads email prompts svc n) = Ok record ->
  exists category actions,
    record = Processing.success_record email category actions.
Proof.
  rewrite enrich_outcome.
  destruct (Py.getitem (VDict prompts) "categorization_prompt"); [|discriminate].
  destruct (Processing.call_openrouter _ svc n) as [[[out|e] n1] l1];
    [|discriminate].
  destruct (Processing.first_line out) as [category|e]; [|discriminate].
  destruct (Py.getitem (VDict prompts) "action_item_prompt"); [|discriminate].
  destruct (Processing.call_openrouter _ svc n1) as [[[out2|e] n2] l2];
    [|discriminate].
  intros [= <-]. eauto.
Qed.
End Enricher.

Lemma getitem_get (d : dict) (k : string) (v : value) :
  Py.get d k = Some v -> Py.getitem (VDict d) k = Ok v.
Proof. intros H. unfold Py.getitem. now rewrite H. Qed.

Section EnricherFacts.
Variable json_loads : string -> option value.

(** C4. The enricher never raises.  Whatever exception leaves the two
    steps, in particular either completion call, the record returned
    has status "error", category "Error" and as actions the text
    "Processing failed: " followed by the text of the exception; a
    record with status "error" always has that shape; on an HTTP 500
    to either call the text names 500. *)
Theorem enricher_never_raises (email prompts : dict) (svc : service) (n : nat) :
  exists record,
    outcome_of (Processing.process_single_email json_loads email prompts svc n) = Ok record
    /\ (forall e,
           outcome_of (Processing.enrich json_loads email prompts svc n) = Raise e ->
           record = Processing.error_record email e)
    /\ (forall p e n1 l1,
           Py.get prompts "categorization_prompt" = Some p ->
           Processing.call_openrouter
             (Processing.categorization_request email p) svc n
           = (Raise e, n1, l1) ->
           record = Processing.error_record email e)
    /\ (forall p out n1 l1 category p2 e n2 l2,
           Py.get prompts "categorization_prompt" = Some p ->
           Processing.call_openrouter
             (Processing.categorization_request email p) svc n
           = (Ok out, n1, l1) ->
           Processing.first_line out = Ok category ->
           Py.get prompts "action_item_prompt" = Some p2 ->
           Processing.call_openrouter
             (Processing.action_request email p2) svc n1
           = (Raise e, n2, l2) ->
           record = Processing.error_record email e)
    /\ (forall e,
           Py.get (Processing.error_record email e) "status"
           = Some (VStr "error")
           /\ Py.get (Processing.error_record email e) "category"
              = Some (VStr "Error")
           /\ Py.get (Processing.error_record email e) "actions"
              = Some (VStr ("Processing failed: " ++ exn_str e)))
    /\ (Py.get record "status" = Some (VStr "error") ->
        Py.get record "category" = Some (VStr "Error")
        /\ exists msg,
             Py.get record "actions" = Some (VStr msg)
             /\ msg <> EmptyString)
    /\ (forall p text json,
           Py.get prompts "categorization_prompt" = Some p ->
           svc n = Http 500 text json ->
           Py.get record "actions"
           = Some (VStr "Processing failed: API Error 500"))
    /\ (forall p out n1 l1 category p2 text json,
           Py.get prompts "categorization_prompt" = Some p ->
           Processing.call_openrouter
             (Processing.categorization_request email p) svc n
           = (Ok out, n1, l1) ->
           Processing.first_line out = Ok category ->
           Py.get prompts "action_item_prompt" = Some p2 ->
           svc n1 = Http 500 text json ->
           Py.get record "actions"
           = Some (VStr "Processing failed: API Error 500")).
Proof.
  rewrite process_single_email_outcome.
  destruct (outcome_of (Processing.enrich json_loads email prompts svc n)) as [record|e0] eqn:Hbody.
  - exists record. split; [reflexivity|].
    rewrite enrich_outcome in Hbody.
    destruct (enrich_success_shape json_loads email prompts svc n record)
      as (category & actions & ->); [now rewrite enrich_outcome|].
    repeat apply conj.
    + discriminate.
    + intros p e n1 l1 Hp Hcall.
      rewrite (getitem_get _ _ _ Hp), Hcall in Hbody. discriminate.
    + intros p out n1 l1 cat p2 e n2 l2 Hp Hcall Hline Hp2 Hcall2.
      rewrite (getitem_get _ _ _ Hp), Hcall, Hline,
        (getitem_get _ _ _ Hp2), Hcall2 in Hbody. discriminate.
    + intros e. repeat split.
    + discriminate.
    + intros p text json Hp H500.
      rewrite (getitem_get _ _ _ Hp), processing_call_cases, H500 in Hbody.
      discriminate.
    + intros p out n1 l1 cat p2 text json Hp Hcall Hline Hp2 H500.
      rewrite (getitem_get _ _ _ Hp), Hcall, Hline, (getitem_get _ _ _ Hp2),
        processing_call_cases, H500 in Hbody.
      discriminate.
  - exists (Processing.error_record email e0). split; [reflexivity|].
    rewrite enrich_outcome in Hbody.
    repeat apply conj.
    + now intros e [= <-].
    + intros p e n1 l1 Hp Hcall.
      rewrite (getitem_get _ _ _ Hp), Hcall in Hbody. now injection Hbody as <-.
    + intros p out n1 l1 cat p2 e n2 l2 Hp Hcall Hline Hp2 Hcall2.
      rewrite (getitem_get _ _ _ Hp), Hcall, Hline,
        (getitem_get _ _ _ Hp2), Hcall2 in Hbody. now injection Hbody as <-.
    + intros e. repeat split.
    + intros _. split; [reflexivity|].
      eexists. split; [reflexivity|discriminate].
    + intros p text json Hp H500.
      rewrite (getitem_get _ _ _ Hp), processing_call_cases, H500 in Hbody.
      now injection Hbody as <-.
    + intros p out n1 l1 cat p2 text json Hp Hcall Hline Hp2 H500.
      rewrite (getitem_get _ _ _ Hp), Hcall, Hline, (getitem_get _ _ _ Hp2),
        processing_call_cases, H500 in Hbody.
      now injection Hbody as <-.
Qed.

(** C9. The record the enricher returns, on success and on error,
    has the email's id, sender, subject, timestamp and body as the
    email has them; its keys are these five and category, actions and
    status. *)
Theorem enricher_copies_fields (email prompts : dict) (svc : service) (n : nat) :
  exists record,
    outcome_of (Processing.process_single_email json_loads email prompts svc n) = Ok record
    /\ Forall (fun k => Py.get record k = Some (Py.get_or_none email k))
              copied_keys
    /\ Py.keys record = record_keys.
Proof.
  rewrite process_single_email_outcome.
  destruct (outcome_of (Processing.enrich json_loads email prompts svc n)) as [record|e] eqn:Hbody.
  - destruct (enrich_success_shape json_loads email prompts svc n record Hbody)
      as (category & actions & ->).
    eexists. split; [reflexivity|]. split; [|reflexivity].
    repeat constructor.
  - eexists. split; [reflexivity|]. split; [|reflexivity].
    repeat constructor.
Qed.
End EnricherFacts.

(** Every completion call sends a request. *)
Lemma processing_call_logs (prompt : string) (svc : service) (n : nat) :
  snd (Processing.call_openrouter prompt svc n) <> [].
Proof.
  rewrite processing_call_cases.
  destruct (svc n) as [s t j|e].
  - destruct (s =? 200); [discriminate|].
    destruct (s =? 429); [|discriminate].
    destruct (svc (S n)) as [s2 t2 j2|e2].
    + destruct (s2 =? 200); [|destruct (s2 =? 429)]; discriminate.
    + destruct (exn_cls e2); discriminate.
  - destruct (exn_cls e); try discriminate;
      destruct (svc (S n)) as [s2 t2 j2|e2];
      try (destruct (s2 =? 200); [|destruct (s2 =? 429)]; discriminate);
      destruct (exn_cls e2); discriminate.
Qed.

(** A blank categorization text has no first line: the body ends there,
    inside the failure boundary, and the extraction request is never
    sent. *)
Lemma blank_category_ends_the_body :
  let run := Processing.process_single_email sample_loads sample_email
               Prompts.DEFAULT_PROMPTS blank_service 0%nat in
  outcome_of run
  = Ok (Processing.error_record sample_email
          (Exn IndexError "list index out of range"))
  /\ snd (fst run) = 1%nat
  /\ requests_sent (snd run) = 1%nat.
Proof. vm_compute. repeat split. Qed.

(** *** Code fences *)

Lemma is_empty_app_r (s t : string) :
  Str.is_empty t = false -> Str.is_empty (s ++ t) = false.
Proof. destruct s; [trivial|reflexivity]. Qed.

Lemma rstrip_app_fixed (s t : string) :
  Str.rstrip t = t -> Str.is_empty t = false -> Str.rstrip (s ++ t) = s ++ t.
Proof.
  intros Ht Hne. induction s as [|c s IH]; [exact Ht|].
  simpl. rewrite IH, (is_empty_app_r s t Hne), andb_false_r. reflexivity.
Qed.

Lemma replace_skips_tick_free (old' new s t : string) :
  tick_free s = true ->
  Str.replace_from (String TICK old') new 0 (s ++ t)
  = s ++ Str.replace_from (String TICK old') new 0 t.
Proof.
  intros Hs. induction s as [|c s IH]; [reflexivity|].
  simpl in Hs. apply andb_prop in Hs as [Hc Hs].
  change (String c s ++ t) with (String c (s ++ t)).
  cbn [Str.replace_from Str.is_empty prefix].
  destruct (ascii_dec TICK c) as [<-|_].
  - rewrite Ascii.eqb_refl in Hc. discriminate.
  - rewrite (IH Hs). reflexivity.
Qed.

Lemma prefix_nil (s : string) : prefix EmptyString s = true.
Proof. now destruct s. Qed.

(** A completion wrapped in a json fence is cleaned to its inside. *)
Lemma clean_json_fenced (body : string) :
  tick_free body = true ->
  Processing.clean_json ("```json" ++ body ++ "```") = Str.strip body.
Proof.
  intros Hb. unfold Processing.clean_json.
  assert (Hstrip : Str.strip ("```json" ++ body ++ "```")
                   = "```json" ++ body ++ "```").
  { unfold Str.strip.
    replace (Str.lstrip ("```json" ++ body ++ "```"))
      with (("```json" ++ body) ++ "```") by reflexivity.
    rewrite (rstrip_app_fixed ("```json" ++ body) "```"); reflexivity. }
  rewrite Hstrip.
  replace (Str.startswith ("```json" ++ body ++ "```") "```")
    with true by reflexivity.
  f_equal.
  replace (Str.replace ("```json" ++ body ++ "```") "```json" EmptyString)
    with (Str.replace_from "```json" EmptyString 0 (body ++ "```"))
    by (unfold Str.replace; cbn; now rewrite prefix_nil).
  rewrite (replace_skips_tick_free "``json" _ _ _ Hb).
  replace (Str.replace_from (String TICK "``json") EmptyString 0 "```")
    with "```" by reflexivity.
  unfold Str.replace.
  rewrite (replace_skips_tick_free "``" _ _ _ Hb).
  replace (Str.replace_from (String TICK "``") EmptyString 0 "```")
    with EmptyString by reflexivity.
  clear. induction body as [|c body IH]; [reflexivity|]. simpl. now rewrite IH.
Qed.

(** C5 does not hold as stated: the cleaning does not stop at the
    fences that surround the text.  Of a reply in a fence that quotes
    two words in fences of their own, the code keeps "Reply yes or no"
    where the text without its surrounding fences still has the inner
    ones. *)
Lemma inner_fences_are_removed : ~ success_as_specified sample_loads.
Proof.
  intros H.
  destruct (H sample_email Prompts.DEFAULT_PROMPTS quoting_service 0%nat
              "To-Do" quoting_reply)
    as (line & rest & record & _ & Hrun & _ & _ & Hactions).
  - do 6 eexists. repeat split; reflexivity.
  - vm_compute in Hrun. injection Hrun as <-.
    vm_compute in Hactions. discriminate Hactions.
Qed.

(** What the hypothesis of C5 asks for: the two prompts, two calls that
    return, and a categorization text that has a first line, without
    which the second call is not made. *)
Lemma both_calls_succeed_iff (json_loads : string -> option value)
  (email prompts : dict) (svc : service) (n : nat) (out1 out2 : string) :
  both_calls_succeed json_loads email prompts svc n out1 out2
  <-> exists p1 p2 n1 l1 n2 l2,
        Py.get prompts "categorization_prompt" = Some p1
        /\ Py.get prompts "action_item_prompt" = Some p2
        /\ Processing.call_openrouter
             (Processing.categorization_request email p1) svc n
           = (Ok out1, n1, l1)
        /\ Str.splitlines out1 <> []
        /\ Processing.call_openrouter
             (Processing.action_request email p2) svc n1
           = (Ok out2, n2, l2).
Proof.
  split.
  - intros (p1 & p2 & n1 & l1 & n2 & l2 & Hp1 & Hp2 & Hcall1 & Hcall2 & Hlog).
    exists p1, p2, n1, l1, n2, l2. repeat split; try assumption.
    intros Hlines.
    rewrite process_single_email_run, (getitem_get _ _ _ Hp1), Hcall1 in Hlog.
    unfold Processing.first_line in Hlog. rewrite Hlines in Hlog.
    cbn [Py.raise snd] in Hlog. injection Hlog as Hlog.
    rewrite <- (app_nil_r l1) in Hlog at 1.
    apply app_inv_head in Hlog.
    pose proof (processing_call_logs
                  (Processing.action_request email p2) svc n1) as Hne.
    rewrite Hcall2 in Hne. now apply Hne.
  - intros (p1 & p2 & n1 & l1 & n2 & l2 & Hp1 & Hp2 & Hcall1 & Hlines & Hcall2).
    exists p1, p2, n1, l1, n2, l2. repeat split; try assumption.
    rewrite process_single_email_run, (getitem_get _ _ _ Hp1), Hcall1.
    unfold Processing.first_line.
    destruct (Str.splitlines out1) as [|line rest]; [contradiction|].
    rewrite (getitem_get _ _ _ Hp2), Hcall2. reflexivity.
Qed.

(** C5, amended.  When the enricher makes both completion calls and both
    return, it returns a success record: its category is the first line
    of the categorization text, trimmed; its actions are the cleaned
    extraction text parsed as JSON, or that text itself when it does not
    parse.  Cleaning: the trimmed text when it does not start with a
    fence; otherwise every json fence, then every fence, is removed
    wherever it stands, and the rest trimmed, which turns a fenced
    document into its inside. *)
Theorem enrichment_on_success
  (json_loads : string -> option value) (email prompts : dict)
  (svc : service) (n : nat) (out1 out2 : string) :
  both_calls_succeed json_loads email prompts svc n out1 out2 ->
  exists line rest record,
    Str.splitlines out1 = line :: rest
    /\ outcome_of (Processing.process_single_email json_loads email prompts svc n)
       = Ok record
    /\ Py.get record "status" = Some (VStr "success")
    /\ Py.get record "category" = Some (VStr (Str.strip line))
    /\ (forall doc,
           json_loads (Processing.clean_json out2) = Some doc ->
           Py.get record "actions" = Some doc)
    /\ (json_loads (Processing.clean_json out2) = None ->
        Py.get record "actions" = Some (VStr (Processing.clean_json out2)))
    /\ (Str.startswith (Str.strip out2) "```" = false ->
        Processing.clean_json out2 = Str.strip out2)
    /\ (Str.startswith (Str.strip out2) "```" = true ->
        Processing.clean_json out2
        = Str.strip (Str.replace (Str.replace (Str.strip out2) "```json"
                                              EmptyString)
                                 "```" EmptyString))
    /\ (forall body,
           tick_free body = true ->
           Processing.clean_json ("```json" ++ body ++ "```") = Str.strip body).
Proof.
  intros (p1 & p2 & n1 & l1 & n2 & l2 & Hp1 & Hp2 & Hcall1 & Hcall2 & Hlog).
  unfold outcome_of.
  rewrite process_single_email_run in Hlog |- *.
  rewrite (getitem_get _ _ _ Hp1), Hcall1 in Hlog |- *.
  destruct (Processing.first_line out1) as [category|e] eqn:Hline.
  - unfold Processing.first_line in Hline.
    destruct (Str.splitlines out1) as [|line rest]; [discriminate|].
    injection Hline as <-.
    exists line, rest.
    rewrite (getitem_get _ _ _ Hp2), Hcall2.
    eexists. split; [reflexivity|]. split; [reflexivity|].
    split; [reflexivity|]. split; [reflexivity|].
    unfold Processing.success_record, Processing.parse_or_raw. cbn [app Py.get].
    cbn [Processing.copied app Py.get String.eqb Ascii.eqb Bool.eqb fst].
    repeat apply conj.
    + intros doc ->. reflexivity.
    + intros ->. reflexivity.
    + intros H. unfold Processing.clean_json. now rewrite H.
    + intros H. unfold Processing.clean_json. now rewrite H.
    + apply clean_json_fenced.
  - exfalso. cbn [snd] in Hlog.
    injection Hlog as Hlog.
    rewrite <- (app_nil_r l1) in Hlog at 1.
    apply app_inv_head in Hlog.
    pose proof (processing_call_logs
                  (Processing.action_request email p2) svc n1) as Hne.
    rewrite Hcall2 in Hne. now apply Hne.
Qed.

(** ** The stable sort *)

Section SortingFacts.
Context {A K : Type} (key : A -> K) (leb : K -> K -> bool).

Lemma insert_permutation (x : A) (l : list A) :
  Permutation (Sorting.insert key leb x l) (x :: l).
Proof.
  induction l as [|y l IH]; simpl; [reflexivity|].
  destruct (leb (key x) (key y)); [reflexivity|].
  rewrite IH. apply perm_swap.
Qed.

Lemma sort_permutation (l : list A) : Permutation (Sorting.sort key leb l) l.
Proof.
  induction l as [|x l IH]; simpl; [reflexivity|].
  rewrite insert_permutation. now constructor.
Qed.

Hypothesis leb_total : forall a b, leb a b = true \/ leb b a = true.

Lemma insert_hdrel (a x : A) (l : list A) :
  Sorting.key_le key leb a x ->
  HdRel (Sorting.key_le key leb) a l ->
  HdRel (Sorting.key_le key leb) a (Sorting.insert key leb x l).
Proof.
  intros Hax Hal. destruct l as [|y l]; simpl; [now constructor|].
  destruct (leb (key x) (key y)); constructor; [assumption|].
  now inversion Hal.
Qed.

Lemma insert_sorted (x : A) (l : list A) :
  Sorted (Sorting.key_le key leb) l ->
  Sorted (Sorting.key_le key leb) (Sorting.insert key leb x l).
Proof.
  induction 1 as [|y l Hl IH Hy]; simpl; [repeat constructor|].
  destruct (leb (key x) (key y)) eqn:Hxy.
  - constructor; [now constructor|now constructor].
  - constructor; [assumption|].
    apply insert_hdrel; [|assumption].
    destruct (leb_total (key x) (key y)) as [H|H]; [congruence|exact H].
Qed.

Lemma sort_sorted (l : list A) :
  Sorted (Sorting.key_le key leb) (Sorting.sort key leb l).
Proof.
  induction l as [|x l IH]; simpl; [constructor|now apply insert_sorted].
Qed.
End SortingFacts.

Lemma Zleb_total (a b : Z) : (a <=? b) = true \/ (b <=? a) = true.
Proof. destruct (Z.leb_spec a b); [now left|right; apply Z.leb_le; lia]. Qed.

(** ** Comparing objects *)

(** Induction on an object, with the property at hand for the items of
    a list and the values of a dict. *)
Lemma value_induction (P : value -> Prop) :
  P VNone ->
  (forall b, P (VBool b)) ->
  (forall n, P (VInt n)) ->
  (forall s, P (VStr s)) ->
  (forall l, Forall P l -> P (VList l)) ->
  (forall d, Forall (fun kx => P (snd kx)) d -> P (VDict d)) ->
  forall v, P v.
Proof.
  intros HN HB HI HS HL HD.
  fix IH 1. intros [|b|n|s|l|d].
  - exact HN.
  - apply HB.
  - apply HI.
  - apply HS.
  - apply HL. induction l as [|x l IHl]; constructor; [apply IH|exact IHl].
  - apply HD. induction d as [|[k x] d IHd]; constructor; [apply IH|exact IHd].
Qed.

Lemma eqb_cons (x y : value) (la lb : list value) :
  Py.eqb (VList (x :: la)) (VList (y :: lb))
  = Py.eqb x y && Py.eqb (VList la) (VList lb).
Proof. reflexivity. Qed.

Lemma lt_cons (x y : value) (la lb : list value) :
  Py.lt (VList (x :: la)) (VList (y :: lb))
  = if Py.eqb x y then Py.lt (VList la) (VList lb) else Py.lt x y.
Proof. reflexivity. Qed.

Lemma at_key_ext (d : dict) (k : string) (f g : value -> bool) :
  Forall (fun kx => f (snd kx) = g (snd kx)) d ->
  Py.at_key d k f = Py.at_key d k g.
Proof.
  induction 1 as [|[k' x] d Hx _ IH]; simpl; [reflexivity|].
  destruct (String.eqb k k'); [exact Hx|exact IH].
Qed.

Lemma forallb_ext_in {A : Type} (f g : A -> bool) (l : list A) :
  Forall (fun a => f a = g a) l -> forallb f l = forallb g l.
Proof. induction 1 as [|a l Ha _ IH]; simpl; [reflexivity|]. now rewrite Ha, IH. Qed.

(** [==] on dicts: every key of either is a key of the other, with an
    equal value. *)
Lemma eqb_dict (da db : dict) :
  Py.eqb (VDict da) (VDict db)
  = forallb (fun kx => Py.at_key db (fst kx) (fun y => Py.eqb (snd kx) y)) da
    && forallb (fun ky => Py.at_key da (fst ky) (fun x => Py.eqb x (snd ky))) db.
Proof.
  cbn [Py.eqb]. f_equal. apply forallb_ext_in, Forall_forall.
  intros [k y] _. cbn [fst snd].
  induction da as [|[k' x] da IH]; [reflexivity|].
  cbn [Py.at_key]. destruct (String.eqb k k'); [reflexivity|exact IH].
Qed.

Lemma py_eqb_sym (a b : value) : Py.eqb a b = Py.eqb b a.
Proof.
  revert b. induction a as [|c|x|s|la IH|da IH] using value_induction;
    intros [|c'|y|t|lb|db]; try reflexivity.
  - now destruct c, c'.
  - cbn. apply Z.eqb_sym.
  - cbn. apply Z.eqb_sym.
  - cbn. apply Z.eqb_sym.
  - cbn. apply String.eqb_sym.
  - revert lb. induction IH as [|x la Hx _ IHla]; intros [|y lb]; try reflexivity.
    rewrite !eqb_cons, Hx, IHla. reflexivity.
  - rewrite !eqb_dict. rewrite andb_comm. f_equal.
    + apply forallb_ext_in, Forall_forall. intros [k y] _. cbn [fst snd].
      apply at_key_ext.
      apply (Forall_impl _ (P := fun kx => forall b, Py.eqb (snd kx) b
                                                      = Py.eqb b (snd kx)));
        [|exact IH].
      intros [k' x] H. cbn [snd] in *. apply H.
    + apply forallb_ext_in.
      apply (Forall_impl _ (P := fun kx => forall b, Py.eqb (snd kx) b
                                                      = Py.eqb b (snd kx)));
        [|exact IH].
      intros [k x] H. cbn [fst snd] in *.
      apply at_key_ext. apply Forall_forall. intros [k' y] _. cbn [snd].
      apply H.
Qed.

Lemma string_ltb_asym (s t : string) :
  String.ltb s t = true -> String.ltb t s = false.
Proof.
  unfold String.ltb. rewrite (String.compare_antisym s t).
  destruct (String.compare t s); simpl; congruence.
Qed.

Lemma string_leb_ltb (s t : string) : String.leb s t = negb (String.ltb t s).
Proof.
  unfold String.leb, String.ltb. rewrite (String.compare_antisym s t).
  destruct (String.compare t s); reflexivity.
Qed.

(** On numbers, [<] is that of their values. *)
Lemma lt_numbers (a b : value) (x y : Z) :
  Py.number a = Some x -> Py.number b = Some y -> Py.lt a b = Ok (x <? y).
Proof.
  destruct a as [|c|n|s|l|d]; try discriminate;
    destruct b as [|c'|n'|s'|l'|d']; try discriminate;
    cbn; intros [= <-] [= <-]; reflexivity.
Qed.

(** When [a < b] is the case, [b < a] is answered, with no. *)
Lemma lt_asym (a b : value) : Py.lt a b = Ok true -> Py.lt b a = Ok false.
Proof.
  revert b. induction a as [|c|x|s|la IH|da IH] using value_induction;
    intros [|c'|y|t|lb|db]; try discriminate.
  - rewrite (lt_numbers (VBool c) (VBool c') _ _ eq_refl eq_refl),
      (lt_numbers (VBool c') (VBool c) _ _ eq_refl eq_refl).
    intros [= H]. f_equal. apply Z.ltb_lt in H. apply Z.ltb_ge. lia.
  - rewrite (lt_numbers (VBool c) (VInt y) _ _ eq_refl eq_refl),
      (lt_numbers (VInt y) (VBool c) _ _ eq_refl eq_refl).
    intros [= H]. f_equal. apply Z.ltb_lt in H. apply Z.ltb_ge. lia.
  - rewrite (lt_numbers (VInt x) (VBool c') _ _ eq_refl eq_refl),
      (lt_numbers (VBool c') (VInt x) _ _ eq_refl eq_refl).
    intros [= H]. f_equal. apply Z.ltb_lt in H. apply Z.ltb_ge. lia.
  - rewrite (lt_numbers (VInt x) (VInt y) _ _ eq_refl eq_refl),
      (lt_numbers (VInt y) (VInt x) _ _ eq_refl eq_refl).
    intros [= H]. f_equal. apply Z.ltb_lt in H. apply Z.ltb_ge. lia.
  - cbn. intros [= H]. f_equal. now apply string_ltb_asym.
  - revert lb. induction IH as [|x la Hx _ IHla]; intros [|y lb];
      try discriminate; try reflexivity.
    rewrite !lt_cons, (py_eqb_sym y x).
    destruct (Py.eqb x y); [apply IHla|apply Hx].
Qed.

Lemma precedes_total (a b : value) :
  Processing.precedes a b = true \/ Processing.precedes b a = true.
Proof.
  unfold Processing.precedes.
  destruct (Py.lt b a) as [[|]|e] eqn:Hba; try (now left).
  right. now rewrite (lt_asym _ _ Hba).
Qed.

Lemma compares_sym (a b : value) :
  Processing.compares a b = Processing.compares b a.
Proof.
  unfold Processing.compares.
  destruct (Py.lt a b), (Py.lt b a); reflexivity.
Qed.

(** Between two keys that compare, [precedes] is [ordered]. *)
Lemma precedes_ordered (a b : value) :
  Processing.compares a b = true -> Processing.precedes a b = true ->
  ordered a b.
Proof.
  unfold Processing.compares, Processing.precedes, ordered.
  destruct (Py.lt a b); [|discriminate].
  destruct (Py.lt b a) as [[|]|]; try discriminate. reflexivity.
Qed.

Lemma all_compare_intro (keys : list value) :
  (forall a b, In a keys -> In b keys -> Processing.compares a b = true) ->
  Processing.all_compare keys = true.
Proof.
  induction keys as [|k keys IH]; intros H; [reflexivity|].
  cbn [Processing.all_compare]. apply andb_true_intro. split.
  - apply forallb_forall. intros b Hb. apply H; [now left|now right].
  - apply IH. intros a b Ha Hb. apply H; now right.
Qed.

(** That every two keys compare does not depend on their order. *)
Lemma all_compare_permutation (l l' : list value) :
  Permutation l l' ->
  Processing.all_compare l = true -> Processing.all_compare l' = true.
Proof.
  induction 1 as [|x l l' Hp IH|x y l|l l' l'' _ IH1 _ IH2].
  - trivial.
  - cbn [Processing.all_compare]. rewrite !andb_true_iff, !forallb_forall.
    intros [Hx Hl]. split; [|now apply IH].
    intros b Hb. apply Hx. symmetry in Hp. exact (Permutation_in _ Hp Hb).
  - cbn [Processing.all_compare forallb]. rewrite !andb_true_iff.
    intros [[Hyx Hy] [Hx Hl]]. rewrite compares_sym in Hyx. tauto.
  - auto.
Qed.

(** From the head of a list of keys that all compare. *)
Lemma all_compare_cons (a b : value) (keys : list value) :
  Processing.all_compare (a :: b :: keys) = true ->
  Processing.compares a b = true /\ Processing.all_compare (b :: keys) = true.
Proof.
  cbn [Processing.all_compare forallb]. rewrite !andb_true_iff. tauto.
Qed.

Section SortExt.
Context {A K K' : Type} (key : A -> K) (leb : K -> K -> bool)
        (key' : A -> K') (leb' : K' -> K' -> bool).

Lemma insert_ext (x : A) (l : list A) :
  (forall y, In y l -> leb (key x) (key y) = leb' (key' x) (key' y)) ->
  Sorting.insert key leb x l = Sorting.insert key' leb' x l.
Proof.
  induction l as [|y l IH]; intros H; [reflexivity|].
  simpl. rewrite (H y (or_introl eq_refl)).
  destruct (leb' (key' x) (key' y)); [reflexivity|].
  f_equal. apply IH. intros z Hz. apply H. now right.
Qed.

(** Two orderings that agree on the elements of a list sort it alike. *)
Lemma sort_ext (l : list A) :
  (forall x y, In x l -> In y l -> leb (key x) (key y) = leb' (key' x) (key' y)) ->
  Sorting.sort key leb l = Sorting.sort key' leb' l.
Proof.
  induction l as [|x l IH]; intros H; [reflexivity|].
  simpl. rewrite IH by (intros a b Ha Hb; apply H; now right).
  apply insert_ext. intros y Hy. apply H; [now left|right].
  exact (Permutation_in _ (sort_permutation key' leb' l) Hy).
Qed.
End SortExt.

(** ** The batch run *)

Lemma process_single_email_shape (json_loads : string -> option value)
  (email prompts : dict) (svc : service) (n : nat) :
  exists record,
    outcome_of (Processing.process_single_email json_loads email prompts svc n)
    = Ok record
    /\ enriched_from email record.
Proof.
  rewrite process_single_email_outcome.
  destruct (outcome_of (Processing.enrich json_loads email prompts svc n))
    as [record|e] eqn:Hbody.
  - destruct (enrich_success_shape json_loads email prompts svc n record Hbody)
      as (category & actions & ->).
    eexists. split; [reflexivity|]. now exists category, actions, "success".
  - eexists. split; [reflexivity|].
    now exists "Error", (VStr ("Processing failed: " ++ exn_str e)), "error".
Qed.

Lemma enriched_id (email record : dict) :
  enriched_from email record ->
  Py.getitem (VDict record) "id" = Ok (Py.get_or_none record "id")
  /\ Py.get_or_none record "id" = Py.get_or_none email "id".
Proof. intros (c & a & s & ->). split; reflexivity. Qed.

Lemma progress_line_ok (email record : dict) (completed total : nat) :
  enriched_from email record -> has_text_subject email ->
  exists ln, Processing.progress_line record completed total = Ok ln.
Proof.
  intros (c & a & st & ->) (s & Hs).
  unfold Processing.progress_line.
  replace (Py.getitem _ "status") with (Ok (VStr st)) by reflexivity.
  replace (Py.getitem _ "subject") with (Ok (VStr s))
    by (cbn; unfold Py.get_or_none; now rewrite Hs).
  replace (Py.getitem _ "category") with (Ok (VStr c)) by reflexivity.
  cbn. destruct (String.eqb st "success"); eauto.
Qed.

Lemma collect_all (total : nat) (recs acc : list dict) (completed : nat) :
  Forall (fun r => forall c, exists ln, Processing.progress_line r c total = Ok ln)
         recs ->
  fst (Processing.collect total (map Ok recs) acc completed) = (acc ++ recs)%list.
Proof.
  intros H. revert acc completed.
  induction H as [|r recs Hr _ IH]; intros acc completed; simpl.
  - now rewrite app_nil_r.
  - destruct (Hr (S completed)) as (ln & ->).
    specialize (IH (acc ++ [r])%list (S completed)).
    destruct (Processing.collect total (map Ok recs) (acc ++ [r]) (S completed))
      as [done printed].
    simpl in *. rewrite IH, <- app_assoc. reflexivity.
Qed.

Section Futures.
Variable json_loads : string -> option value.
Variable svc : nat -> service.
Variable prompts : dict.

Lemma submitted_shape (emails : list dict) (start : nat) :
  Forall2 (fun email f =>
             exists record,
               Processing.future_result f = Ok record
               /\ enriched_from email record)
          emails
          (map (fun ie => (fst ie,
                           Processing.process_single_email
                             json_loads (snd ie) prompts (svc (fst ie)) 0%nat))
               (combine (seq start (List.length emails)) emails)).
Proof.
  revert start. induction emails as [|email emails IH]; intros start; simpl.
  - constructor.
  - constructor; [|apply IH].
    destruct (process_single_email_shape json_loads email prompts
                (svc start) 0%nat) as (record & Hrun & Hshape).
    exists record. split; [exact Hrun|exact Hshape].
Qed.
End Futures.

Lemma Forall2_records {B : Type} (result_of : B -> result dict)
  (emails : list dict) (futures : list B) :
  Forall2 (fun email f => exists record,
               result_of f = Ok record /\ enriched_from email record)
          emails futures ->
  Forall2 enriched_from emails (map (fun f => unwrap (result_of f)) futures)
  /\ Forall (fun f => result_of f = Ok (unwrap (result_of f))) futures.
Proof.
  induction 1 as [|email f emails futures (record & Hr & Hs) _ [IH1 IH2]]; simpl.
  - split; constructor.
  - split; constructor; try assumption; rewrite Hr; simpl; [assumption|reflexivity].
Qed.

Lemma map_ok_unwrap {B : Type} (result_of : B -> result dict) (l : list B) :
  Forall (fun f => result_of f = Ok (unwrap (result_of f))) l ->
  map result_of l = map Ok (map (fun f => unwrap (result_of f)) l).
Proof.
  induction 1 as [|f l Hf _ IH]; simpl; [reflexivity|].
  now rewrite <- Hf, IH.
Qed.

Lemma id_keys_ok (l : list dict) :
  Forall (fun r => Py.getitem (VDict r) "id" = Ok (Py.get_or_none r "id")) l ->
  Processing.id_keys l = Ok (ids l).
Proof.
  induction 1 as [|r l Hr _ IH]; [reflexivity|].
  cbn [Processing.id_keys ids map]. rewrite Hr.
  unfold ids in IH. now rewrite IH.
Qed.

Lemma text_is_no_number (v : value) :
  Processing.is_text v = true -> Processing.is_number v = false.
Proof. now destruct v. Qed.

Lemma numbered_number (r : dict) :
  numbered r ->
  Py.number (Py.get_or_none r "id") = Some (Processing.number_key r).
Proof.
  unfold numbered, Processing.is_number, Processing.number_key.
  destruct (Py.get_or_none r "id"); simpl; congruence.
Qed.

Lemma named_text (r : dict) :
  named r -> Py.get_or_none r "id" = VStr (Processing.text_key r).
Proof.
  unfold named, Processing.is_text, Processing.text_key.
  destruct (Py.get_or_none r "id"); simpl; congruence.
Qed.

(** Ids that are numbers all compare, and are ordered as numbers. *)
Lemma sort_by_id_numbers (sort_error : list value -> string) (l : list dict) :
  Forall (fun r => Py.getitem (VDict r) "id" = Ok (Py.get_or_none r "id")) l ->
  Forall numbered l ->
  Processing.sort_by_id sort_error l
  = Ok (Sorting.sort Processing.number_key Z.leb l).
Proof.
  intros Hid Hnum. unfold Processing.sort_by_id.
  rewrite (id_keys_ok l Hid).
  rewrite Forall_forall in Hnum.
  rewrite all_compare_intro.
  - f_equal. apply sort_ext. intros x y Hx Hy.
    unfold Processing.precedes.
    rewrite (lt_numbers _ _ _ _ (numbered_number y (Hnum y Hy))
               (numbered_number x (Hnum x Hx))).
    rewrite Z.ltb_antisym. now destruct (_ <=? _).
  - intros a b Ha Hb. unfold ids in Ha, Hb.
    apply in_map_iff in Ha as (x & <- & Hx), Hb as (y & <- & Hy).
    unfold Processing.compares.
    rewrite (lt_numbers _ _ _ _ (numbered_number x (Hnum x Hx))
               (numbered_number y (Hnum y Hy))),
      (lt_numbers _ _ _ _ (numbered_number y (Hnum y Hy))
         (numbered_number x (Hnum x Hx))).
    reflexivity.
Qed.

(** Ids that are strings all compare, and are ordered as strings. *)
Lemma sort_by_id_names (sort_error : list value -> string) (l : list dict) :
  Forall (fun r => Py.getitem (VDict r) "id" = Ok (Py.get_or_none r "id")) l ->
  Forall named l ->
  Processing.sort_by_id sort_error l
  = Ok (Sorting.sort Processing.text_key String.leb l).
Proof.
  intros Hid Hnamed. unfold Processing.sort_by_id.
  rewrite (id_keys_ok l Hid).
  rewrite Forall_forall in Hnamed.
  rewrite all_compare_intro.
  - f_equal. apply sort_ext. intros x y Hx Hy.
    unfold Processing.precedes.
    rewrite (named_text x (Hnamed x Hx)), (named_text y (Hnamed y Hy)).
    cbn [Py.lt]. rewrite string_leb_ltb. now destruct (String.ltb _ _).
  - intros a b Ha Hb. unfold ids in Ha, Hb.
    apply in_map_iff in Ha as (x & <- & Hx), Hb as (y & <- & Hy).
    rewrite (named_text x (Hnamed x Hx)), (named_text y (Hnamed y Hy)).
    reflexivity.
Qed.

Lemma sorted_ids_numbers (l : list dict) :
  Forall numbered l ->
  Sorted (Sorting.key_le Processing.number_key Z.leb) l ->
  Sorted id_le (ids l).
Proof.
  intros Hnum Hs. induction Hs as [|a l _ IH Hhd]; simpl; [constructor|].
  inversion Hnum as [|? ? Ha Hl]; subst.
  constructor; [now apply IH|].
  destruct Hhd as [|b l Hab]; simpl; constructor.
  inversion Hl as [|? ? Hb _]; subst.
  unfold Sorting.key_le, Processing.number_key in Hab.
  unfold numbered, Processing.is_number in Ha, Hb. unfold id_le.
  destruct (Processing.as_number (Py.get_or_none a "id")); [|discriminate].
  destruct (Processing.as_number (Py.get_or_none b "id")); [|discriminate].
  now apply Z.leb_le.
Qed.

Lemma sorted_ids_names (l : list dict) :
  Forall named l ->
  Sorted (Sorting.key_le Processing.text_key String.leb) l ->
  Sorted id_le (ids l).
Proof.
  intros Hnamed Hs. induction Hs as [|a l _ IH Hhd]; simpl; [constructor|].
  inversion Hnamed as [|? ? Ha Hl]; subst.
  constructor; [now apply IH|].
  destruct Hhd as [|b l Hab]; simpl; constructor.
  inversion Hl as [|? ? Hb _]; subst.
  unfold Sorting.key_le, Processing.text_key in Hab.
  unfold named in Ha, Hb. unfold id_le.
  pose proof (text_is_no_number _ Ha) as Hna.
  unfold Processing.is_number, Processing.is_text in *.
  destruct (Processing.as_number (Py.get_or_none a "id")); [discriminate|].
  destruct (Processing.as_text (Py.get_or_none a "id")); [|discriminate].
  destruct (Processing.as_text (Py.get_or_none b "id")); [|discriminate].
  exact Hab.
Qed.


Lemma load_saved (processed : list dict) :
  Processing.load_processed (Processing.save_processed processed)
  = Ok (VList (map VDict processed)).
Proof.
  unfold Processing.save_processed, Processing.load_processed, Json.dump_records.
  cbn [Json.dumps]. unfold Json.block.
  destruct (map (Json.dumps 1) (map VDict processed)); reflexivity.
Qed.

Lemma Forall2_transfer {A B : Type} (R : A -> B -> Prop)
  (P : A -> Prop) (Q : B -> Prop) (l : list A) (l' : list B) :
  (forall a b, R a b -> P a -> Q b) ->
  Forall2 R l l' -> Forall P l -> Forall Q l'.
Proof.
  intros H F2. induction F2 as [|a b l l' Hab _ IH]; intros HP; constructor;
    inversion HP; subst; eauto.
Qed.

Lemma Forall2_ids (emails records : list dict) :
  Forall2 enriched_from emails records -> ids records = ids emails.
Proof.
  induction 1 as [|e r emails records Her _ IH]; simpl; [reflexivity|].
  destruct (enriched_id e r Her) as [_ ->]. now rewrite IH.
Qed.

Lemma Permutation_ids (l l' : list dict) :
  Permutation l l' -> Permutation (ids l) (ids l').
Proof. apply Permutation_map. Qed.

(** C1, amended.  For a batch that is not empty, whose emails have a
    string subject and ids that are all numbers or all strings, run with
    a prompt set that holds the categorization and the action prompt:
    the batch run returns the records of the enricher, one for each
    email, ordered by id, and the ids returned are a permutation of the
    ids of the batch.  The records are collected in the order the units
    of work complete, ordered once, and what is returned is what is
    persisted: the result store reloads to it. *)
Theorem batch_run_sorted
  (json_loads : string -> option value) (svc : nat -> service)
  (finish : nat -> nat) (sort_error : list value -> string)
  (w : world) (prompts : dict) :
  let emails := Ingest.load_mock_inbox (inbox w) in
  let out := Processing.run_ingestion_pipeline json_loads svc finish sort_error w in
  emails <> [] ->
  Prompts.load_prompts (prompts_file w) = Ok (VDict prompts) ->
  Py.get prompts "categorization_prompt" <> None ->
  Py.get prompts "action_item_prompt" <> None ->
  Forall has_text_subject emails ->
  comparable_ids emails ->
  exists collected result,
    Forall2 enriched_from emails (enriched_batch json_loads svc prompts emails)
    /\ Permutation collected (enriched_batch json_loads svc prompts emails)
    /\ Processing.sort_by_id sort_error collected = Ok result
    /\ returned out = Ok result
    /\ Sorted id_le (ids result)
    /\ Permutation (ids result) (ids emails)
    /\ processed_file (after out) = Processing.save_processed result
    /\ Processing.load_processed (processed_file (after out))
       = Ok (VList (map VDict result)).
Proof.
  intros emails out Hne Hload Hcat Hact Hsubjects Hids.
  subst out. unfold Processing.run_ingestion_pipeline. fold emails.
  replace (negb (Py.truthy (VList (map VDict emails)))) with false
    by (destruct emails; [contradiction|reflexivity]).
  rewrite Hload.
  destruct (Py.get prompts "categorization_prompt") as [p1|] eqn:Hp1;
    [|contradiction].
  destruct (Py.get prompts "action_item_prompt") as [p2|] eqn:Hp2;
    [|contradiction].
  rewrite (getitem_get _ _ _ Hp1), (getitem_get _ _ _ Hp2).
  cbn [Py.entries].
  pose proof (submitted_shape json_loads svc prompts emails 0) as Hshape.
  apply Forall2_records in Hshape as [Hrecords Hok].
  change (map _ (combine (seq 0 (List.length emails)) emails))
    with (Processing.submit_all json_loads svc emails prompts) in Hrecords, Hok.
  change (map (fun f => unwrap (Processing.future_result f))
              (Processing.submit_all json_loads svc emails prompts))
    with (enriched_batch json_loads svc prompts emails) in Hrecords.
  set (futures := Processing.submit_all json_loads svc emails prompts) in *.
  assert (Hperm : Permutation (Processing.as_completed finish futures) futures)
    by apply sort_permutation.
  set (arrivals := Processing.as_completed finish futures) in *.
  set (collected := map (fun f => unwrap (Processing.future_result f)) arrivals).
  assert (Hcollected : Permutation collected
                         (enriched_batch json_loads svc prompts emails))
    by (apply Permutation_map; exact Hperm).
  assert (Harrivals : map Processing.future_result arrivals = map Ok collected).
  { apply map_ok_unwrap. symmetry in Hperm.
    exact (Permutation_Forall Hperm Hok). }
  rewrite Harrivals.
  assert (Hgood : Forall (fun r => forall c, exists ln,
                              Processing.progress_line r c (List.length emails)
                              = Ok ln) collected).
  { symmetry in Hcollected. apply (Permutation_Forall Hcollected).
    apply (Forall2_transfer enriched_from has_text_subject _ emails _
             (fun e r Her Hs c => progress_line_ok e r c _ Her Hs)
             Hrecords Hsubjects). }
  pose proof (collect_all (List.length emails) collected [] 0 Hgood) as Hcollect.
  destruct (Processing.collect (List.length emails) (map Ok collected) [] 0)
    as [processed printed].
  simpl in Hcollect. subst processed.
  assert (Hhas : Forall (fun r => Py.getitem (VDict r) "id"
                                  = Ok (Py.get_or_none r "id")) collected).
  { symmetry in Hcollected. apply (Permutation_Forall Hcollected).
    apply (Forall2_transfer enriched_from (fun _ => True) _ emails _
             (fun e r Her _ => proj1 (enriched_id e r Her)) Hrecords).
    apply Forall_forall. trivial. }
  assert (Hresult : exists result,
             Processing.sort_by_id sort_error collected = Ok result
             /\ Permutation result collected
             /\ Sorted id_le (ids result)).
  { destruct Hids as [Hnum|Hnamed].
    - assert (Hn : Forall numbered collected).
      { symmetry in Hcollected. apply (Permutation_Forall Hcollected).
        apply (Forall2_transfer enriched_from numbered numbered emails _
                 (fun e r Her (He : numbered e) =>
                    eq_trans (f_equal Processing.is_number
                                (proj2 (enriched_id e r Her))) He)
                 Hrecords Hnum). }
      eexists. split; [apply (sort_by_id_numbers _ _ Hhas Hn)|].
      split; [apply sort_permutation|].
      apply sorted_ids_numbers.
      + pose proof (sort_permutation Processing.number_key Z.leb collected) as Hp.
        symmetry in Hp. exact (Permutation_Forall Hp Hn).
      + apply sort_sorted. exact Zleb_total.
    - assert (Hn : Forall named collected).
      { symmetry in Hcollected. apply (Permutation_Forall Hcollected).
        apply (Forall2_transfer enriched_from named named emails _
                 (fun e r Her (He : named e) =>
                    eq_trans (f_equal Processing.is_text
                                (proj2 (enriched_id e r Her))) He)
                 Hrecords Hnamed). }
      eexists. split; [apply (sort_by_id_names _ _ Hhas Hn)|].
      split; [apply sort_permutation|].
      apply sorted_ids_names.
      + pose proof (sort_permutation Processing.text_key String.leb collected) as Hp.
        symmetry in Hp. exact (Permutation_Forall Hp Hn).
      + apply sort_sorted. exact String.leb_total. }
  destruct Hresult as (result & Hsort & Hpr & Hsorted).
  exists collected, result. rewrite Hsort. cbn [returned after processed_file].
  repeat apply conj; try assumption; try reflexivity.
  - rewrite <- (Forall2_ids _ _ Hrecords).
    apply Permutation_ids. now rewrite Hpr.
  - apply load_saved.
Qed.

(** C1 does not hold as stated: with two well-formed emails in the inbox
    and a prompts file that holds the reply prompt only, the batch run
    raises [KeyError] and returns nothing. *)
Lemma batch_run_needs_prompts : ~ every_batch_is_sorted.
Proof.
  intros H.
  destruct (H sample_loads steady (fun i => i) first_comparison_text world_with_partial_prompts)
    as (result & Hrun & _); [discriminate|].
  discriminate Hrun.
Qed.

Lemma batch_without_subjects_is_cut_short :
  returned (Processing.run_ingestion_pipeline sample_loads steady (fun i => i) first_comparison_text
              (World (inbox_of bare_emails) Missing Missing))
  = Ok [ Processing.success_record [("id", VInt 2)] "[]" (VList []) ].
Proof. vm_compute. reflexivity. Qed.

(** Two emails without an id: ordering them raises. *)
Lemma batch_without_ids_raises :
  returned (Processing.run_ingestion_pipeline sample_loads steady (fun i => i) first_comparison_text
              (World (inbox_of [[("subject", VStr "a")]; [("subject", VStr "b")]])
                     Missing Missing))
  = Raise (Exn TypeError
             "'<' not supported between instances of 'NoneType' and 'NoneType'").
Proof. vm_compute. reflexivity. Qed.

(** C7.  With no email to process, the batch run raises the error "No
    emails found. Put data/mock_inbox.json first." to its caller; no
    unit of work is submitted and nothing is printed. *)
Theorem empty_batch_raises
  (json_loads : string -> option value) (svc : nat -> service)
  (finish : nat -> nat) (sort_error : list value -> string)
  (w : world) :
  Ingest.load_mock_inbox (inbox w) = [] ->
  returned (Processing.run_ingestion_pipeline json_loads svc finish sort_error w)
  = Raise (Exn RuntimeError "No emails found. Put data/mock_inbox.json first.")
  /\ work (Processing.run_ingestion_pipeline json_loads svc finish sort_error w) = []
  /\ console (Processing.run_ingestion_pipeline json_loads svc finish sort_error w) = [].
Proof.
  intros H. unfold Processing.run_ingestion_pipeline. rewrite H.
  repeat split.
Qed.

(** C10.  With no email to process, the batch run raises and leaves the
    files as they were: the result store still holds what was persisted
    before. *)
Theorem empty_batch_keeps_store
  (json_loads : string -> option value) (svc : nat -> service)
  (finish : nat -> nat) (sort_error : list value -> string)
  (w : world) :
  Ingest.load_mock_inbox (inbox w) = [] ->
  (exists e,
      returned (Processing.run_ingestion_pipeline json_loads svc finish sort_error w)
      = Raise e)
  /\ after (Processing.run_ingestion_pipeline json_loads svc finish sort_error w) = w
  /\ processed_file
       (after (Processing.run_ingestion_pipeline json_loads svc finish sort_error w))
     = processed_file w.
Proof.
  intros H. unfold Processing.run_ingestion_pipeline. rewrite H.
  split; [eexists; reflexivity|]. split; reflexivity.
Qed.

(** ** The stores *)


(** A store that holds a document which is no list is returned as it
    is, by both loaders. *)
Lemma object_store_is_returned :
  Processing.load_processed object_store = Ok (VDict [("drafts", VList [])])
  /\ Drafts.load_drafts object_store = Ok (VDict [("drafts", VList [])]).
Proof. split; reflexivity. Qed.


(** C8 does not hold as stated: a prompts file saved with the reply
    prompt only loads without the other two. *)
Lemma partial_prompts_stay_partial : ~ prompts_always_complete.
Proof.
  intros H. specialize (H partial_prompts _ eq_refl).
  inversion H as [|k ks Hk _]. now apply Hk.
Qed.

(** C8, amended.  Without a prompts file, [load_prompts] returns the
    built-in defaults, which hold the three prompts.  With a prompts
    file it returns what [json.load] makes of the file, as it is: a
    prompt the file lacks is not filled in, and what the parse raises
    reaches the caller.  A prompt set saved by [save_prompts] loads
    back unchanged. *)
Theorem load_prompts_behaviour :
  Prompts.load_prompts Missing = Ok (VDict Prompts.DEFAULT_PROMPTS)
  /\ has_all_prompts Prompts.DEFAULT_PROMPTS
  /\ Py.keys Prompts.DEFAULT_PROMPTS = prompt_keys
  /\ (forall raw doc, Prompts.load_prompts (Text raw doc) = doc)
  /\ (forall prompts,
         Prompts.load_prompts (Prompts.save_prompts prompts)
         = Ok (VDict prompts)).
Proof.
  repeat apply conj; try reflexivity.
  repeat constructor; discriminate.
Qed.

(** ** The theorems at concrete inputs *)

Lemma batch_run_sorted_witness :
  Ingest.load_mock_inbox (inbox tidy_world) <> []
  /\ comparable_ids (Ingest.load_mock_inbox (inbox tidy_world))
  /\ exists result,
       returned (Processing.run_ingestion_pipeline
                   sample_loads steady (fun i => i) first_comparison_text tidy_world) = Ok result
       /\ Sorted id_le (ids result)
       /\ Permutation (ids result) [VInt 2; VInt 1].
Proof.
  split; [discriminate|].
  split; [left; repeat constructor|].
  destruct (batch_run_sorted sample_loads steady (fun i => i) first_comparison_text tidy_world
              Prompts.DEFAULT_PROMPTS)
    as (collected & result & _ & _ & _ & Hrun & Hsorted & Hperm & _).
  - discriminate.
  - reflexivity.
  - discriminate.
  - discriminate.
  - repeat constructor; eexists; reflexivity.
  - left. repeat constructor.
  - exists result. repeat split; assumption.
Defined.

Lemma completion_calls_witness :
  retriable (rate_limited 0%nat)
  /\ Contract.retried_after 2000
       (Contract.log_of Processing.call_openrouter "p" rate_limited 0%nat)
  /\ Processing.call_openrouter "p" rate_limited 0%nat
     = (Raise (Exn RuntimeError "Failed after retries"), 2%nat,
        [ Post "p" (Some 300) (Some 20); Sleep 2000;
          Post "p" (Some 300) (Some 20); Sleep 2000 ])
  /\ fst (fst (Agent.call_openrouter "p" rate_limited 0%nat))
     = Raise (Exn RuntimeError "OpenRouter Error 429: slow down").
Proof.
  destruct completion_calls_behaviour
    as (_ & Hrate & _ & _ & Hlast & _ & _ & _ & Hagent & _).
  split; [reflexivity|].
  split; [exact (Hrate "p" rate_limited 0%nat _ _ eq_refl)|].
  split.
  - exact (Hlast "p" rate_limited 0%nat eq_refl).
  - apply (Hagent "p" rate_limited 0%nat 429 _ _ eq_refl). discriminate.
Defined.

Lemma enricher_never_raises_witness :
  exists record,
    outcome_of (Processing.process_single_email
                  sample_loads sample_email Prompts.DEFAULT_PROMPTS broken 0%nat)
    = Ok record
    /\ Py.get record "actions" = Some (VStr "Processing failed: API Error 500").
Proof.
  destruct (enricher_never_raises sample_loads sample_email
              Prompts.DEFAULT_PROMPTS broken 0%nat)
    as (record & Hrun & _ & _ & _ & _ & _ & H500 & _).
  exists record. split; [exact Hrun|].
  exact (H500 _ "boom" _ eq_refl eq_refl).
Defined.

Lemma enrichment_on_success_witness :
  exists record,
    outcome_of (Processing.process_single_email
                  sample_loads sample_email Prompts.DEFAULT_PROMPTS
                  fenced_service 0%nat) = Ok record
    /\ Py.get record "status" = Some (VStr "success")
    /\ Py.get record "category" = Some (VStr "To-Do")
    /\ Py.get record "actions" = Some (VList []).
Proof.
  destruct (enrichment_on_success sample_loads sample_email
              Prompts.DEFAULT_PROMPTS fenced_service 0%nat
              ("To-Do" ++ Str.NL ++ "It asks for a report.") "```json[]```")
    as (line & rest & record & Hlines & Hrun & Hstatus & Hcat & Hdoc & _).
  - do 6 eexists. repeat split; reflexivity.
  - exists record. split; [exact Hrun|]. split; [exact Hstatus|].
    injection Hlines as <- _.
    split; [exact Hcat|]. exact (Hdoc _ eq_refl).
Defined.


Lemma empty_batch_raises_witness :
  Ingest.load_mock_inbox (inbox world_without_inbox) = []
  /\ returned (Processing.run_ingestion_pipeline
                 sample_loads steady (fun i => i) first_comparison_text world_without_inbox)
     = Raise (Exn RuntimeError "No emails found. Put data/mock_inbox.json first.")
  /\ work (Processing.run_ingestion_pipeline
             sample_loads steady (fun i => i) first_comparison_text world_without_inbox) = [].
Proof.
  split; [reflexivity|].
  destruct (empty_batch_raises sample_loads steady (fun i => i) first_comparison_text
              world_without_inbox eq_refl) as (Hr & Hw & _).
  split; assumption.
Defined.

Lemma empty_batch_keeps_store_witness :
  Ingest.load_mock_inbox (inbox world_without_inbox) = []
  /\ Processing.load_processed
       (processed_file
          (after (Processing.run_ingestion_pipeline
                    sample_loads steady (fun i => i) first_comparison_text
                    world_without_inbox)))
     = Ok (VList (map VDict stored)).
Proof.
  split; [reflexivity|].
  destruct (empty_batch_keeps_store sample_loads steady (fun i => i) first_comparison_text
              world_without_inbox eq_refl) as (_ & _ & ->).
  reflexivity.
Defined.

(** * Further properties of the code *)

(** ** The scorer *)

(** One step of the tally: [s] within bounds, raised by [d] or not. *)
Ltac tally_step lo hi :=
  match goal with
  | |- context [if ?b then ?s + ?d else ?s] =>
      let t := fresh "s" in
      let H := fresh "H" in
      is_var s;
      set (t := if b then s + d else s);
      assert (H : lo <= t <= hi) by (subst t; destruct b; lia);
      clearbody t
  | |- context [if ?b then ?s - ?d else ?s] =>
      let t := fresh "s" in
      let H := fresh "H" in
      is_var s;
      set (t := if b then s - d else s);
      assert (H : lo <= t <= hi) by (subst t; destruct b; lia);
      clearbody t
  end.

(** X1.  Whatever the row holds, the score of [_compute_priority_row]
    lies between -1 and 15, and the label is one of HIGH, MEDIUM and
    LOW. *)
Theorem priority_score_range (row : dict) :
  -1 <= fst (Dashboard._compute_priority_row row) <= 15
  /\ In (snd (Dashboard._compute_priority_row row)) ["HIGH"; "MEDIUM"; "LOW"].
Proof.
  unfold Dashboard._compute_priority_row.
  set (text := Str.lower (_ ++ _)).
  set (category := Str.lower _).
  cbv zeta.
  change (0 + 3) with 3.
  set (s0 := if Str.contains "important" category then 3 else 0).
  assert (H0 : 0 <= s0 <= 3) by (subst s0; destruct (Str.contains _ _); lia).
  clearbody s0.
  tally_step 0 6. tally_step (-1) 6. tally_step (-1) 9.
  tally_step (-1) 11. tally_step (-1) 12.
  set (total := match Dashboard.positive_int _ with
                | Some n => _ + Z.min 3 n
                | None => _
                end).
  assert (Ht : -1 <= total <= 15).
  { subst total. destruct (Dashboard.positive_int _) as [k|] eqn:Hk; [|lia].
    assert (0 < k).
    { unfold Dashboard.positive_int in Hk.
      destruct (Py.get_or row "num_actions" (VInt 0)) as [|[]|m| | |];
        try discriminate; [injection Hk as <-; lia|].
      destruct (Z.ltb_spec 0 m); [injection Hk as <-; lia|discriminate]. }
    lia. }
  clearbody total. cbn [fst snd]. split; [exact Ht|].
  destruct (total >=? 7); [|destruct (total >=? 4)]; simpl; auto.
Qed.

Lemma error_record_priority (email : dict) (e : exn) :
  0 <= fst (Dashboard.priority (Processing.error_record email e)) <= 6
  /\ snd (Dashboard.priority (Processing.error_record email e)) <> "HIGH".
Proof.
  unfold Dashboard.priority, Dashboard._compute_priority_row.
  rewrite row_category, row_num_actions.
  replace (Rules.action_count (Processing.error_record email e)) with 0
    by reflexivity.
  replace (Py.get_or_none (Processing.error_record email e) "category")
    with (VStr "Error") by reflexivity.
  set (text := Str.lower (_ ++ _)).
  replace (Str.lower (Py.str (Py.or_else (VStr "Error") (VStr EmptyString))))
    with "error" by reflexivity.
  cbv zeta.
  replace (Str.contains "important" "error") with false by reflexivity.
  replace (Str.contains "to-do" "error" || Str.contains "todo" "error")
    with false by reflexivity.
  replace (Str.contains "spam" "error" || Str.contains "newsletter" "error")
    with false by reflexivity.
  cbv iota.
  set (s0 := if Dashboard.any_in Dashboard.urgent_keywords text then 0 + 3 else 0).
  assert (H0 : 0 <= s0 <= 3) by (subst s0; destruct (Dashboard.any_in _ _); lia).
  clearbody s0.
  tally_step 0 5. tally_step 0 6.
  cbn [Dashboard.positive_int Z.ltb Z.compare fst snd].
  split; [assumption|].
  destruct (Z.geb_spec s1 7); [lia|].
  destruct (s1 >=? 4); discriminate.
Qed.

(** X2.  A record that the enricher returns with status "error" scores
    between 0 and 6 and is never labelled HIGH, whatever the email
    says: the category "Error" and the diagnostic text earn nothing. *)
Theorem failed_email_is_never_high
  (json_loads : string -> option value) (email prompts : dict)
  (svc : service) (n : nat) (record : dict) :
  outcome_of (Processing.process_single_email json_loads email prompts svc n)
  = Ok record ->
  Py.get record "status" = Some (VStr "error") ->
  0 <= fst (Dashboard.priority record) <= 6
  /\ snd (Dashboard.priority record) <> "HIGH".
Proof.
  rewrite process_single_email_outcome.
  destruct (outcome_of (Processing.enrich json_loads email prompts svc n))
    as [r|e] eqn:Hbody; intros [= <-] Hstatus.
  - destruct (enrich_success_shape json_loads email prompts svc n r Hbody)
      as (category & actions & ->).
    discriminate Hstatus.
  - apply error_record_priority.
Qed.

(** ** The batch run, on any input *)

Lemma id_keys_are_ids (l : list dict) (keys : list value) :
  Processing.id_keys l = Ok keys -> keys = ids l.
Proof.
  revert keys. induction l as [|r l IH]; intros keys; simpl.
  - now intros [= <-].
  - unfold Py.get_or_none.
    destruct (Py.get r "id") as [v|]; [|discriminate].
    destruct (Processing.id_keys l) as [ks|]; [|discriminate].
    intros [= <-]. now rewrite (IH ks eq_refl).
Qed.

(** Records ordered by [precedes] whose ids all compare have their
    ids in order. *)
Lemma sorted_ordered (r : list dict) :
  Processing.all_compare (ids r) = true ->
  Sorted (Sorting.key_le (fun p => Py.get_or_none p "id") Processing.precedes) r ->
  Sorted ordered (ids r).
Proof.
  intros Hall Hs. induction Hs as [|a r _ IH Hhd]; simpl; [constructor|].
  destruct Hhd as [|b r Hab]; simpl.
  - repeat constructor.
  - simpl in Hall. apply all_compare_cons in Hall as [Hcmp Hall].
    constructor; [now apply IH|].
    constructor. now apply precedes_ordered.
Qed.

(** When the ordering by id returns, it returns the same records,
    ordered. *)
Lemma sort_by_id_ok (sort_error : list value -> string) (l r : list dict) :
  Processing.sort_by_id sort_error l = Ok r ->
  Permutation r l /\ Sorted ordered (ids r).
Proof.
  unfold Processing.sort_by_id.
  destruct (Processing.id_keys l) as [keys|] eqn:Hkeys; [|discriminate].
  apply id_keys_are_ids in Hkeys. subst keys.
  destruct (Processing.all_compare (ids l)) eqn:Hall; [|discriminate].
  intros [= <-].
  pose proof (sort_permutation (fun p => Py.get_or_none p "id")
                Processing.precedes l) as Hperm.
  split; [exact Hperm|].
  apply sorted_ordered; [|apply sort_sorted; exact precedes_total].
  apply (all_compare_permutation (ids l)); [|exact Hall].
  apply Permutation_ids. now symmetry.
Qed.

(** What can be indexed by a key is a dict. *)
Lemma getitem_dict (v : value) (k : string) (x : value) :
  Py.getitem v k = Ok x -> exists d, v = VDict d.
Proof. destruct v; try discriminate. eauto. Qed.

(** The loop collects the records of the first arrivals, in order. *)
Lemma collect_prefix (total : nat) (recs acc : list dict) (completed : nat) :
  exists k,
    fst (Processing.collect total (map Ok recs) acc completed)
    = (acc ++ firstn k recs)%list.
Proof.
  revert acc completed. induction recs as [|r recs IH]; intros acc completed.
  - exists 0%nat. simpl. now rewrite app_nil_r.
  - simpl. destruct (Processing.progress_line r (S completed) total).
    + destruct (IH (acc ++ [r])%list (S completed)) as (k & Hk).
      exists (S k).
      destruct (Processing.collect total (map Ok recs) (acc ++ [r]) (S completed))
        as [done printed].
      simpl in *. rewrite Hk, <- app_assoc. reflexivity.
    + exists 1%nat. reflexivity.
Qed.

(** What a run that returns has done. *)
Lemma run_returns (json_loads : string -> option value) (svc : nat -> service)
  (finish : nat -> nat) (sort_error : list value -> string)
  (w : world) (result : list dict) :
  returned (Processing.run_ingestion_pipeline json_loads svc finish sort_error w)
  = Ok result ->
  let emails := Ingest.load_mock_inbox (inbox w) in
  exists prompts k,
    emails <> []
    /\ Prompts.load_prompts (prompts_file w) = Ok (VDict prompts)
    /\ Processing.sort_by_id sort_error
         (firstn k (arrived json_loads svc finish prompts emails)) = Ok result
    /\ after (Processing.run_ingestion_pipeline json_loads svc finish sort_error w)
       = World (inbox w) (prompts_file w) (Processing.save_processed result)
    /\ work (Processing.run_ingestion_pipeline json_loads svc finish sort_error w)
       = map Processing.future_events
             (Processing.submit_all json_loads svc emails prompts).
Proof.
  intros Hrun emails. revert Hrun.
  unfold Processing.run_ingestion_pipeline. fold emails.
  destruct emails as [|email rest] eqn:Hemails; [discriminate|].
  rewrite <- Hemails.
  replace (negb (Py.truthy (VList (map VDict emails)))) with false
    by (rewrite Hemails; reflexivity).
  destruct (Prompts.load_prompts (prompts_file w)) as [loaded|e]; [|discriminate].
  destruct (Py.getitem loaded "categorization_prompt") as [p1|e] eqn:Hp1;
    [|discriminate].
  destruct (getitem_dict _ _ _ Hp1) as (prompts & ->).
  destruct (Py.getitem (VDict prompts) "action_item_prompt"); [|discriminate].
  cbn [Py.entries].
  pose proof (submitted_shape json_loads svc prompts emails 0) as Hshape.
  apply Forall2_records in Hshape as [_ Hok].
  change (map _ (combine (seq 0 (List.length emails)) emails))
    with (Processing.submit_all json_loads svc emails prompts) in Hok.
  set (futures := Processing.submit_all json_loads svc emails prompts) in *.
  assert (Hperm : Permutation (Processing.as_completed finish futures) futures)
    by apply sort_permutation.
  symmetry in Hperm. pose proof (Permutation_Forall Hperm Hok) as Hok'.
  rewrite (map_ok_unwrap _ _ Hok').
  destruct (collect_prefix (List.length emails)
              (map (fun f => unwrap (Processing.future_result f))
                   (Processing.as_completed finish futures)) [] 0) as (k & Hk).
  destruct (Processing.collect _ _ [] 0) as [processed printed].
  simpl in Hk. subst processed.
  destruct (Processing.sort_by_id _ _) as [sorted|e] eqn:Hsort; [|discriminate].
  intros [= <-]. exists prompts, k.
  split; [rewrite Hemails; discriminate|].
  split; [reflexivity|]. split; [exact Hsort|]. split; reflexivity.
Qed.


Lemma arrived_permutation (json_loads : string -> option value)
  (svc : nat -> service) (finish : nat -> nat) (prompts : dict)
  (emails : list dict) :
  Permutation (arrived json_loads svc finish prompts emails)
              (enriched_batch json_loads svc prompts emails).
Proof. apply Permutation_map, sort_permutation. Qed.

Lemma enriched_batch_shape (json_loads : string -> option value)
  (svc : nat -> service) (prompts : dict) (emails : list dict) :
  Forall2 enriched_from emails (enriched_batch json_loads svc prompts emails).
Proof.
  pose proof (submitted_shape json_loads svc prompts emails 0) as Hshape.
  apply Forall2_records in Hshape as [Hrecords _]. exact Hrecords.
Qed.

Lemma Forall2_from_left {A B : Type} (R : A -> B -> Prop) (l : list A)
  (l' : list B) :
  Forall2 R l l' -> Forall (fun b => exists a, In a l /\ R a b) l'.
Proof.
  induction 1 as [|a b l l' Hab _ IH]; constructor.
  - exists a. split; [now left|exact Hab].
  - apply (Forall_impl _ (P := fun b => exists a, In a l /\ R a b)); [|exact IH].
    intros b' (a' & Hin & Hr). exists a'. split; [now right|exact Hr].
Qed.

(** The files after a run, by what it returns. *)
Lemma batch_run_outcome (json_loads : string -> option value)
  (svc : nat -> service) (finish : nat -> nat) (sort_error : list value -> string)
  (w : world) :
  after (Processing.run_ingestion_pipeline json_loads svc finish sort_error w)
  = match returned (Processing.run_ingestion_pipeline json_loads svc finish sort_error w) with
    | Ok result =>
        World (inbox w) (prompts_file w) (Processing.save_processed result)
    | Raise _ => w
    end.
Proof.
  unfold Processing.run_ingestion_pipeline.
  destruct (negb _); [reflexivity|].
  destruct (Prompts.load_prompts (prompts_file w)) as [prompts|e]; [|reflexivity].
  cbn beta iota zeta.
  destruct (Py.getitem prompts "categorization_prompt"); [|reflexivity].
  destruct (Py.getitem prompts "action_item_prompt"); [|reflexivity].
  destruct (Processing.collect _ _ [] 0) as [processed printed].
  destruct (Processing.sort_by_id sort_error processed) as [sorted|e]; reflexivity.
Qed.

(** X5.  A run that returns gives back records of the enricher and
    nothing else: together with some records left behind they are, up to
    order, the enricher's records of the emails of the inbox, so each
    returned record is the enrichment of an email of the inbox and there
    are no more records than emails. *)
Theorem batch_result_comes_from_the_inbox
  (json_loads : string -> option value) (svc : nat -> service)
  (finish : nat -> nat) (sort_error : list value -> string)
  (w : world) (result : list dict) :
  returned (Processing.run_ingestion_pipeline json_loads svc finish sort_error w)
  = Ok result ->
  exists prompts left_behind,
    Prompts.load_prompts (prompts_file w) = Ok (VDict prompts)
    /\ Permutation (result ++ left_behind)
         (enriched_batch json_loads svc prompts
            (Ingest.load_mock_inbox (inbox w)))
    /\ Forall (fun record =>
                 exists email,
                   In email (Ingest.load_mock_inbox (inbox w))
                   /\ enriched_from email record) result
    /\ (List.length result <= List.length (Ingest.load_mock_inbox (inbox w)))%nat.
Proof.
  intros Hrun.
  destruct (run_returns json_loads svc finish sort_error w result Hrun)
    as (prompts & k & _ & Hload & Hsort & _).
  apply sort_by_id_ok in Hsort as [Hperm _].
  set (emails := Ingest.load_mock_inbox (inbox w)) in *.
  set (recs := arrived json_loads svc finish prompts emails) in *.
  assert (Hall : Permutation (result ++ skipn k recs)
                   (enriched_batch json_loads svc prompts emails)).
  { rewrite Hperm, firstn_skipn. apply arrived_permutation. }
  exists prompts, (skipn k recs). split; [exact Hload|]. split; [exact Hall|].
  pose proof (enriched_batch_shape json_loads svc prompts emails) as Hshape.
  split.
  - apply Forall2_from_left in Hshape. symmetry in Hall.
    pose proof (Permutation_Forall Hall Hshape) as H.
    apply Forall_app in H as [H _]. exact H.
  - apply Forall2_length in Hshape. apply Permutation_length in Hall.
    rewrite length_app in Hall. lia.
Qed.

(** ** The order of completion does not show *)

Lemma string_leb_trans (a b c : string) :
  String.leb a b = true -> String.leb b c = true -> String.leb a c = true.
Proof.
  unfold String.leb. revert b c.
  induction a as [|x a IH]; intros [|y b] [|z c]; simpl; try congruence.
  unfold Ascii.compare.
  destruct (N.compare_spec (N_of_ascii x) (N_of_ascii y)) as [Hxy|Hxy|Hxy];
    destruct (N.compare_spec (N_of_ascii y) (N_of_ascii z)) as [Hyz|Hyz|Hyz];
    destruct (N.compare_spec (N_of_ascii x) (N_of_ascii z)) as [Hxz|Hxz|Hxz];
    try congruence; try lia.
  apply IH.
Qed.

Section Unique.
Context {A K : Type} (key : A -> K) (leb : K -> K -> bool).
Hypothesis leb_trans : forall a b c, leb a b = true -> leb b c = true -> leb a c = true.
Hypothesis leb_antisym : forall a b, leb a b = true -> leb b a = true -> a = b.

(** Two ordered lists with the same elements, no two of them with the
    same key, are the same list. *)
Lemma sorted_unique (l1 l2 : list A) :
  Sorted (Sorting.key_le key leb) l1 -> Sorted (Sorting.key_le key leb) l2 ->
  Permutation l1 l2 -> NoDup (map key l1) -> l1 = l2.
Proof.
  intros S1 S2.
  assert (Htrans : Relations_1.Transitive (Sorting.key_le key leb))
    by (intros x y z; unfold Sorting.key_le; apply leb_trans).
  apply (Sorted_StronglySorted Htrans) in S1, S2.
  clear Htrans. revert l2 S2.
  induction S1 as [|a t1 S1 IH Ha]; intros l2 S2 Hperm Hnodup.
  - apply Permutation_nil in Hperm. now subst.
  - destruct l2 as [|b t2];
      [symmetry in Hperm; apply Permutation_nil in Hperm; discriminate|].
    inversion S2 as [|b' t2' S2' Hb]; subst.
    inversion Hnodup as [|k ks Hnotin Hnodup']; subst.
    assert (Hab : a = b).
    { assert (Hina : In a (b :: t2))
        by (apply (Permutation_in _ Hperm); now left).
      assert (Hinb : In b (a :: t1))
        by (symmetry in Hperm; apply (Permutation_in _ Hperm); now left).
      destruct Hina as [->|Hina]; [reflexivity|].
      destruct Hinb as [->|Hinb]; [reflexivity|].
      rewrite Forall_forall in Ha, Hb.
      pose proof (leb_antisym _ _ (Ha b Hinb) (Hb a Hina)) as Hkey.
      exfalso. apply Hnotin. rewrite Hkey. now apply in_map. }
    subst b. f_equal. apply IH; [exact S2'| |exact Hnodup'].
    exact (Permutation_cons_inv Hperm).
Qed.

Hypothesis leb_total : forall a b, leb a b = true \/ leb b a = true.

Lemma sort_unique (l1 l2 : list A) :
  Permutation l1 l2 -> NoDup (map key l1) ->
  Sorting.sort key leb l1 = Sorting.sort key leb l2.
Proof.
  intros Hperm Hnodup.
  apply sorted_unique; try (apply sort_sorted; exact leb_total).
  - now rewrite !sort_permutation.
  - apply (Permutation_NoDup (l := map key l1)); [|exact Hnodup].
    apply Permutation_map. symmetry. apply sort_permutation.
Qed.
End Unique.

Lemma Zleb_trans (a b c : Z) :
  (a <=? b) = true -> (b <=? c) = true -> (a <=? c) = true.
Proof. rewrite !Z.leb_le. lia. Qed.

Lemma Zleb_antisym (a b : Z) : (a <=? b) = true -> (b <=? a) = true -> a = b.
Proof. rewrite !Z.leb_le. lia. Qed.

(** A run on well-formed emails, with both prompts at hand, returns
    what the ordering makes of all the records. *)
Lemma run_of_well_formed (json_loads : string -> option value)
  (svc : nat -> service) (finish : nat -> nat) (sort_error : list value -> string)
  (w : world) (prompts : dict) :
  let emails := Ingest.load_mock_inbox (inbox w) in
  emails <> [] ->
  Prompts.load_prompts (prompts_file w) = Ok (VDict prompts) ->
  Py.get prompts "categorization_prompt" <> None ->
  Py.get prompts "action_item_prompt" <> None ->
  Forall has_text_subject emails ->
  returned (Processing.run_ingestion_pipeline json_loads svc finish sort_error w)
  = Processing.sort_by_id sort_error (arrived json_loads svc finish prompts emails).
Proof.
  intros emails Hne Hload Hcat Hact Hsubjects.
  unfold Processing.run_ingestion_pipeline. fold emails.
  replace (negb (Py.truthy (VList (map VDict emails)))) with false
    by (destruct emails; [contradiction|reflexivity]).
  rewrite Hload.
  destruct (Py.get prompts "categorization_prompt") as [p1|] eqn:Hp1;
    [|contradiction].
  destruct (Py.get prompts "action_item_prompt") as [p2|] eqn:Hp2;
    [|contradiction].
  rewrite (getitem_get _ _ _ Hp1), (getitem_get _ _ _ Hp2).
  cbn [Py.entries].
  pose proof (submitted_shape json_loads svc prompts emails 0) as Hshape.
  apply Forall2_records in Hshape as [Hrecords Hok].
  change (map _ (combine (seq 0 (List.length emails)) emails))
    with (Processing.submit_all json_loads svc emails prompts) in Hrecords, Hok.
  pose proof (arrived_permutation json_loads svc finish prompts emails) as Hperm.
  assert (Harrivals :
            map Processing.future_result
                (Processing.as_completed finish
                   (Processing.submit_all json_loads svc emails prompts))
            = map Ok (arrived json_loads svc finish prompts emails)).
  { apply map_ok_unwrap.
    pose proof (sort_permutation (fun f : nat * (result dict * nat * list event) =>
                                    finish (fst f)) Nat.leb
                  (Processing.submit_all json_loads svc emails prompts)) as Hp.
    symmetry in Hp. exact (Permutation_Forall Hp Hok). }
  rewrite Harrivals.
  assert (Hgood : Forall (fun r => forall c, exists ln,
                              Processing.progress_line r c (List.length emails)
                              = Ok ln)
                         (arrived json_loads svc finish prompts emails)).
  { symmetry in Hperm. apply (Permutation_Forall Hperm).
    apply (Forall2_transfer enriched_from has_text_subject _ emails _
             (fun e r Her Hs c => progress_line_ok e r c _ Her Hs)
             Hrecords Hsubjects). }
  pose proof (collect_all (List.length emails) _ [] 0 Hgood) as Hcollect.
  destruct (Processing.collect (List.length emails) _ [] 0)
    as [processed printed].
  simpl in Hcollect. subst processed.
  destruct (Processing.sort_by_id _ _); reflexivity.
Qed.

Lemma enriched_key {K : Type} (key : value -> K) (emails records : list dict) :
  Forall2 enriched_from emails records ->
  map (fun r => key (Py.get_or_none r "id")) records
  = map (fun r => key (Py.get_or_none r "id")) emails.
Proof.
  induction 1 as [|e r emails records Her _ IH]; simpl; [reflexivity|].
  destruct (enriched_id e r Her) as [_ ->]. now rewrite IH.
Qed.

(** X6.  When the emails of the inbox have string subjects and ids that
    are all numbers or all strings, no two of them equal, what the batch
    run returns and what it writes do not depend on the order in which
    the units of work complete. *)
Theorem batch_result_ignores_completion_order
  (json_loads : string -> option value) (svc : nat -> service)
  (finish finish' : nat -> nat) (sort_error : list value -> string)
  (w : world) (prompts : dict) :
  Prompts.load_prompts (prompts_file w) = Ok (VDict prompts) ->
  Py.get prompts "categorization_prompt" <> None ->
  Py.get prompts "action_item_prompt" <> None ->
  Forall has_text_subject (Ingest.load_mock_inbox (inbox w)) ->
  distinct_ids (Ingest.load_mock_inbox (inbox w)) ->
  returned (Processing.run_ingestion_pipeline json_loads svc finish sort_error w)
  = returned (Processing.run_ingestion_pipeline json_loads svc finish' sort_error w)
  /\ after (Processing.run_ingestion_pipeline json_loads svc finish sort_error w)
     = after (Processing.run_ingestion_pipeline json_loads svc finish' sort_error w).
Proof.
  intros Hload Hcat Hact Hsubjects Hids.
  set (emails := Ingest.load_mock_inbox (inbox w)) in *.
  assert (Hret : returned (Processing.run_ingestion_pipeline json_loads svc finish sort_error w)
                 = returned (Processing.run_ingestion_pipeline json_loads svc finish' sort_error w)).
  { destruct emails as [|email rest] eqn:Hemails.
    { unfold Processing.run_ingestion_pipeline. fold emails.
      now rewrite Hemails. }
    rewrite <- Hemails in *.
    assert (Hne : emails <> []) by (rewrite Hemails; discriminate).
    rewrite (run_of_well_formed json_loads svc finish sort_error w prompts
               Hne Hload Hcat Hact Hsubjects).
    rewrite (run_of_well_formed json_loads svc finish' sort_error w prompts
               Hne Hload Hcat Hact Hsubjects).
    fold emails.
    pose proof (enriched_batch_shape json_loads svc prompts emails) as Hshape.
    pose proof (arrived_permutation json_loads svc finish prompts emails) as Hp.
    pose proof (arrived_permutation json_loads svc finish' prompts emails) as Hp'.
    set (recs := arrived json_loads svc finish prompts emails) in *.
    set (recs' := arrived json_loads svc finish' prompts emails) in *.
    assert (Hpp : Permutation recs recs') by (now rewrite Hp, Hp').
    assert (Hhas : forall l,
               Permutation l (enriched_batch json_loads svc prompts emails) ->
               Forall (fun r => Py.getitem (VDict r) "id"
                                = Ok (Py.get_or_none r "id")) l).
    { intros l Hl. symmetry in Hl. apply (Permutation_Forall Hl).
      apply (Forall2_transfer enriched_from (fun _ => True) _ emails _
               (fun e r Her _ => proj1 (enriched_id e r Her)) Hshape).
      apply Forall_forall. trivial. }
    destruct Hids as [[Hnum Hnodup]|[Hnamed Hnodup]].
    - assert (Hn : forall l,
                 Permutation l (enriched_batch json_loads svc prompts emails) ->
                 Forall numbered l).
      { intros l Hl. symmetry in Hl. apply (Permutation_Forall Hl).
        apply (Forall2_transfer enriched_from numbered numbered emails _
                 (fun e r Her (He : numbered e) =>
                    eq_trans (f_equal Processing.is_number
                                (proj2 (enriched_id e r Her))) He)
                 Hshape Hnum). }
      rewrite (sort_by_id_numbers _ _ (Hhas _ Hp) (Hn _ Hp)).
      rewrite (sort_by_id_numbers _ _ (Hhas _ Hp') (Hn _ Hp')).
      f_equal.
      apply (sort_unique _ _ Zleb_trans Zleb_antisym Zleb_total _ _ Hpp).
      apply (Permutation_NoDup
               (l := map Processing.number_key
                         (enriched_batch json_loads svc prompts emails))).
      + apply Permutation_map. now symmetry.
      + unfold Processing.number_key.
        rewrite (enriched_key
                   (fun v => match Processing.as_number v with
                             | Some n => n | None => 0 end) _ _ Hshape).
        exact Hnodup.
    - assert (Hn : forall l,
                 Permutation l (enriched_batch json_loads svc prompts emails) ->
                 Forall named l).
      { intros l Hl. symmetry in Hl. apply (Permutation_Forall Hl).
        apply (Forall2_transfer enriched_from named named emails _
                 (fun e r Her (He : named e) =>
                    eq_trans (f_equal Processing.is_text
                                (proj2 (enriched_id e r Her))) He)
                 Hshape Hnamed). }
      rewrite (sort_by_id_names _ _ (Hhas _ Hp) (Hn _ Hp)).
      rewrite (sort_by_id_names _ _ (Hhas _ Hp') (Hn _ Hp')).
      f_equal.
      apply (sort_unique _ _ string_leb_trans String.leb_antisym
               String.leb_total _ _ Hpp).
      apply (Permutation_NoDup
               (l := map Processing.text_key
                         (enriched_batch json_loads svc prompts emails))).
      + apply Permutation_map. now symmetry.
      + unfold Processing.text_key.
        rewrite (enriched_key
                   (fun v => match Processing.as_text v with
                             | Some s => s | None => EmptyString end) _ _ Hshape).
        exact Hnodup. }
  split; [exact Hret|].
  pose proof (batch_run_outcome json_loads svc finish sort_error w) as H1.
  pose proof (batch_run_outcome json_loads svc finish' sort_error w) as H2.
  rewrite <- Hret in H2.
  destruct (returned (Processing.run_ingestion_pipeline json_loads svc finish sort_error w)).
  - now rewrite H1, H2.
  - now rewrite H1, H2.
Qed.

(** ** What a unit of work costs *)

Lemma requests_sent_app (l1 l2 : list event) :
  requests_sent (l1 ++ l2) = (requests_sent l1 + requests_sent l2)%nat.
Proof. unfold requests_sent. now rewrite filter_app, length_app. Qed.

Lemma asleep_app (l1 l2 : list event) :
  asleep (l1 ++ l2) = asleep l1 + asleep l2.
Proof.
  unfold asleep, pauses. rewrite flat_map_app.
  induction (flat_map _ l1) as [|z l IH]; simpl; [reflexivity|]. rewrite IH. lia.
Qed.

(** One completion call of the pipeline: one or two requests, each one
    moving the service on by one, and at most 4 s asleep. *)
Lemma processing_call_cost (prompt : string) (svc : service) (n : nat) :
  snd (fst (Processing.call_openrouter prompt svc n))
  = (n + requests_sent (snd (Processing.call_openrouter prompt svc n)))%nat
  /\ (1 <= requests_sent (snd (Processing.call_openrouter prompt svc n)) <= 2)%nat
  /\ 0 <= asleep (snd (Processing.call_openrouter prompt svc n)) <= 4000.
Proof.
  rewrite processing_call_cases.
  destruct (svc n) as [s t j|e].
  - destruct (s =? 200); [cbn; lia|].
    destruct (s =? 429); [|cbn; lia].
    destruct (svc (S n)) as [s2 t2 j2|e2].
    + destruct (s2 =? 200); [cbn; lia|]. destruct (s2 =? 429); cbn; lia.
    + destruct (exn_cls e2); cbn; lia.
  - destruct (exn_cls e); try (cbn; lia).
    destruct (svc (S n)) as [s2 t2 j2|e2].
    + destruct (s2 =? 200); [cbn; lia|]. destruct (s2 =? 429); cbn; lia.
    + destruct (exn_cls e2); cbn; lia.
Qed.

Ltac tally :=
  cbn [fst snd app] in *; rewrite ?app_nil_r;
  repeat split; try (eexists; reflexivity);
  repeat match goal with
         | |- context [Sleep 200 :: ?l] =>
             lazymatch l with
             | [] => fail
             | _ => change (Sleep 200 :: l) with ([Sleep 200] ++ l)%list
             end
         end;
  rewrite ?requests_sent_app, ?asleep_app;
  change (requests_sent [Sleep 200]) with 0%nat;
  change (asleep [Sleep 200]) with 200;
  change (requests_sent []) with 0%nat;
  change (asleep []) with 0;
  lia.

Lemma enricher_cost (json_loads : string -> option value)
  (email prompts : dict) (svc : service) (n : nat) :
  let run := Processing.process_single_email json_loads email prompts svc n in
  (requests_sent (snd run) <= 4)%nat
  /\ snd (fst run) = (n + requests_sent (snd run))%nat
  /\ (exists rest, snd run = Sleep 200 :: rest)
  /\ 200 <= asleep (snd run) <= 8200.
Proof.
  unfold Processing.process_single_email, Processing.enrich,
    Processing.categorize_email, Processing.extract_actions,
    Processing.RATE_LIMIT_DELAY.
  io_step.
  destruct (Py.getitem (VDict prompts) "categorization_prompt")
    as [cat_prompt|e]; [|tally].
  pose proof (processing_call_cost
                (Processing.categorization_request email cat_prompt) svc n)
    as (Hn1 & Hr1 & Hs1).
  destruct (Processing.call_openrouter _ svc n) as [[[out|e] n1] l1]; [|tally].
  destruct (Processing.first_line out) as [category|e]; [|tally].
  destruct (Py.getitem (VDict prompts) "action_item_prompt")
    as [act_prompt|e]; [|tally].
  pose proof (processing_call_cost
                (Processing.action_request email act_prompt) svc n1)
    as (Hn2 & Hr2 & Hs2).
  destruct (Processing.call_openrouter _ svc n1) as [[[out2|e] n2] l2]; tally.
Qed.

(** X7.  One unit of work of the enricher, whatever the email, the
    prompts and the service: it starts with the pause of 0.2 s, sends at
    most four requests, consumes one reply of the service for each
    request it sends, and is asleep for at least 0.2 s and at most 8.2 s
    in all. *)
Theorem enricher_sends_at_most_four_requests
  (json_loads : string -> option value) (email prompts : dict)
  (svc : service) (n : nat) :
  (requests_sent
     (snd (Processing.process_single_email json_loads email prompts svc n))
   <= 4)%nat
  /\ snd (fst (Processing.process_single_email json_loads email prompts svc n))
     = (n + requests_sent
              (snd (Processing.process_single_email json_loads email prompts
                      svc n)))%nat
  /\ (exists rest,
         snd (Processing.process_single_email json_loads email prompts svc n)
         = Sleep 200 :: rest)
  /\ 200 <= asleep (snd (Processing.process_single_email json_loads email
                           prompts svc n)) <= 8200.
Proof. apply enricher_cost. Qed.




(** ** A prompt that is missing *)

(** X9.  The enricher on a prompt set that lacks a prompt.  Without the
    categorization prompt it returns the error record of the [KeyError]
    after its pause, without any request.  With it, and without the
    action prompt, the categorization call is made all the same, and
    nothing after it: the record is the error record of what that call
    raised, else of the [IndexError] of an answer without a first line,
    else, the answer thrown away, of the [KeyError]. *)
Theorem enricher_without_prompt
  (json_loads : string -> option value) (email prompts : dict)
  (svc : service) (n : nat) :
  (Py.get prompts "categorization_prompt" = None ->
   Processing.process_single_email json_loads email prompts svc n
   = (Ok (Processing.error_record email
            (Exn KeyError "'categorization_prompt'")),
      n, [Sleep 200]))
  /\ (forall cat_prompt,
         Py.get prompts "categorization_prompt" = Some cat_prompt ->
         Py.get prompts "action_item_prompt" = None ->
         let call :=
           Processing.call_openrouter
             (Processing.categorization_request email cat_prompt) svc n in
         Processing.process_single_email json_loads email prompts svc n
         = (Ok (Processing.error_record email
                  match outcome_of call with
                  | Raise e => e
                  | Ok out =>
                      match Processing.first_line out with
                      | Raise e => e
                      | Ok _ => Exn KeyError "'action_item_prompt'"
                      end
                  end),
            snd (fst call), Sleep 200 :: snd call)).
Proof.
  split.
  - intros Hcat. rewrite process_single_email_run.
    unfold Py.getitem. rewrite Hcat. reflexivity.
  - intros cat_prompt Hcat Hact call. subst call.
    rewrite process_single_email_run, (getitem_get _ _ _ Hcat).
    unfold outcome_of.
    destruct (Processing.call_openrouter _ svc n) as [[[out|e] n1] l1];
      [|reflexivity].
    cbn [fst snd].
    destruct (Processing.first_line out) as [category|e]; [|reflexivity].
    unfold Py.getitem. rewrite Hact. reflexivity.
Qed.

(** ** Trimmed texts and first lines *)

Lemma linebreak_is_space (c : ascii) :
  Str.is_linebreak c = true -> Str.is_space c = true.
Proof.
  unfold Str.is_linebreak, Str.is_space, Str.between.
  rewrite !orb_true_iff, !andb_true_iff, !N.leb_le, !N.eqb_eq. lia.
Qed.

Lemma lstrip_length (s : string) :
  (String.length (Str.lstrip s) <= String.length s)%nat.
Proof.
  induction s as [|c s IH]; simpl; [lia|].
  destruct (Str.is_space c); simpl; lia.
Qed.

(** A text that [lstrip] leaves alone is empty or starts with a
    character that is no space. *)
Lemma lstrip_fixed_head (s : string) :
  Str.lstrip s = s ->
  match s with
  | EmptyString => True
  | String c _ => Str.is_space c = false
  end.
Proof.
  destruct s as [|c t]; [trivial|]. simpl.
  destruct (Str.is_space c); [|reflexivity].
  intros H. pose proof (lstrip_length t) as Hlen.
  rewrite H in Hlen. simpl in Hlen. lia.
Qed.

Lemma lstrip_idem (s : string) : Str.lstrip (Str.lstrip s) = Str.lstrip s.
Proof.
  induction s as [|c s IH]; [reflexivity|]. simpl.
  destruct (Str.is_space c) eqn:Hc; [exact IH|]. simpl. now rewrite Hc.
Qed.

Lemma rstrip_idem (s : string) : Str.rstrip (Str.rstrip s) = Str.rstrip s.
Proof.
  induction s as [|c s IH]; [reflexivity|]. simpl.
  destruct (Str.is_space c && Str.is_empty (Str.rstrip s)) eqn:Hc;
    [reflexivity|].
  simpl. now rewrite IH, Hc.
Qed.

Lemma lstrip_rstrip (s : string) :
  Str.lstrip s = s -> Str.lstrip (Str.rstrip s) = Str.rstrip s.
Proof.
  intros H. apply lstrip_fixed_head in H.
  destruct s as [|c t]; [reflexivity|].
  simpl. rewrite H. simpl. now rewrite H.
Qed.

Lemma strip_lstrip (s : string) : Str.lstrip (Str.strip s) = Str.strip s.
Proof. apply lstrip_rstrip, lstrip_idem. Qed.

Lemma strip_idem (s : string) : Str.strip (Str.strip s) = Str.strip s.
Proof.
  unfold Str.strip at 1. rewrite strip_lstrip. apply rstrip_idem.
Qed.

Lemma free_of_lstrip (test : ascii -> bool) (s : string) :
  free_of test s = true -> free_of test (Str.lstrip s) = true.
Proof.
  induction s as [|c s IH]; [trivial|]. simpl.
  intros H. apply andb_prop in H as [Hc Hs].
  destruct (Str.is_space c); [auto|]. simpl. now rewrite Hc, Hs.
Qed.

Lemma free_of_rstrip (test : ascii -> bool) (s : string) :
  free_of test s = true -> free_of test (Str.rstrip s) = true.
Proof.
  induction s as [|c s IH]; [trivial|]. simpl.
  intros H. apply andb_prop in H as [Hc Hs].
  destruct (Str.is_space c && Str.is_empty (Str.rstrip s)); [reflexivity|].
  simpl. now rewrite Hc, IH.
Qed.

Lemma append_one (cur : string) (c : ascii) (t : string) :
  (cur ++ String c EmptyString) ++ t = cur ++ String c t.
Proof. induction cur as [|x cur IH]; simpl; [reflexivity|]. now rewrite IH. Qed.

(** The first line: what is being read, and what follows up to the
    first boundary. *)
Lemma first_of_split (t cur : string) :
  cur <> EmptyString ->
  exists l rest,
    Str.split_lines cur false t = (cur ++ l) :: rest
    /\ free_of Str.is_linebreak l = true.
Proof.
  revert cur. induction t as [|d t IH]; intros cur Hcur.
  - exists EmptyString, []. simpl.
    destruct cur; [contradiction|].
    split; [|reflexivity]. simpl. f_equal. f_equal.
    clear. induction cur as [|x cur IH]; simpl; [reflexivity|]. now rewrite <- IH.
  - simpl. rewrite andb_false_r.
    destruct (Str.is_linebreak d) eqn:Hd.
    + exists EmptyString. eexists. split; [|reflexivity].
      f_equal. clear. induction cur as [|x cur IH]; simpl; [reflexivity|].
      now rewrite <- IH.
    + destruct (IH (cur ++ String d EmptyString)) as (l & rest & Hsplit & Hl).
      { destruct cur; discriminate. }
      exists (String d l), rest. rewrite Hsplit, append_one.
      split; [reflexivity|]. simpl. now rewrite Hd, Hl.
Qed.

(** A text without a boundary is its own only line. *)
Lemma split_one (s cur : string) :
  free_of Str.is_linebreak s = true ->
  Str.split_lines cur false s
  = if Str.is_empty (cur ++ s) then [] else [cur ++ s].
Proof.
  revert cur. induction s as [|d s IH]; intros cur Hs.
  - simpl. replace (cur ++ EmptyString) with cur; [reflexivity|].
    clear. induction cur as [|x cur IH]; simpl; [reflexivity|]. now rewrite <- IH.
  - simpl in Hs. apply andb_prop in Hs as [Hd Hs].
    apply negb_true_iff in Hd.
    simpl. rewrite andb_false_r, Hd, (IH _ Hs), append_one. reflexivity.
Qed.

(** The first line of a trimmed text, trimmed: a text that is not empty,
    trimmed, and one line. *)
Lemma first_line_shape (raw category : string) :
  Processing.first_line (Str.strip raw) = Ok category ->
  category <> EmptyString
  /\ Str.strip category = category
  /\ Str.splitlines category = [category].
Proof.
  unfold Processing.first_line, Str.splitlines.
  pose proof (lstrip_fixed_head _ (strip_lstrip raw)) as Hhead.
  destruct (Str.strip raw) as [|c t]; [discriminate|].
  assert (Hc : Str.is_linebreak c = false).
  { destruct (Str.is_linebreak c) eqn:H; [|reflexivity].
    apply linebreak_is_space in H. congruence. }
  simpl. rewrite andb_false_r, Hc.
  destruct (first_of_split t (String c EmptyString)) as (l & rest & -> & Hl);
    [discriminate|].
  intros [= <-]. simpl String.append.
  assert (Hfree : free_of Str.is_linebreak (Str.strip (String c l)) = true).
  { unfold Str.strip. apply free_of_rstrip, free_of_lstrip.
    simpl. now rewrite Hc, Hl. }
  assert (Hne : Str.strip (String c l) <> EmptyString).
  { unfold Str.strip. simpl. rewrite Hhead. simpl. rewrite Hhead. discriminate. }
  split; [exact Hne|]. split; [apply strip_idem|].
  rewrite (split_one _ EmptyString Hfree). simpl.
  destruct (Str.strip (String c l)); [contradiction|reflexivity].
Qed.

Lemma message_content_stripped (json : decoded) (out : string) :
  message_content json = Ok out -> exists raw, out = Str.strip raw.
Proof.
  unfold message_content. intros H.
  repeat match type of H with
         | context [match ?x with _ => _ end] =>
             destruct x eqn:?; try discriminate
         end.
  revert H. unfold Py.strip.
  match goal with
  | |- context [match ?x with _ => _ end] => destruct x; try discriminate
  end.
  intros [= <-]. eauto.
Qed.

(** What the completion call of the pipeline returns is trimmed. *)
Lemma processing_call_stripped (prompt : string) (svc : service) (n n' : nat)
  (out : string) (log : list event) :
  Processing.call_openrouter prompt svc n = (Ok out, n', log) ->
  exists raw, out = Str.strip raw.
Proof.
  rewrite processing_call_cases.
  destruct (svc n) as [s t j|e].
  - destruct (s =? 200);
      [intros [= H _ _]; exact (message_content_stripped _ _ H)|].
    destruct (s =? 429); [|discriminate].
    destruct (svc (S n)) as [s2 t2 j2|e2].
    + destruct (s2 =? 200);
        [intros [= H _ _]; exact (message_content_stripped _ _ H)|].
      destruct (s2 =? 429); discriminate.
    + destruct (exn_cls e2); discriminate.
  - destruct (exn_cls e); try discriminate.
    destruct (svc (S n)) as [s2 t2 j2|e2].
    + destruct (s2 =? 200);
        [intros [= H _ _]; exact (message_content_stripped _ _ H)|].
      destruct (s2 =? 429); discriminate.
    + destruct (exn_cls e2); discriminate.
Qed.

(** X10.  The category of a record that the enricher returns with
    status "success" is never empty: it is a text without spaces at its
    ends and without a line boundary, whatever the service has
    answered. *)
Theorem success_category_is_one_trimmed_line
  (json_loads : string -> option value) (email prompts : dict)
  (svc : service) (n : nat) (record : dict) :
  outcome_of (Processing.process_single_email json_loads email prompts svc n)
  = Ok record ->
  Py.get record "status" = Some (VStr "success") ->
  exists category,
    Py.get record "category" = Some (VStr category)
    /\ category <> EmptyString
    /\ Str.strip category = category
    /\ Str.splitlines category = [category].
Proof.
  rewrite process_single_email_outcome, enrich_outcome.
  destruct (Py.getitem (VDict prompts) "categorization_prompt")
    as [cat_prompt|e]; [|intros [= <-]; discriminate].
  cbn beta iota zeta.
  destruct (Processing.call_openrouter _ svc n) as [[[out|e] n1] l1] eqn:Hcall;
    [|intros [= <-]; discriminate].
  apply processing_call_stripped in Hcall as (raw & ->).
  destruct (Processing.first_line (Str.strip raw)) as [category|e] eqn:Hline;
    [|intros [= <-]; discriminate].
  apply first_line_shape in Hline.
  cbn beta iota zeta.
  destruct (Py.getitem (VDict prompts) "action_item_prompt")
    as [act_prompt|e]; [|intros [= <-]; discriminate].
  cbn beta iota zeta.
  destruct (Processing.call_openrouter _ svc n1) as [[[out2|e] n2] l2];
    [|intros [= <-]; discriminate].
  intros [= <-] _. exists category. split; [reflexivity|exact Hline].
Qed.

(** ** Fences in the reply *)

Lemma prefix_app (p s : string) :
  prefix p s = true -> exists w, s = p ++ w.
Proof.
  revert s. induction p as [|a p IH]; intros s H.
  - now exists s.
  - destruct s as [|b s]; [discriminate|]. simpl in H.
    destruct (ascii_dec a b) as [<-|]; [|discriminate].
    destruct (IH s H) as (w & ->). now exists w.
Qed.

Lemma prefix_rstrip (sub s : string) :
  prefix sub (Str.rstrip s) = true -> prefix sub s = true.
Proof.
  revert sub. induction s as [|c s IH]; intros sub; [trivial|]. simpl.
  destruct (Str.is_space c && Str.is_empty (Str.rstrip s)).
  - destruct sub; [trivial|discriminate].
  - destruct sub as [|a p]; [trivial|]. simpl.
    destruct (ascii_dec a c); [apply IH|trivial].
Qed.

Lemma contains_lstrip (sub s : string) :
  Str.contains sub (Str.lstrip s) = true -> Str.contains sub s = true.
Proof.
  induction s as [|c s IH]; [trivial|]. simpl Str.lstrip.
  destruct (Str.is_space c); [|trivial].
  intros H. cbn [Str.contains]. rewrite (IH H). apply orb_true_r.
Qed.

Lemma contains_rstrip (sub s : string) :
  Str.contains sub (Str.rstrip s) = true -> Str.contains sub s = true.
Proof.
  induction s as [|c s IH]; [trivial|].
  intros H. cbn [Str.contains].
  destruct (prefix sub (String c s)) eqn:Hp; [reflexivity|].
  apply IH.
  destruct (Str.is_space c && Str.is_empty (Str.rstrip s)) eqn:E.
  - assert (Hr : Str.rstrip (String c s) = EmptyString)
      by (simpl; now rewrite E).
    rewrite Hr in H. destruct sub; [discriminate Hp|discriminate H].
  - assert (Hr : Str.rstrip (String c s) = String c (Str.rstrip s))
      by (simpl; now rewrite E).
    destruct (prefix sub (Str.rstrip (String c s))) eqn:Hq.
    + apply prefix_rstrip in Hq. congruence.
    + rewrite Hr in H, Hq. cbn [Str.contains] in H. now rewrite Hq in H.
Qed.

Lemma contains_strip (sub s : string) :
  Str.contains sub (Str.strip s) = true -> Str.contains sub s = true.
Proof. intros H. apply contains_lstrip, contains_rstrip, H. Qed.

(** Removing the fences, one case at a time. *)
Lemma unfence_cases (s : string) :
  (exists t, s = FENCE ++ t
             /\ Str.replace s FENCE EmptyString
                = Str.replace t FENCE EmptyString)
  \/ (prefix FENCE s = false
      /\ Str.replace s FENCE EmptyString
         = match s with
           | EmptyString => EmptyString
           | String c t => String c (Str.replace t FENCE EmptyString)
           end).
Proof.
  destruct (prefix FENCE s) eqn:Hp.
  - left. destruct (prefix_app _ _ Hp) as (t & ->). exists t.
    split; [reflexivity|].
    unfold Str.replace, FENCE. cbn. now rewrite prefix_nil.
  - right. split; [reflexivity|].
    destruct s as [|c t]; [reflexivity|].
    unfold Str.replace, FENCE in *.
    change (Str.replace_from "```" EmptyString 0 (String c t))
      with (if prefix "```" (String c t)
            then EmptyString
                 ++ Str.replace_from "```" EmptyString
                      (String.length "```" - 1) t
            else String c (Str.replace_from "```" EmptyString 0 t)).
    now rewrite Hp.
Qed.

(** After the removal no fence is left, and no back-ticks have moved
    to the front. *)
Lemma unfence_bounded (n : nat) (s : string) :
  (String.length s <= n)%nat ->
  Str.contains FENCE (Str.replace s FENCE EmptyString) = false
  /\ (prefix "``" s = false ->
      prefix "``" (Str.replace s FENCE EmptyString) = false)
  /\ (prefix "`" s = false ->
      prefix "`" (Str.replace s FENCE EmptyString) = false).
Proof.
  revert s. induction n as [|n IH]; intros s Hlen.
  - destruct s; [|simpl in Hlen; lia]. repeat split; reflexivity.
  - destruct (unfence_cases s) as [(t & -> & ->)|[Hp ->]].
    + destruct (IH t) as (H1 & _ & _).
      { unfold FENCE in Hlen. simpl in Hlen. lia. }
      split; [exact H1|].
      split; intros H; unfold FENCE in H; cbn in H; discriminate H.
    + destruct s as [|c t]; [repeat split; reflexivity|].
      destruct (IH t) as (H1 & H2 & H3); [simpl in Hlen; lia|].
      unfold FENCE in *. cbn [Str.contains]. rewrite H1, orb_false_r.
      revert Hp. cbn [prefix].
      destruct (ascii_dec "`" c) as [<-|Hc].
      * intros Hp. split; [exact (H2 Hp)|]. split.
        -- simpl. exact H3.
        -- simpl. rewrite prefix_nil. discriminate.
      * intros _. repeat split; reflexivity.
Qed.

(** X11.  When the reply to the action request, trimmed, starts with a
    code fence, the text that [extract_actions] hands to the JSON parser
    holds no fence any more, wherever the fences were. *)
Theorem cleaned_reply_has_no_fence (out : string) :
  Str.startswith (Str.strip out) FENCE = true ->
  Str.contains FENCE (Processing.clean_json out) = false.
Proof.
  intros H. unfold Processing.clean_json.
  unfold FENCE in H. rewrite H.
  destruct (Str.contains FENCE (Str.strip _)) eqn:E; [|reflexivity].
  apply contains_strip in E.
  pose proof (unfence_bounded _
                (Str.replace (Str.strip out) "```json" EmptyString)
                (le_n _)) as (Hnone & _).
  unfold FENCE in *. congruence.
Qed.

(** ** Keywords *)

Lemma free_of_app (test : ascii -> bool) (a b : string) :
  free_of test (a ++ b) = free_of test a && free_of test b.
Proof.
  induction a as [|c a IH]; simpl; [reflexivity|].
  now rewrite IH, andb_assoc.
Qed.

(** The tokens of [split] are not empty and made of the characters of
    the text that are no spaces. *)
Lemma split_ws_tokens (test : ascii -> bool) (s cur : string) :
  free_of test cur = true -> free_of test s = true ->
  free_of Str.is_space cur = true ->
  Forall (fun t => t <> EmptyString
                   /\ free_of test t = true
                   /\ free_of Str.is_space t = true)
         (Str.split_ws cur s).
Proof.
  revert cur. induction s as [|c s IH]; intros cur Hcur Hs Hsp.
  - simpl. destruct cur; [constructor|].
    constructor; [|constructor]. repeat split; [discriminate|assumption..].
  - simpl in Hs. apply andb_prop in Hs as [Hc Hs]. simpl.
    destruct (Str.is_space c) eqn:Hspace.
    + destruct cur; simpl.
      * now apply IH.
      * constructor; [repeat split; [discriminate|assumption..]|].
        now apply IH.
    + apply IH; [|assumption|].
      * rewrite free_of_app. simpl. now rewrite Hcur, Hc.
      * rewrite free_of_app. simpl. now rewrite Hsp, Hspace.
Qed.

Lemma lower_char_idem (c : ascii) :
  Str.lower_char (Str.lower_char c) = Str.lower_char c.
Proof. destruct c as [[] [] [] [] [] [] [] []]; reflexivity. Qed.

Lemma lower_is_lower (s : string) : free_of upper_case (Str.lower s) = true.
Proof.
  induction s as [|c s IH]; [reflexivity|]. simpl. rewrite IH.
  unfold upper_case. now rewrite lower_char_idem, Ascii.eqb_refl.
Qed.

Lemma lower_fixed (s : string) :
  free_of upper_case s = true -> Str.lower s = s.
Proof.
  induction s as [|c s IH]; [reflexivity|]. simpl.
  intros H. apply andb_prop in H as [Hc Hs]. rewrite (IH Hs).
  unfold upper_case in Hc. apply negb_true_iff, negb_false_iff in Hc.
  apply Ascii.eqb_eq in Hc. now rewrite Hc.
Qed.

Lemma frame_text_is_lower (df : Dashboard.frame) :
  free_of upper_case (Dashboard.frame_text df) = true.
Proof.
  unfold Dashboard.frame_text.
  induction df as [|row df IH]; [reflexivity|].
  cbn [map Str.join].
  destruct (map _ df) as [|next rest] eqn:Hrest.
  - apply lower_is_lower.
  - rewrite !free_of_app, lower_is_lower. simpl. exact IH.
Qed.

Lemma free_of_lstrip_chars (test : ascii -> bool) (chars s : string) :
  free_of test s = true -> free_of test (Str.lstrip_chars chars s) = true.
Proof.
  induction s as [|c s IH]; [trivial|]. simpl.
  intros H. apply andb_prop in H as [Hc Hs].
  destruct (Str.member c chars); [auto|]. simpl. now rewrite Hc, Hs.
Qed.

Lemma free_of_rstrip_chars (test : ascii -> bool) (chars s : string) :
  free_of test s = true -> free_of test (Str.rstrip_chars chars s) = true.
Proof.
  induction s as [|c s IH]; [trivial|]. simpl.
  intros H. apply andb_prop in H as [Hc Hs].
  destruct (Str.member c chars && Str.is_empty (Str.rstrip_chars chars s));
    [reflexivity|].
  simpl. now rewrite Hc, IH.
Qed.

Lemma lstrip_chars_length (chars s : string) :
  (String.length (Str.lstrip_chars chars s) <= String.length s)%nat.
Proof.
  induction s as [|c s IH]; simpl; [lia|].
  destruct (Str.member c chars); simpl; lia.
Qed.

Lemma lstrip_chars_idem (chars s : string) :
  Str.lstrip_chars chars (Str.lstrip_chars chars s) = Str.lstrip_chars chars s.
Proof.
  induction s as [|c s IH]; [reflexivity|]. simpl.
  destruct (Str.member c chars) eqn:Hc; [exact IH|]. simpl. now rewrite Hc.
Qed.

Lemma rstrip_chars_idem (chars s : string) :
  Str.rstrip_chars chars (Str.rstrip_chars chars s) = Str.rstrip_chars chars s.
Proof.
  induction s as [|c s IH]; [reflexivity|]. simpl.
  destruct (Str.member c chars && Str.is_empty (Str.rstrip_chars chars s))
    eqn:Hc; [reflexivity|].
  simpl. now rewrite IH, Hc.
Qed.

Lemma lstrip_rstrip_chars (chars s : string) :
  Str.lstrip_chars chars s = s ->
  Str.lstrip_chars chars (Str.rstrip_chars chars s) = Str.rstrip_chars chars s.
Proof.
  destruct s as [|c t]; [reflexivity|]. simpl.
  destruct (Str.member c chars) eqn:Hc.
  - intros H. pose proof (lstrip_chars_length chars t) as Hlen.
    rewrite H in Hlen. simpl in Hlen. lia.
  - intros _. simpl. now rewrite Hc.
Qed.

Lemma strip_chars_idem (chars s : string) :
  Str.strip_chars (Str.strip_chars s chars) chars = Str.strip_chars s chars.
Proof.
  unfold Str.strip_chars.
  rewrite (lstrip_rstrip_chars chars _ (lstrip_chars_idem chars s)).
  apply rstrip_chars_idem.
Qed.

(** What every token that counts as a keyword is like. *)
Lemma keyword_tokens_clean (df : Dashboard.frame) :
  Forall (fun t => Dashboard.is_stopword t = false
                   /\ (2 < String.length t)%nat
                   /\ Str.lower t = t
                   /\ free_of Str.is_space t = true
                   /\ Str.strip_chars t Dashboard.PUNCTUATION = t)
         (Dashboard.keyword_tokens df).
Proof.
  unfold Dashboard.keyword_tokens, Str.split.
  pose proof (split_ws_tokens upper_case (Dashboard.frame_text df) EmptyString
                eq_refl (frame_text_is_lower df) eq_refl) as Htokens.
  induction Htokens as [|t tokens (_ & Hlow & Hsp) _ IH]; [constructor|].
  cbn [map filter].
  destruct (negb _ && negb _ && _) eqn:Hkeep; [|exact IH].
  constructor; [|exact IH].
  apply andb_prop in Hkeep as [Hkeep Hlen].
  apply andb_prop in Hkeep as [_ Hstop].
  apply negb_true_iff in Hstop. apply Nat.ltb_lt in Hlen.
  split; [exact Hstop|]. split; [exact Hlen|].
  split; [|split].
  - apply lower_fixed. unfold Str.strip_chars.
    now apply free_of_rstrip_chars, free_of_lstrip_chars.
  - unfold Str.strip_chars.
    now apply free_of_rstrip_chars, free_of_lstrip_chars.
  - apply strip_chars_idem.
Qed.

Lemma in_firstn {A : Type} (n : nat) (l : list A) (x : A) :
  In x (firstn n l) -> In x l.
Proof.
  revert l. induction n as [|k IH]; intros [|y l] H; simpl in H;
    try contradiction.
  destruct H as [->|H]; [now left|right; now apply IH].
Qed.

Lemma ranking_permutation (counter : list (string * nat)) :
  Permutation (Sorting.sort snd (fun a b => Nat.leb b a) counter) counter.
Proof. apply sort_permutation. Qed.

Lemma geb_total (a b : nat) : Nat.leb b a = true \/ Nat.leb a b = true.
Proof. destruct (Nat.leb_spec b a); [now left|right; apply Nat.leb_le; lia]. Qed.

Lemma ranking_sorted (counter : list (string * nat)) :
  StronglySorted count_ge (Sorting.sort snd (fun a b => Nat.leb b a) counter).
Proof.
  apply Sorted_StronglySorted.
  - intros x y z. unfold count_ge. lia.
  - pose proof (sort_sorted snd (fun a b => Nat.leb b a) geb_total counter) as H.
    induction H as [|x l _ IH Hx]; constructor; [exact IH|].
    destruct Hx as [|y l Hxy]; constructor.
    unfold Sorting.key_le in Hxy. apply Nat.leb_le in Hxy. exact Hxy.
Qed.

Lemma most_common_incl (n : Z) (counter : list (string * nat))
  (x : string * nat) :
  In x (Dashboard.most_common n counter) -> In x counter.
Proof.
  unfold Dashboard.most_common. intros H. apply in_firstn in H.
  exact (Permutation_in _ (ranking_permutation counter) H).
Qed.

(** *** The counter *)

Lemma count_of_bump (k t : string) (counter : list (string * nat)) :
  count_of k (Dashboard.bump t counter)
  = if String.eqb k t then S (count_of k counter) else count_of k counter.
Proof.
  induction counter as [|[k' n] rest IH]; simpl.
  - destruct (String.eqb k t); reflexivity.
  - destruct (String.eqb t k') eqn:Htk; simpl.
    + apply String.eqb_eq in Htk. subst k'.
      destruct (String.eqb k t); reflexivity.
    + destruct (String.eqb k k') eqn:Hkk; [|exact IH].
      apply String.eqb_eq in Hkk. subst k'.
      rewrite String.eqb_sym in Htk. now rewrite Htk.
Qed.

Lemma keys_of_bump (t : string) (counter : list (string * nat)) :
  map fst (Dashboard.bump t counter)
  = if in_dec string_dec t (map fst counter)
    then map fst counter else (map fst counter ++ [t])%list.
Proof.
  induction counter as [|[k n] rest IH]; [reflexivity|]. simpl.
  destruct (String.eqb t k) eqn:Htk.
  - apply String.eqb_eq in Htk. subst k. simpl.
    destruct (string_dec t t); [|contradiction].
    destruct (in_dec string_dec t (map fst rest)); reflexivity.
  - apply String.eqb_neq in Htk. simpl. rewrite IH.
    destruct (string_dec k t) as [->|Hkt]; [contradiction|].
    destruct (in_dec string_dec t (map fst rest)); reflexivity.
Qed.

Lemma bump_nodup (t : string) (counter : list (string * nat)) :
  NoDup (map fst counter) -> NoDup (map fst (Dashboard.bump t counter)).
Proof.
  intros H. rewrite keys_of_bump.
  destruct (in_dec string_dec t (map fst counter)) as [|Hnot]; [exact H|].
  apply NoDup_app; [exact H|repeat constructor; intros []|].
  intros x Hx [<-|[]]. contradiction.
Qed.

Lemma bump_positive (t : string) (counter : list (string * nat)) :
  Forall (fun kc => (1 <= snd kc)%nat) counter ->
  Forall (fun kc => (1 <= snd kc)%nat) (Dashboard.bump t counter).
Proof.
  induction 1 as [|[k n] rest Hk Hrest IH]; simpl.
  - repeat constructor.
  - destruct (String.eqb t k); constructor; simpl in *; try assumption; lia.
Qed.

(** Counting from a counter already filled. *)
Lemma counting (tokens : list string) (acc : list (string * nat)) :
  let counter := fold_left (fun counter t => Dashboard.bump t counter)
                           tokens acc in
  (forall k, count_of k counter
             = (count_of k acc + count_occ string_dec tokens k)%nat)
  /\ (NoDup (map fst acc) -> NoDup (map fst counter))
  /\ (Forall (fun kc => (1 <= snd kc)%nat) acc ->
      Forall (fun kc => (1 <= snd kc)%nat) counter).
Proof.
  revert acc. induction tokens as [|t tokens IH]; intros acc; simpl.
  - repeat split; auto.
  - destruct (IH (Dashboard.bump t acc)) as (Hcount & Hnodup & Hpos).
    repeat split.
    + intros k. rewrite Hcount, count_of_bump.
      destruct (string_dec t k) as [->|Hne].
      * rewrite String.eqb_refl. lia.
      * apply not_eq_sym in Hne. apply String.eqb_neq in Hne.
        rewrite Hne. reflexivity.
    + intros H. apply Hnodup, bump_nodup, H.
    + intros H. apply Hpos, bump_positive, H.
Qed.

Lemma count_of_entry (k : string) (n : nat) (counter : list (string * nat)) :
  NoDup (map fst counter) -> In (k, n) counter -> count_of k counter = n.
Proof.
  induction counter as [|[k' n'] rest IH]; [contradiction|].
  simpl. intros Hnodup [[= -> ->]|Hin].
  - now rewrite String.eqb_refl.
  - inversion Hnodup as [|x l Hnot Hrest]; subst.
    destruct (String.eqb k k') eqn:Hkk; [|now apply IH].
    apply String.eqb_eq in Hkk. subst k'.
    exfalso. apply Hnot. change k with (fst (k, n)). now apply in_map.
Qed.

Lemma count_of_absent (k : string) (counter : list (string * nat)) :
  ~ In k (map fst counter) -> count_of k counter = 0%nat.
Proof.
  induction counter as [|[k' n'] rest IH]; [reflexivity|]. simpl.
  intros H. destruct (String.eqb k k') eqn:Hkk.
  - apply String.eqb_eq in Hkk. subst k'. exfalso. apply H. now left.
  - apply IH. intros Hin. apply H. now right.
Qed.

(** The counter of a list of tokens: its keys are different, and each
    has with it how often it occurs in the list, once at least. *)
Lemma Counter_counts (tokens : list string) :
  NoDup (map fst (Dashboard.Counter tokens))
  /\ (forall k n, In (k, n) (Dashboard.Counter tokens) ->
                  n = count_occ string_dec tokens k /\ (1 <= n)%nat)
  /\ (forall k, In k tokens -> In k (map fst (Dashboard.Counter tokens))).
Proof.
  unfold Dashboard.Counter.
  destruct (counting tokens []) as (Hcount & Hnodup & Hpos).
  specialize (Hnodup (NoDup_nil _)). specialize (Hpos (Forall_nil _)).
  split; [exact Hnodup|]. split.
  - intros k n Hin. split.
    + rewrite <- (count_of_entry k n _ Hnodup Hin). apply Hcount.
    + rewrite Forall_forall in Hpos. exact (Hpos _ Hin).
  - intros k Hin.
    destruct (in_dec string_dec k
                (map fst (fold_left (fun counter t => Dashboard.bump t counter)
                                    tokens []))) as [|Hnot]; [assumption|].
    apply count_of_absent in Hnot. rewrite Hcount in Hnot. simpl in Hnot.
    apply (count_occ_In string_dec) in Hin. lia.
Qed.

Lemma strongly_sorted_app {A : Type} (R : A -> A -> Prop) (a b : list A) :
  StronglySorted R (a ++ b) ->
  StronglySorted R a /\ Forall (fun x => Forall (R x) b) a.
Proof.
  induction a as [|x a IH]; simpl; intros H.
  - split; constructor.
  - inversion H as [|y l Hl Hx]; subst.
    destruct (IH Hl) as [Ha Hab].
    apply Forall_app in Hx as [Hxa Hxb].
    split; constructor; assumption.
Qed.

(** What [get_keyword_counts] returns is a start of the ranking of all
    counted tokens. *)
Lemma keyword_counts_ranking (df : Dashboard.frame) (n : Z) :
  exists left_out,
    Permutation (Dashboard.get_keyword_counts df n ++ left_out)
                (Dashboard.Counter (Dashboard.keyword_tokens df))
    /\ StronglySorted count_ge (Dashboard.get_keyword_counts df n ++ left_out)
    /\ List.length (Dashboard.get_keyword_counts df n)
       = Nat.min (Z.to_nat n)
           (List.length (Dashboard.Counter (Dashboard.keyword_tokens df))).
Proof.
  destruct df as [|row df].
  - exists []. repeat split; [reflexivity|constructor|].
    simpl. now rewrite Nat.min_0_r.
  - unfold Dashboard.get_keyword_counts, Dashboard.most_common.
    set (counter := Dashboard.Counter _).
    exists (skipn (Z.to_nat n)
                  (Sorting.sort snd (fun a b => Nat.leb b a) counter)).
    rewrite firstn_skipn. split; [apply ranking_permutation|].
    split; [apply ranking_sorted|].
    rewrite length_firstn.
    now rewrite (Permutation_length (ranking_permutation counter)).
Qed.

(** X12.  Every keyword that [get_keyword_counts] returns is a word of
    more than two characters that is no stop word, in lower case,
    without a space in it and without punctuation at its ends. *)
Theorem keywords_are_clean (df : Dashboard.frame) (top_n : Z)
  (kw : string) (c : nat) :
  In (kw, c) (Dashboard.get_keyword_counts df top_n) ->
  Dashboard.is_stopword kw = false
  /\ (2 < String.length kw)%nat
  /\ Str.lower kw = kw
  /\ free_of Str.is_space kw = true
  /\ Str.strip_chars kw Dashboard.PUNCTUATION = kw.
Proof.
  intros Hin.
  assert (Hcounted : In (kw, c) (Dashboard.Counter (Dashboard.keyword_tokens df))).
  { destruct df as [|row df]; [contradiction|].
    exact (most_common_incl _ _ _ Hin). }
  destruct (Counter_counts (Dashboard.keyword_tokens df)) as (_ & Hcount & _).
  destruct (Hcount kw c Hcounted) as [-> Hpos].
  assert (Htoken : In kw (Dashboard.keyword_tokens df)).
  { apply (count_occ_In string_dec). lia. }
  pose proof (keyword_tokens_clean df) as Hclean.
  rewrite Forall_forall in Hclean. exact (Hclean kw Htoken).
Qed.

(** X13.  The number that [get_keyword_counts] returns with a keyword
    is the number of times the keyword occurs among the tokens of the
    frame, and it is at least one. *)
Theorem keyword_counts_are_right (df : Dashboard.frame) (top_n : Z)
  (kw : string) (c : nat) :
  In (kw, c) (Dashboard.get_keyword_counts df top_n) ->
  c = occurrences df kw /\ (1 <= c)%nat.
Proof.
  intros Hin.
  assert (Hcounted : In (kw, c) (Dashboard.Counter (Dashboard.keyword_tokens df))).
  { destruct df as [|row df]; [contradiction|].
    exact (most_common_incl _ _ _ Hin). }
  destruct (Counter_counts (Dashboard.keyword_tokens df)) as (_ & Hcount & _).
  exact (Hcount kw c Hcounted).
Qed.

(** X14.  [get_keyword_counts] returns the [top_n] most frequent
    keywords, or all of them when there are fewer: no keyword twice, the
    counts never increasing down the list, and no keyword that is left
    out occurring more often than one that is returned. *)
Theorem keywords_are_the_most_frequent (df : Dashboard.frame) (top_n : Z) :
  List.length (Dashboard.get_keyword_counts df top_n)
  = Nat.min (Z.to_nat top_n)
            (List.length (nodup string_dec (Dashboard.keyword_tokens df)))
  /\ NoDup (map fst (Dashboard.get_keyword_counts df top_n))
  /\ StronglySorted count_ge (Dashboard.get_keyword_counts df top_n)
  /\ (forall kw,
         In kw (Dashboard.keyword_tokens df) ->
         ~ In kw (map fst (Dashboard.get_keyword_counts df top_n)) ->
         Forall (fun shown => (occurrences df kw <= snd shown)%nat)
                (Dashboard.get_keyword_counts df top_n)).
Proof.
  destruct (keyword_counts_ranking df top_n) as (left_out & Hperm & Hsorted & Hlen).
  destruct (Counter_counts (Dashboard.keyword_tokens df))
    as (Hnodup & Hcount & Hkeys).
  set (result := Dashboard.get_keyword_counts df top_n) in *.
  set (tokens := Dashboard.keyword_tokens df) in *.
  apply strongly_sorted_app in Hsorted as [Hsorted Habove].
  assert (Hall : NoDup (map fst (result ++ left_out))).
  { apply (Permutation_NoDup (l := map fst (Dashboard.Counter tokens)));
      [|exact Hnodup].
    apply Permutation_map. now symmetry. }
  repeat split.
  - rewrite Hlen. f_equal.
    rewrite <- (length_map fst (Dashboard.Counter tokens)).
    apply Permutation_length, NoDup_Permutation;
      [exact Hnodup|apply NoDup_nodup|].
    intros k. rewrite nodup_In. split; [|apply Hkeys].
    intros Hk. apply in_map_iff in Hk as ([k' n] & <- & Hk).
    destruct (Hcount _ _ Hk) as [-> Hpos].
    apply (count_occ_In string_dec). simpl. lia.
  - rewrite map_app in Hall. exact (NoDup_app_remove_r _ _ Hall).
  - exact Hsorted.
  - intros kw Htoken Hnot.
    apply Hkeys, in_map_iff in Htoken as ([k n] & Hk & Hentry).
    simpl in Hk. subst k.
    destruct (Hcount _ _ Hentry) as [Hn _].
    symmetry in Hperm. apply (Permutation_in _ Hperm) in Hentry.
    apply in_app_or in Hentry as [Hshown|Hleft].
    { exfalso. apply Hnot. change kw with (fst (kw, n)). now apply in_map. }
    apply (Forall_impl _ (P := fun x => Forall (count_ge x) left_out));
      [|exact Habove].
    intros shown Hshown. rewrite Forall_forall in Hshown.
    specialize (Hshown _ Hleft). unfold count_ge in Hshown. simpl in Hshown.
    unfold occurrences. fold tokens. lia.
Qed.

(** ** The prompt form *)

(** X15.  "Save Prompts" fails in two cases only: when the prompts file
    does not load, with the exception of the load, and when what it
    holds is no dict, with the [AttributeError] of [prompts.get].
    Otherwise it saves a complete prompt set: the set loaded before with
    the three prompts set to the texts of the form, every other key
    kept with its value. *)
Theorem prompt_form_completes_the_set (f : file value)
  (categorization_prompt action_item_prompt auto_reply_prompt : string) :
  let saved := App.save_prompt_form f categorization_prompt action_item_prompt
                                    auto_reply_prompt in
  match Prompts.load_prompts f with
  | Raise e => saved = Raise e
  | Ok (VDict before) =>
      exists prompts,
        saved = Ok (Prompts.save_prompts prompts)
        /\ Py.get prompts "categorization_prompt"
           = Some (VStr categorization_prompt)
        /\ Py.get prompts "action_item_prompt" = Some (VStr action_item_prompt)
        /\ Py.get prompts "auto_reply_prompt" = Some (VStr auto_reply_prompt)
        /\ has_all_prompts prompts
        /\ (forall k, ~ In k prompt_keys -> Py.get prompts k = Py.get before k)
  | Ok loaded =>
      saved = Raise (Exn AttributeError
                         ("'" ++ Py.type_name loaded
                              ++ "' object has no attribute 'get'"))
  end.
Proof.
  unfold App.save_prompt_form.
  destruct (Prompts.load_prompts f) as [[| | | | |before]|e]; try reflexivity.
  eexists. split; [reflexivity|].
  assert (H1 : forall d x y z, Py.get (Py.set (Py.set (Py.set d
                 "categorization_prompt" x) "action_item_prompt" y)
                 "auto_reply_prompt" z) "categorization_prompt" = Some x)
    by (intros; now rewrite !get_set).
  assert (H2 : forall d x y z, Py.get (Py.set (Py.set (Py.set d
                 "categorization_prompt" x) "action_item_prompt" y)
                 "auto_reply_prompt" z) "action_item_prompt" = Some y)
    by (intros; now rewrite !get_set).
  assert (H3 : forall d x y z, Py.get (Py.set (Py.set (Py.set d
                 "categorization_prompt" x) "action_item_prompt" y)
                 "auto_reply_prompt" z) "auto_reply_prompt" = Some z)
    by (intros; now rewrite !get_set).
  split; [apply H1|]. split; [apply H2|]. split; [apply H3|]. split.
  - unfold has_all_prompts, prompt_keys.
    repeat constructor; [rewrite H1|rewrite H2|rewrite H3]; discriminate.
  - intros k Hk. rewrite !get_set.
    destruct (String.eqb_spec k "auto_reply_prompt") as [->|_];
      [exfalso; apply Hk; simpl; auto|].
    destruct (String.eqb_spec k "action_item_prompt") as [->|_];
      [exfalso; apply Hk; simpl; auto|].
    destruct (String.eqb_spec k "categorization_prompt") as [->|_];
      [exfalso; apply Hk; simpl; auto|].
    reflexivity.
Qed.

Lemma prompt_form_loads (f : file value) (c a r : string) (saved : file value) :
  App.save_prompt_form f c a r = Ok saved ->
  exists prompts,
    Prompts.load_prompts saved = Ok (VDict prompts)
    /\ Py.get prompts "categorization_prompt" <> None
    /\ Py.get prompts "action_item_prompt" <> None.
Proof.
  unfold App.save_prompt_form.
  destruct (Prompts.load_prompts f) as [[| | | | |before]|e]; try discriminate.
  intros [= <-]. eexists. split; [reflexivity|].
  rewrite !get_set. split; discriminate.
Qed.

Lemma sort_by_id_raises (sort_error : list value -> string) (l : list dict)
  (e : exn) :
  Forall (fun r => Py.getitem (VDict r) "id" = Ok (Py.get_or_none r "id")) l ->
  Processing.sort_by_id sort_error l = Raise e -> exn_cls e = TypeError.
Proof.
  intros Hhas. unfold Processing.sort_by_id. rewrite (id_keys_ok _ Hhas).
  cbn beta iota zeta.
  destruct (Processing.all_compare (ids l)); [discriminate|].
  now intros [= <-].
Qed.

(** A run that finds its emails and its prompts: every unit of work is
    submitted, and what is returned is what the ordering makes of the
    records collected. *)
Lemma run_with_prompts (json_loads : string -> option value)
  (svc : nat -> service) (finish : nat -> nat) (sort_error : list value -> string)
  (w : world) (prompts : dict) :
  let emails := Ingest.load_mock_inbox (inbox w) in
  let out := Processing.run_ingestion_pipeline json_loads svc finish sort_error w in
  emails <> [] ->
  Prompts.load_prompts (prompts_file w) = Ok (VDict prompts) ->
  Py.get prompts "categorization_prompt" <> None ->
  Py.get prompts "action_item_prompt" <> None ->
  work out = map Processing.future_events
                 (Processing.submit_all json_loads svc emails prompts)
  /\ exists k,
       returned out
       = Processing.sort_by_id sort_error
           (firstn k (arrived json_loads svc finish prompts emails)).
Proof.
  intros emails out Hne Hload Hcat Hact. subst out.
  unfold Processing.run_ingestion_pipeline. fold emails.
  replace (negb (Py.truthy (VList (map VDict emails)))) with false
    by (destruct emails; [contradiction|reflexivity]).
  rewrite Hload.
  destruct (Py.get prompts "categorization_prompt") as [p1|] eqn:Hp1;
    [|contradiction].
  destruct (Py.get prompts "action_item_prompt") as [p2|] eqn:Hp2;
    [|contradiction].
  rewrite (getitem_get _ _ _ Hp1), (getitem_get _ _ _ Hp2).
  cbn [Py.entries].
  pose proof (submitted_shape json_loads svc prompts emails 0) as Hshape.
  apply Forall2_records in Hshape as [_ Hok].
  change (map _ (combine (seq 0 (List.length emails)) emails))
    with (Processing.submit_all json_loads svc emails prompts) in Hok.
  set (futures := Processing.submit_all json_loads svc emails prompts) in *.
  assert (Hperm : Permutation (Processing.as_completed finish futures) futures)
    by apply sort_permutation.
  symmetry in Hperm. pose proof (Permutation_Forall Hperm Hok) as Hok'.
  rewrite (map_ok_unwrap _ _ Hok').
  destruct (collect_prefix (List.length emails)
              (map (fun f => unwrap (Processing.future_result f))
                   (Processing.as_completed finish futures)) [] 0) as (k & Hk).
  destruct (Processing.collect _ _ [] 0) as [processed printed].
  simpl in Hk. subst processed.
  change (map (fun f => unwrap (Processing.future_result f))
              (Processing.as_completed finish futures))
    with (arrived json_loads svc finish prompts emails).
  destruct (Processing.sort_by_id _ _) as [sorted|e] eqn:Hsort;
    (split; [reflexivity|exists k; now rewrite Hsort]).
Qed.

Lemma arrived_have_ids (json_loads : string -> option value)
  (svc : nat -> service) (finish : nat -> nat) (prompts : dict)
  (emails : list dict) (k : nat) :
  Forall (fun r => Py.getitem (VDict r) "id" = Ok (Py.get_or_none r "id"))
         (firstn k (arrived json_loads svc finish prompts emails)).
Proof.
  apply Forall_forall. intros r Hr. apply in_firstn in Hr.
  pose proof (arrived_permutation json_loads svc finish prompts emails) as Hp.
  apply (Permutation_in _ Hp) in Hr.
  pose proof (enriched_batch_shape json_loads svc prompts emails) as Hshape.
  apply Forall2_from_left in Hshape. rewrite Forall_forall in Hshape.
  destruct (Hshape r Hr) as (email & _ & Her).
  exact (proj1 (enriched_id email r Her)).
Qed.

(** X16.  Once the prompt form has been saved, a batch run on an inbox
    that is not empty does not stop for want of a prompt: it submits a
    unit of work for every email, and the only error it can still raise
    is the [TypeError] of ids that cannot be ordered. *)
Theorem batch_run_after_prompt_form
  (json_loads : string -> option value) (svc : nat -> service)
  (finish : nat -> nat) (sort_error : list value -> string)
  (w : world) (f : file value)
  (categorization_prompt action_item_prompt auto_reply_prompt : string) :
  App.save_prompt_form f categorization_prompt action_item_prompt
                       auto_reply_prompt = Ok (prompts_file w) ->
  Ingest.load_mock_inbox (inbox w) <> [] ->
  List.length (work (Processing.run_ingestion_pipeline json_loads svc finish sort_error w))
  = List.length (Ingest.load_mock_inbox (inbox w))
  /\ (forall e,
         returned (Processing.run_ingestion_pipeline json_loads svc finish sort_error w)
         = Raise e ->
         exn_cls e = TypeError).
Proof.
  intros Hform Hne.
  pose proof (prompt_form_loads f categorization_prompt action_item_prompt
                auto_reply_prompt (prompts_file w) Hform)
    as (prompts & Hload & Hcat & Hact).
  destruct (run_with_prompts json_loads svc finish sort_error w prompts Hne Hload Hcat Hact)
    as (Hwork & k & Hret).
  split.
  - rewrite Hwork. unfold Processing.submit_all, Processing.indexed.
    rewrite !length_map, length_combine, length_seq. lia.
  - intros e He. rewrite Hret in He.
    exact (sort_by_id_raises _ _ e (arrived_have_ids _ _ _ _ _ k) He).
Qed.

(** ** Drafts *)

Lemma split_on_free (sep : ascii) (s cur : string) :
  free_of (fun c => Ascii.eqb c sep) cur = true ->
  Forall (fun part => free_of (fun c => Ascii.eqb c sep) part = true)
         (Str.split_on sep cur s).
Proof.
  revert cur. induction s as [|c s IH]; intros cur Hcur; simpl.
  - now repeat constructor.
  - destruct (Ascii.eqb c sep) eqn:Hc.
    + constructor; [exact Hcur|]. now apply IH.
    + apply IH. rewrite free_of_app. simpl. now rewrite Hcur, Hc.
Qed.

(** X18.  The follow-ups that "Save Draft" stores: none when the draft
    does not say "Followups:", and otherwise texts that are not empty,
    have no space at either end and no line feed in them. *)
Theorem followups_are_clean (draft_text : string) :
  Forall (fun ln => ln <> EmptyString
                    /\ Str.strip ln = ln
                    /\ free_of (fun c => Ascii.eqb c LF) ln = true)
         (App.followups_of draft_text)
  /\ (Str.contains "Followups:" draft_text = false ->
      App.followups_of draft_text = []).
Proof.
  unfold App.followups_of. split; [|now intros ->].
  destruct (Str.contains "Followups:" draft_text); [|constructor].
  destruct (Str.after_first "Followups:" draft_text) as [after|]; [|constructor].
  pose proof (split_on_free LF after EmptyString eq_refl) as Hparts.
  change (ascii_of_nat 10) with LF.
  induction Hparts as [|part parts Hpart _ IH]; [constructor|].
  cbn [map filter].
  destruct (Str.is_empty (Str.strip (Str.strip_chars part "- "))) eqn:Hempty;
    [exact IH|].
  constructor; [|exact IH].
  split; [intros H; rewrite H in Hempty; discriminate|].
  split; [apply strip_idem|].
  unfold Str.strip, Str.strip_chars.
  now apply free_of_rstrip, free_of_lstrip, free_of_rstrip_chars,
    free_of_lstrip_chars.
Qed.

(** ** The index of the session *)

Lemma key_eqb_sym (a b : value) : Py.key_eqb a b = Py.key_eqb b a.
Proof.
  destruct a as [|[]| | | |], b as [|[]| | | |]; cbn [Py.key_eqb Bool.eqb];
    auto using Z.eqb_sym, String.eqb_sym.
Qed.

Lemma key_eqb_trans (a b c : value) :
  Py.key_eqb a b = true -> Py.key_eqb b c = true -> Py.key_eqb a c = true.
Proof.
  destruct a as [|[]| | | |], b as [|[]| | | |], c as [|[]| | | |];
    cbn [Py.key_eqb Bool.eqb];
    try discriminate; try reflexivity;
    intros H1 H2; rewrite ?Z.eqb_eq, ?String.eqb_eq in *;
    first [congruence | lia | exfalso; lia].
Qed.

Lemma keyed_get_set {A : Type} (d : Py.keyed A) (k k2 : value) (v : A) :
  Py.keyed_get (Py.keyed_set d k v) k2
  = if Py.key_eqb k2 k then Some v else Py.keyed_get d k2.
Proof.
  induction d as [|[k' v'] rest IH]; simpl; [reflexivity|].
  destruct (Py.key_eqb k k') eqn:Hkk; simpl.
  - destruct (Py.key_eqb k2 k') eqn:H2.
    + rewrite key_eqb_sym in Hkk.
      now rewrite (key_eqb_trans _ _ _ H2 Hkk).
    + destruct (Py.key_eqb k2 k) eqn:H2k; [|reflexivity].
      rewrite (key_eqb_trans _ _ _ H2k Hkk) in H2. discriminate.
  - rewrite IH. destruct (Py.key_eqb k2 k') eqn:H2; [|reflexivity].
    destruct (Py.key_eqb k2 k) eqn:H2k; [|reflexivity].
    rewrite key_eqb_sym in H2k.
    rewrite (key_eqb_trans _ _ _ H2k H2) in Hkk. discriminate.
Qed.

Lemma find_in_app {A : Type} (test : A -> bool) (l1 l2 : list A) :
  find test (l1 ++ l2)
  = match find test l1 with Some x => Some x | None => find test l2 end.
Proof.
  induction l1 as [|x l1 IH]; simpl; [reflexivity|].
  destruct (test x); [reflexivity|exact IH].
Qed.

(** The index maps an id to the last record that has it. *)
Lemma index_by_id_spec (records : list dict) (acc index : Py.keyed dict) :
  App.index_by_id records acc = Ok index ->
  forall k,
    Py.keyed_get index k
    = match last_with_id k records with
      | Some p => Some p
      | None => Py.keyed_get acc k
      end.
Proof.
  unfold last_with_id.
  revert acc. induction records as [|p records IH]; intros acc; simpl.
  - now intros [= <-].
  - unfold Py.getitem, Py.get_or_none.
    destruct (Py.get p "id") as [id|] eqn:Hid; [|discriminate].
    cbn beta iota zeta.
    destruct (Py.check_hashable id) as [[]|e]; [|discriminate].
    intros Hrest k. rewrite (IH _ Hrest k), find_in_app.
    destruct (find _ (rev records)); [reflexivity|].
    simpl. rewrite Hid, keyed_get_set.
    destruct (Py.key_eqb k id); reflexivity.
Qed.

(** X19.  "Run Inbox Processing" leaves the files as the batch run
    leaves them.  When it reports success the session holds what the
    run returned, and looking an id up in its index gives the last
    record returned with that id, or the empty entry when there is
    none.  When it reports an error the index and the loaded flag of
    the session are as before. *)
Theorem run_button_loads_the_session
  (json_loads : string -> option value) (svc : nat -> service)
  (finish : nat -> nat) (sort_error : list value -> string)
  (w : world) (s : App.session) :
  let out := Processing.run_ingestion_pipeline json_loads svc finish sort_error w in
  let '(files, s', shown) := App.run_button json_loads svc finish sort_error w s in
  files = after out
  /\ match shown with
     | Ok n =>
         returned out = Ok (App.processed s')
         /\ n = List.length (App.processed s')
         /\ App.processed_data_loaded s' = true
         /\ (forall k,
                Py.check_hashable k = Ok tt ->
                App.entry_of (App.processed_by_id s') k
                = Ok (match last_with_id k (App.processed s') with
                      | Some p => p
                      | None => []
                      end))
     | Raise e =>
         App.processed_by_id s' = App.processed_by_id s
         /\ App.processed_data_loaded s' = App.processed_data_loaded s
     end.
Proof.
  unfold App.run_button.
  destruct (returned _) as [result|e]; [|repeat split].
  destruct (App.index_by_id result []) as [index|e] eqn:Hindex; [|repeat split].
  cbn [App.processed App.processed_by_id App.processed_data_loaded].
  repeat split.
  intros k Hk. unfold App.entry_of. rewrite Hk.
  rewrite (index_by_id_spec _ _ _ Hindex k).
  destruct (last_with_id k result); reflexivity.
Qed.

(** ** From the inbox to the draft *)

Lemma Forall2_to_right {A B : Type} (R : A -> B -> Prop) (l : list A)
  (l' : list B) (a : A) :
  Forall2 R l l' -> In a l -> exists b, In b l' /\ R a b.
Proof.
  induction 1 as [|x y l l' Hxy _ IH]; intros Hin; [contradiction|].
  destruct Hin as [->|Hin].
  - exists y. split; [now left|exact Hxy].
  - destruct (IH Hin) as (b & Hb & Hab). exists b. split; [now right|exact Hab].
Qed.

(** The only element with its key is the one that [find] finds. *)
Lemma find_unique {A K : Type} (key : A -> K) (test : A -> bool)
  (l : list A) (x : A) :
  NoDup (map key l) -> In x l -> test x = true ->
  (forall y, In y l -> test y = true -> key y = key x) ->
  find test l = Some x.
Proof.
  induction l as [|y l IH]; intros Hnodup Hin Hx Hsame; [contradiction|].
  inversion Hnodup as [|k ks Hnot Hrest]; subst. simpl.
  destruct (test y) eqn:Hy.
  - destruct Hin as [->|Hin]; [reflexivity|].
    exfalso. apply Hnot. rewrite (Hsame y (or_introl eq_refl) Hy).
    now apply in_map.
  - destruct Hin as [->|Hin]; [congruence|].
    apply IH; try assumption.
    intros z Hz. apply Hsame. now right.
Qed.

Lemma key_eqb_numbers (a b : value) :
  Processing.is_number a = true -> Processing.is_number b = true ->
  Py.key_eqb a b = true ->
  Processing.as_number a = Processing.as_number b.
Proof.
  destruct a as [|[]| | | |], b as [|[]| | | |]; try discriminate;
    cbn [Py.key_eqb Bool.eqb Processing.as_number]; intros _ _ H;
    try discriminate; try reflexivity;
    apply Z.eqb_eq in H; now rewrite H.
Qed.

Lemma key_eqb_refl_number (a : value) :
  Processing.is_number a = true ->
  Py.key_eqb a a = true /\ Py.check_hashable a = Ok tt.
Proof.
  destruct a as [|[]| | | |]; try discriminate; intros _; split;
    try reflexivity; apply Z.eqb_refl.
Qed.

(** X20.  After "Run Inbox Processing" has succeeded on an inbox whose
    emails have string subjects and numbers as ids, no two of them
    equal, the metadata that "Save Draft" stores for an email of the
    inbox are the category and the actions of the record of that very
    email. *)
Theorem draft_metadata_belong_to_the_email
  (json_loads : string -> option value) (svc : nat -> service)
  (finish : nat -> nat) (sort_error : list value -> string)
  (w files : world) (s s' : App.session)
  (prompts : dict) (n : nat) (email : dict) :
  Prompts.load_prompts (prompts_file w) = Ok (VDict prompts) ->
  Py.get prompts "categorization_prompt" <> None ->
  Py.get prompts "action_item_prompt" <> None ->
  Forall has_text_subject (Ingest.load_mock_inbox (inbox w)) ->
  Forall numbered (Ingest.load_mock_inbox (inbox w)) ->
  NoDup (map Processing.number_key (Ingest.load_mock_inbox (inbox w))) ->
  App.run_button json_loads svc finish sort_error w s = (files, s', Ok n) ->
  In email (Ingest.load_mock_inbox (inbox w)) ->
  exists record,
    In record (App.processed s')
    /\ enriched_from email record
    /\ App.metadata_of s' email
       = Ok [ ("category", Py.get_or_none record "category");
              ("actions", Py.get_or_none record "actions") ].
Proof.
  intros Hload Hcat Hact Hsubjects Hnum Hnodup Hrun Hin.
  set (emails := Ingest.load_mock_inbox (inbox w)) in *.
  assert (Hne : emails <> []) by (intros H; rewrite H in Hin; contradiction).
  pose proof (run_of_well_formed json_loads svc finish sort_error w prompts
                Hne Hload Hcat Hact Hsubjects) as Hret.
  fold emails in Hret.
  unfold App.run_button in Hrun. rewrite Hret in Hrun.
  destruct (Processing.sort_by_id _ _) as [result|e] eqn:Hsort;
    [|discriminate Hrun].
  destruct (App.index_by_id result []) as [index|e] eqn:Hindex;
    [|discriminate Hrun].
  injection Hrun as _ <- _.
  cbn [App.processed App.processed_by_id App.processed_data_loaded].
  apply sort_by_id_ok in Hsort as [Hperm _].
  rewrite (arrived_permutation json_loads svc finish prompts emails) in Hperm.
  pose proof (enriched_batch_shape json_loads svc prompts emails) as Hshape.
  destruct (Forall2_to_right _ _ _ email Hshape Hin) as (record & Hrec & Her).
  assert (Hresult : In record result).
  { symmetry in Hperm. exact (Permutation_in _ Hperm Hrec). }
  exists record. split; [exact Hresult|]. split; [exact Her|].
  destruct (enriched_id email record Her) as [_ Hid].
  rewrite Forall_forall in Hnum. pose proof (Hnum email Hin) as Hnumber.
  unfold numbered in Hnumber.
  destruct (key_eqb_refl_number _ Hnumber) as [Hrefl Hhash].
  unfold App.metadata_of, App.entry_of.
  cbn [App.processed App.processed_by_id App.processed_data_loaded].
  rewrite Hhash. cbn beta iota zeta.
  rewrite (index_by_id_spec _ _ _ Hindex). unfold last_with_id.
  assert (Hnumbered : Forall numbered (enriched_batch json_loads svc prompts emails)).
  { apply (Forall2_transfer enriched_from numbered numbered emails _
             (fun e r Her' (He : numbered e) =>
                eq_trans (f_equal Processing.is_number
                            (proj2 (enriched_id e r Her'))) He)
             Hshape).
    apply Forall_forall. exact Hnum. }
  assert (Hkeys : NoDup (map Processing.number_key (rev result))).
  { apply (Permutation_NoDup
             (l := map Processing.number_key
                       (enriched_batch json_loads svc prompts emails))).
    - apply Permutation_map. rewrite <- Hperm. apply Permutation_rev.
    - unfold Processing.number_key.
      rewrite (enriched_key
                 (fun v => match Processing.as_number v with
                           | Some z => z | None => 0 end) _ _ Hshape).
      exact Hnodup. }
  rewrite (find_unique Processing.number_key _ (rev result) record Hkeys).
  - reflexivity.
  - apply in_rev. now rewrite rev_involutive.
  - rewrite Hid. exact Hrefl.
  - intros y Hy Htest. apply in_rev in Hy.
    apply (Permutation_in _ Hperm) in Hy.
    rewrite Forall_forall in Hnumbered. pose proof (Hnumbered y Hy) as Hynum.
    unfold numbered in Hynum. unfold Processing.number_key.
    rewrite Hid.
    now rewrite (key_eqb_numbers _ _ Hnumber Hynum Htest).
Qed.

(** ** The further properties at concrete inputs *)

Lemma failed_email_is_never_high_witness :
  exists record,
    outcome_of (Processing.process_single_email
                  sample_loads sample_email Prompts.DEFAULT_PROMPTS broken 0%nat)
    = Ok record
    /\ Py.get record "status" = Some (VStr "error")
    /\ 0 <= fst (Dashboard.priority record) <= 6
    /\ snd (Dashboard.priority record) <> "HIGH".
Proof.
  eexists. split; [reflexivity|]. split; [reflexivity|].
  apply (failed_email_is_never_high sample_loads sample_email
           Prompts.DEFAULT_PROMPTS broken 0%nat); reflexivity.
Defined.


Lemma batch_result_comes_from_the_inbox_witness :
  exists result,
    returned (Processing.run_ingestion_pipeline
                sample_loads steady (fun i => i) first_comparison_text tidy_world) = Ok result
    /\ (List.length result <= 2)%nat.
Proof.
  eexists. split; [reflexivity|].
  destruct (batch_result_comes_from_the_inbox sample_loads steady (fun i => i) first_comparison_text
              tidy_world _ eq_refl) as (prompts & left_behind & _ & _ & _ & Hlen).
  exact Hlen.
Defined.

Lemma batch_result_ignores_completion_order_witness :
  distinct_ids (Ingest.load_mock_inbox (inbox tidy_world))
  /\ returned (Processing.run_ingestion_pipeline
                 sample_loads steady (fun i => i) first_comparison_text tidy_world)
     = returned (Processing.run_ingestion_pipeline
                   sample_loads steady backwards first_comparison_text tidy_world).
Proof.
  assert (Hids : distinct_ids (Ingest.load_mock_inbox (inbox tidy_world))).
  { left. split; [repeat constructor|].
    repeat constructor; simpl; intuition discriminate. }
  split; [exact Hids|].
  apply (batch_result_ignores_completion_order sample_loads steady
           (fun i => i) backwards first_comparison_text tidy_world Prompts.DEFAULT_PROMPTS).
  - reflexivity.
  - discriminate.
  - discriminate.
  - repeat constructor; eexists; reflexivity.
  - exact Hids.
Defined.

Lemma enricher_without_prompt_witness :
  Processing.process_single_email sample_loads sample_email []
    (steady 0%nat) 0%nat
  = (Ok (Processing.error_record sample_email
           (Exn KeyError "'categorization_prompt'")),
     0%nat, [Sleep 200])
  /\ (let run := Processing.process_single_email
                   sample_loads sample_email categorization_only
                   (steady 0%nat) 0%nat in
      outcome_of run
      = Ok (Processing.error_record sample_email
              (Exn KeyError "'action_item_prompt'"))
      /\ requests_sent (snd run) = 1%nat)
  /\ outcome_of (Processing.process_single_email
                   sample_loads sample_email categorization_only broken 0%nat)
     = Ok (Processing.error_record sample_email
             (Exn RuntimeError "API Error 500")).
Proof.
  destruct (enricher_without_prompt sample_loads sample_email []
              (steady 0%nat) 0%nat) as [Hnone _].
  destruct (enricher_without_prompt sample_loads sample_email
              categorization_only (steady 0%nat) 0%nat) as [_ Hsome].
  destruct (enricher_without_prompt sample_loads sample_email
              categorization_only broken 0%nat) as [_ Hbroken].
  split; [exact (Hnone eq_refl)|].
  split.
  - cbv zeta. rewrite (Hsome _ eq_refl eq_refl). split; reflexivity.
  - rewrite (Hbroken _ eq_refl eq_refl). reflexivity.
Defined.

Lemma success_category_is_one_trimmed_line_witness :
  exists record category,
    outcome_of (Processing.process_single_email
                  sample_loads sample_email Prompts.DEFAULT_PROMPTS
                  fenced_service 0%nat) = Ok record
    /\ Py.get record "category" = Some (VStr category)
    /\ category <> EmptyString
    /\ Str.splitlines category = [category].
Proof.
  destruct (success_category_is_one_trimmed_line sample_loads sample_email
              Prompts.DEFAULT_PROMPTS fenced_service 0%nat _ eq_refl eq_refl)
    as (category & Hcat & Hne & _ & Hline).
  eexists. exists category. split; [reflexivity|].
  split; [exact Hcat|]. split; [exact Hne|exact Hline].
Defined.

Lemma cleaned_reply_has_no_fence_witness :
  Str.contains FENCE
    (Processing.clean_json (" ```json[1]``` and ```[2]```" ++ Str.NL)) = false.
Proof. apply cleaned_reply_has_no_fence. reflexivity. Defined.

Lemma keywords_are_clean_witness :
  In ("budget", 3%nat) (Dashboard.get_keyword_counts sample_frame 2)
  /\ Dashboard.is_stopword "budget" = false
  /\ Str.lower "budget" = "budget".
Proof.
  assert (Hin : In ("budget", 3%nat) (Dashboard.get_keyword_counts sample_frame 2))
    by (left; reflexivity).
  split; [exact Hin|].
  destruct (keywords_are_clean sample_frame 2 "budget" 3%nat Hin)
    as (Hstop & _ & Hlower & _).
  split; [exact Hstop|exact Hlower].
Defined.

Lemma keyword_counts_are_right_witness :
  In ("budget", 3%nat) (Dashboard.get_keyword_counts sample_frame 2)
  /\ 3%nat = occurrences sample_frame "budget".
Proof.
  assert (Hin : In ("budget", 3%nat) (Dashboard.get_keyword_counts sample_frame 2))
    by (left; reflexivity).
  split; [exact Hin|].
  exact (proj1 (keyword_counts_are_right sample_frame 2 "budget" 3%nat Hin)).
Defined.

Lemma keywords_are_the_most_frequent_witness :
  In "friday" (Dashboard.keyword_tokens sample_frame)
  /\ ~ In "friday" (map fst (Dashboard.get_keyword_counts sample_frame 2))
  /\ Forall (fun shown => (occurrences sample_frame "friday" <= snd shown)%nat)
            (Dashboard.get_keyword_counts sample_frame 2).
Proof.
  assert (Hin : In "friday" (Dashboard.keyword_tokens sample_frame))
    by (vm_compute; auto 10).
  assert (Hnot : ~ In "friday"
                   (map fst (Dashboard.get_keyword_counts sample_frame 2)))
    by (vm_compute; intuition discriminate).
  split; [exact Hin|]. split; [exact Hnot|].
  destruct (keywords_are_the_most_frequent sample_frame 2) as (_ & _ & _ & H).
  exact (H "friday" Hin Hnot).
Defined.

Lemma batch_run_after_prompt_form_witness :
  App.save_prompt_form partial_prompts
    "Sort this email." "List the tasks." "Be brief."
  = Ok (prompts_file world_after_form)
  /\ List.length (work (Processing.run_ingestion_pipeline
                          sample_loads steady (fun i => i) first_comparison_text world_after_form))
     = 2%nat.
Proof.
  split; [reflexivity|].
  destruct (batch_run_after_prompt_form sample_loads steady (fun i => i) first_comparison_text
              world_after_form partial_prompts
              "Sort this email." "List the tasks." "Be brief." eq_refl)
    as [Hwork _]; [discriminate|exact Hwork].
Defined.

Lemma followups_are_clean_witness :
  App.followups_of sample_draft = ["send the report"; "book a room"]
  /\ App.followups_of "No list here." = [].
Proof.
  split; [reflexivity|].
  apply (proj2 (followups_are_clean "No list here.")). reflexivity.
Defined.

Lemma run_button_loads_the_session_witness :
  exists files s record,
    App.run_button sample_loads steady (fun i => i) first_comparison_text tidy_world fresh_session
    = (files, s, Ok 2%nat)
    /\ App.entry_of (App.processed_by_id s) (VBool true) = Ok record
    /\ Py.get record "subject" = Some (VStr "Please submit report by Friday").
Proof.
  pose proof (run_button_loads_the_session sample_loads steady (fun i => i) first_comparison_text
                tidy_world fresh_session) as H.
  cbv zeta in H.
  destruct (App.run_button sample_loads steady (fun i => i) first_comparison_text tidy_world
              fresh_session) as [[files s] shown] eqn:Hrun.
  vm_compute in Hrun. injection Hrun as <- <- <-.
  destruct H as (_ & _ & _ & _ & Hentry).
  do 3 eexists. split; [reflexivity|].
  split; [rewrite (Hentry (VBool true) eq_refl); reflexivity|reflexivity].
Defined.

Lemma draft_metadata_belong_to_the_email_witness :
  exists files s record,
    App.run_button sample_loads steady (fun i => i) first_comparison_text tidy_world fresh_session
    = (files, s, Ok 2%nat)
    /\ enriched_from sample_email record
    /\ App.metadata_of s sample_email
       = Ok [ ("category", Py.get_or_none record "category");
              ("actions", Py.get_or_none record "actions") ].
Proof.
  destruct (App.run_button sample_loads steady (fun i => i) first_comparison_text tidy_world
              fresh_session) as [[files s] shown] eqn:Hrun.
  assert (Hshown : shown = Ok 2%nat).
  { vm_compute in Hrun. now injection Hrun as _ _ <-. }
  subst shown.
  destruct (draft_metadata_belong_to_the_email sample_loads steady
              (fun i => i) first_comparison_text tidy_world files fresh_session s
              Prompts.DEFAULT_PROMPTS 2 sample_email)
    as (record & _ & Her & Hmeta).
  - reflexivity.
  - discriminate.
  - discriminate.
  - repeat constructor; eexists; reflexivity.
  - repeat constructor.
  - repeat constructor; simpl; intuition discriminate.
  - exact Hrun.
  - right. now left.
  - exists files, s, record. split; [reflexivity|]. split; assumption.
Defined.
